(** * Trial fleet control plane: batch scheduler, progress parser,
      event broadcaster and trial VNC proxy

    A shallow embedding of [backend/main.py] (the [BatchManager], the
    [ConnectionManager], [batch_monitor_task], the batch endpoints,
    [parse_mission_progress] and the CPU percentage of
    [get_simulation_containers]) and of [scripts/trial-vnc-proxy.py]
    ([extract_trial_number], [proxy_handler], [websocket_handler]).

    Python values are modelled as the program has them: integers are
    unbounded ([Z]); floats are IEEE binary64 numbers ([spec_float] with
    precision 53 and maximal exponent 1024, rounding to nearest even);
    text is a list of characters, restricted to ASCII, among which the
    regular expression class [\d] is exactly [0]..[9]; an exception is
    the [Raise] case of a result type. *)

From Stdlib Require Import Ascii String.
From Stdlib Require Import ZArith List Bool Lia.
From Stdlib Require Import Sorting.Sorted Sorting.Permutation.
From Stdlib Require Import Floats.SpecFloat Numbers.DecimalString Numbers.DecimalPos.
From Stdlib Require Numbers.DecimalFacts.
Import ListNotations.

Open Scope Z_scope.

(** ** Python exceptions and results *)

Inductive py_exc : Type :=
| ZeroDivisionError
| OverflowError
| ValueError
| IndexError
| BackendError                  (* any error raised by the container backend *)
| HTTPException (status : Z).

Inductive result (A : Type) : Type :=
| Ok (a : A)
| Raise (e : py_exc).
Arguments Ok {A} a.
Arguments Raise {A} e.

Definition rbind {A B : Type} (m : result A) (k : A -> result B) : result B :=
  match m with
  | Ok a => k a
  | Raise e => Raise e
  end.

Definition rmap {A B : Type} (f : A -> B) (m : result A) : result B :=
  rbind m (fun a => Ok (f a)).

Notation "x <- m ;; k" := (rbind m (fun x => k))
  (at level 61, m at next level, right associativity).

(** ** Python numbers *)

Module PyFloat.

Definition prec : Z := 53.
Definition emax : Z := 1024.

(** [float(z)] for an integer that is in range. *)
Definition of_int (z : Z) : spec_float := binary_normalize prec emax z 0 false.

(** An integer as an exact, not yet rounded, operand of a division. *)
Definition exact_int (z : Z) : spec_float :=
  match z with
  | Z0 => S754_zero false
  | Zpos p => S754_finite false p 0
  | Zneg p => S754_finite true p 0
  end.

Definition is_infinite (x : spec_float) : bool :=
  match x with
  | S754_infinity _ => true
  | _ => false
  end.

(** [a / b] on two integers: the exact quotient, rounded once. *)
Definition int_truediv (a b : Z) : result spec_float :=
  if b =? 0 then Raise ZeroDivisionError
  else
    let q := SFdiv prec emax (exact_int a) (exact_int b) in
    if is_infinite q then Raise OverflowError else Ok q.

Definition mul (x y : spec_float) : spec_float := SFmul prec emax x y.

(** The float written [t/10] as a decimal literal with one fractional
    digit, e.g. [tenths 200] is [20.0] and [tenths 62] is [6.2]. *)
Definition tenths (t : Z) : spec_float :=
  SFdiv prec emax (exact_int t) (exact_int 10).

(** The integer nearest to [n / d] for [0 <= n], [0 < d], halves to even. *)
Definition div_half_even (n d : Z) : Z :=
  let q := n / d in
  let r := n mod d in
  match Z.compare (2 * r) d with
  | Lt => q
  | Gt => q + 1
  | Eq => if Z.even q then q else q + 1
  end.

(** [round(x, 1)] on a float: the exact binary value is rounded to one
    decimal digit, halves to even, and the decimal result is read back
    as the nearest float.  Zeros, infinities and NaN round to
    themselves. *)
Definition round1 (x : spec_float) : spec_float :=
  match x with
  | S754_finite s m e =>
      let t :=
        match e with
        | Zneg p => div_half_even (10 * Zpos m) (Zpos (Pos.iter xO xH p))
        | _ => 10 * Zpos m * 2 ^ e
        end in
      if Z.eqb t 0 then S754_zero s
      else SFdiv prec emax (S754_finite s (Z.to_pos t) 0) (exact_int 10)
  | _ => x
  end.

End PyFloat.

(** A number as Python holds it: [0] and [100] are integers, [20.0] is a
    float. *)
Inductive pynum : Type :=
| PInt (z : Z)
| PFloat (x : spec_float).

(** [round(v, 1)]: an integer is returned as it is. *)
Definition py_round1 (v : pynum) : pynum :=
  match v with
  | PInt z => PInt z
  | PFloat x => PFloat (PyFloat.round1 x)
  end.

(** ** Text *)

Definition str : Type := list ascii.

Definition lit (s : string) : str := list_ascii_of_string s.

Definition str_eq_dec : forall a b : str, {a = b} + {a <> b} :=
  list_eq_dec ascii_dec.

(** [str(z)] for an integer. *)
Definition str_of_int (z : Z) : str :=
  lit (NilZero.string_of_int (Z.to_int z)).

(** ** Trial identifiers as the lists hold them

    The pending queue is built from [range], so it holds integers; the
    monitor classifies a container under the suffix of its name, which is
    text.  Python's [in], [remove] and [==] never equate an integer with
    text, hence the two constructors. *)
Inductive tid : Type :=
| TInt (n : Z)
| TStr (s : str).

Definition tid_eq_dec : forall a b : tid, {a = b} + {a <> b}.
Proof.
  decide equality; [apply Z.eq_dec | apply str_eq_dec].
Defined.

(** [x in l] *)
Definition py_in (x : tid) (l : list tid) : bool :=
  if in_dec tid_eq_dec x l then true else false.

(** [l.remove(x)] when [x in l]: the first occurrence goes. *)
Fixpoint list_remove (x : tid) (l : list tid) : list tid :=
  match l with
  | [] => []
  | y :: l' => if tid_eq_dec x y then l' else y :: list_remove x l'
  end.

(** [list(range(a, b))] *)
Definition py_range (a b : Z) : list Z :=
  map (fun i => a + Z.of_nat i) (seq 0 (Z.to_nat (b - a))).

(** ** BatchManager *)

Record batch_info : Type := {
  start_trial : Z;
  end_trial : Z;
  concurrent : Z;
  total : Z;
  started_at : str
}.

Record BatchManager : Type := {
  active_batch : option batch_info;
  pending_trials : list tid;
  completed_trials : list tid;
  failed_trials : list tid;
  concurrent_limit : Z;
  running : bool
}.

Module BM.

(** [BatchManager.__init__] *)
Definition init : BatchManager := {|
  active_batch := None;
  pending_trials := [];
  completed_trials := [];
  failed_trials := [];
  concurrent_limit := 3;
  running := false
|}.

Definition set_pending (l : list tid) (bm : BatchManager) : BatchManager := {|
  active_batch := active_batch bm;
  pending_trials := l;
  completed_trials := completed_trials bm;
  failed_trials := failed_trials bm;
  concurrent_limit := concurrent_limit bm;
  running := running bm
|}.

Definition set_completed (l : list tid) (bm : BatchManager) : BatchManager := {|
  active_batch := active_batch bm;
  pending_trials := pending_trials bm;
  completed_trials := l;
  failed_trials := failed_trials bm;
  concurrent_limit := concurrent_limit bm;
  running := running bm
|}.

Definition set_failed (l : list tid) (bm : BatchManager) : BatchManager := {|
  active_batch := active_batch bm;
  pending_trials := pending_trials bm;
  completed_trials := completed_trials bm;
  failed_trials := l;
  concurrent_limit := concurrent_limit bm;
  running := running bm
|}.

Definition set_running (b : bool) (bm : BatchManager) : BatchManager := {|
  active_batch := active_batch bm;
  pending_trials := pending_trials bm;
  completed_trials := completed_trials bm;
  failed_trials := failed_trials bm;
  concurrent_limit := concurrent_limit bm;
  running := b
|}.

(** [start_batch(start_trial, end_trial, concurrent)]; [now] is
    [datetime.now().isoformat()].  The previous contents of the manager
    are all overwritten. *)
Definition start_batch (now : str) (s e c : Z) (bm : BatchManager) : BatchManager := {|
  active_batch := Some {| start_trial := s; end_trial := e; concurrent := c;
                          total := e - s + 1; started_at := now |};
  pending_trials := map TInt (py_range s (e + 1));
  completed_trials := [];
  failed_trials := [];
  concurrent_limit := c;
  running := true
|}.

(** [stop_batch()] *)
Definition stop_batch (bm : BatchManager) : BatchManager := {|
  active_batch := None;
  pending_trials := [];
  completed_trials := completed_trials bm;
  failed_trials := failed_trials bm;
  concurrent_limit := concurrent_limit bm;
  running := false
|}.

Definition drop_pending (t : tid) (bm : BatchManager) : BatchManager :=
  if py_in t (pending_trials bm)
  then set_pending (list_remove t (pending_trials bm)) bm
  else bm.

(** [mark_completed(trial_id)] *)
Definition mark_completed (t : tid) (bm : BatchManager) : BatchManager :=
  let bm1 := drop_pending t bm in
  if py_in t (completed_trials bm1)
  then bm1
  else set_completed (completed_trials bm1 ++ [t]) bm1.

(** [mark_failed(trial_id)] *)
Definition mark_failed (t : tid) (bm : BatchManager) : BatchManager :=
  let bm1 := drop_pending t bm in
  if py_in t (failed_trials bm1)
  then bm1
  else set_failed (failed_trials bm1 ++ [t]) bm1.

(** The dictionary returned by [get_status()].  Without a recorded
    batch it has the single key [active]. *)
Inductive status_doc : Type :=
| StatusNoBatch
| StatusBatch (active : bool) (batch : batch_info)
              (pending : nat) (pending_preview : list tid)
              (completed : nat) (completed_list : list tid)
              (failed : nat) (failed_list : list tid)
              (progress : pynum).

(** [doc["active"]] *)
Definition doc_active (d : status_doc) : bool :=
  match d with
  | StatusNoBatch => false
  | StatusBatch a _ _ _ _ _ _ _ _ => a
  end.

(** [doc.get("progress")] *)
Definition doc_progress (d : status_doc) : option pynum :=
  match d with
  | StatusNoBatch => None
  | StatusBatch _ _ _ _ _ _ _ _ p => Some p
  end.

(** [doc.get("batch")] *)
Definition doc_batch (d : status_doc) : option batch_info :=
  match d with
  | StatusNoBatch => None
  | StatusBatch _ b _ _ _ _ _ _ _ => Some b
  end.

(** [round((len(completed) + len(failed)) / total * 100, 1)] *)
Definition progress_of (ncompleted nfailed : nat) (tot : Z) : result pynum :=
  q <- PyFloat.int_truediv (Z.of_nat ncompleted + Z.of_nat nfailed) tot ;;
  Ok (py_round1 (PFloat (PyFloat.mul q (PyFloat.of_int 100)))).

(** [get_status()] *)
Definition get_status (bm : BatchManager) : result status_doc :=
  match active_batch bm with
  | None => Ok StatusNoBatch
  | Some b =>
      p <- progress_of (length (completed_trials bm)) (length (failed_trials bm)) (total b) ;;
      Ok (StatusBatch (running bm) b
            (length (pending_trials bm)) (firstn 10 (pending_trials bm))
            (length (completed_trials bm)) (completed_trials bm)
            (length (failed_trials bm)) (failed_trials bm)
            p)
  end.

End BM.

(** ** The container backend as the control plane sees it *)

(** A dictionary built by [get_simulation_containers()], cut down to the
    keys the scheduler reads.  [trial_id] is the suffix of the name. *)
Record container : Type := {
  c_trial_id : str;
  c_status : str
}.

(** What the outside world answers during one stretch of code: the
    listing of trial containers, the files under the data directory and
    the fate of each start. *)
Record backend : Type := {
  docker_client : bool;                  (* the client object is not [None] *)
  listing : result (list container);     (* the sorted listing, or the error it raises *)
  has_samples : str -> bool;             (* a [*_samples.csv] exists under [trial_<id>] *)
  start_ok : tid -> bool                 (* [start_single_trial] returns *)
}.

Definition is_status (s : string) (c : container) : bool :=
  if str_eq_dec (c_status c) (lit s) then true else false.

(** [get_simulation_containers()] *)
Definition get_simulation_containers (be : backend) : result (list container) :=
  if docker_client be then listing be else Ok [].

(** [get_running_trial_count()] *)
Definition get_running_trial_count (be : backend) : result Z :=
  if docker_client be
  then l <- get_simulation_containers be ;;
       Ok (Z.of_nat (length (filter (is_status "running") l)))
  else Ok 0.

(** ** Events handed to [manager.broadcast] and commands sent to the backend *)

Inductive event : Type :=
| EvTrialStarted (t : tid) (batch_status : BM.status_doc)
| EvBatchStarted (trials : list tid) (batch_status : BM.status_doc)
| EvBatchUpdate (batch_status : BM.status_doc)
| EvBatchComplete (batch_status : BM.status_doc)
| EvBatchCancelled
| EvBatchStopped (containers : list str).

Inductive backend_cmd : Type :=
| CmdStartTrial (t : tid)      (* [start_single_trial]: force-remove the old container, run a new one *)
| CmdStop (name : str).        (* [container.stop(timeout=10)] *)

(** The process state the handlers and the monitor share, with the two
    logs of what they did to the outside. *)
Record world : Type := {
  w_bm : BatchManager;
  w_events : list event;
  w_cmds : list backend_cmd
}.

Definition world0 : world :=
  {| w_bm := BM.init; w_events := []; w_cmds := [] |}.

(** ** A monad for code that mutates the world and may raise *)

Inductive outcome (A : Type) : Type :=
| Done (a : A)
| Exc (e : py_exc)
| OutOfFuel.
Arguments Done {A} a.
Arguments Exc {A} e.
Arguments OutOfFuel {A}.

Definition M (A : Type) : Type := world -> world * outcome A.

Definition ret {A : Type} (a : A) : M A := fun w => (w, Done a).

Definition bind {A B : Type} (m : M A) (k : A -> M B) : M B :=
  fun w =>
    match m w with
    | (w', Done a) => k a w'
    | (w', Exc e) => (w', Exc e)
    | (w', OutOfFuel) => (w', OutOfFuel)
    end.

Notation "x <~ m ;; k" := (bind m (fun x => k))
  (at level 61, m at next level, right associativity).
Notation "m ;;; k" := (bind m (fun _ => k))
  (at level 61, right associativity).

Definition raise {A : Type} (e : py_exc) : M A := fun w => (w, Exc e).

Definition out_of_fuel {A : Type} : M A := fun w => (w, OutOfFuel).

(** [try: m except Exception: h]; mutations made before the exception stay. *)
Definition catch {A : Type} (m : M A) (h : py_exc -> M A) : M A :=
  fun w =>
    match m w with
    | (w', Exc e) => h e w'
    | r => r
    end.

Definition lift {A : Type} (r : result A) : M A :=
  fun w => (w, match r with Ok a => Done a | Raise e => Exc e end).

Definition read_bm : M BatchManager := fun w => (w, Done (w_bm w)).

Definition modify_bm (f : BatchManager -> BatchManager) : M unit :=
  fun w => ({| w_bm := f (w_bm w); w_events := w_events w; w_cmds := w_cmds w |}, Done tt).

(** [await manager.broadcast(ev)]: a failed delivery never raises, see
    [ConnectionManager] below. *)
Definition broadcast (ev : event) : M unit :=
  fun w => ({| w_bm := w_bm w; w_events := w_events w ++ [ev]; w_cmds := w_cmds w |}, Done tt).

Definition issue (c : backend_cmd) : M unit :=
  fun w => ({| w_bm := w_bm w; w_events := w_events w; w_cmds := w_cmds w ++ [c] |}, Done tt).

(** [batch_manager.get_status()] evaluated as an argument *)
Definition get_status : M BM.status_doc :=
  bm <~ read_bm ;; lift (BM.get_status bm).

(** [start_single_trial(trial_id)] *)
Definition start_single_trial (be : backend) (t : tid) : M unit :=
  issue (CmdStartTrial t) ;;;
  if start_ok be t then ret tt else raise BackendError.

(** ** POST /api/batch/start *)

Record BatchRequest : Type := {
  rq_start_trial : Z;
  rq_end_trial : Z;
  rq_concurrent : Z
}.

(** The dictionary the handler returns, without its [success] entry,
    which is always true. *)
Record start_response : Type := {
  rs_started : list tid;
  rs_total : Z;
  rs_pending : nat;
  rs_message : str
}.

Definition is_nil {A : Type} (l : list A) : bool :=
  match l with
  | [] => true
  | _ :: _ => false
  end.

(** [batch_manager.pending_trials.pop(0)] *)
Definition pop_pending : M tid :=
  bm <~ read_bm ;;
  match pending_trials bm with
  | [] => raise IndexError
  | t :: rest => modify_bm (BM.set_pending rest) ;;; ret t
  end.

(** The loop of the handler that starts the first trials. *)
Fixpoint start_initial (fuel : nat) (be : backend) (limit running_count : Z)
    (started : list tid) : M (list tid) :=
  bm <~ read_bm ;;
  if (running_count <? limit) && negb (is_nil (pending_trials bm)) then
    match fuel with
    | O => out_of_fuel
    | S fuel' =>
        next_trial <~ pop_pending ;;
        ok <~ catch (start_single_trial be next_trial ;;; ret true)
                    (fun _ => modify_bm (BM.mark_failed next_trial) ;;; ret false) ;;
        if ok
        then start_initial fuel' be limit (running_count + 1) (started ++ [next_trial])
        else start_initial fuel' be limit running_count started
    end
  else ret started.

(** [start_batch(batch)], the handler.  An exception inside its [try]
    block is turned into an error response; what was mutated stays.  The
    task it creates is [batch_monitor_task] below, which runs once the
    handler awaits or returns. *)
Definition start_batch (now : str) (be : backend) (batch : BatchRequest) : M start_response :=
  if negb (docker_client be) then raise (HTTPException 500)
  else
    bm0 <~ read_bm ;;
    (if running bm0 then modify_bm BM.stop_batch else ret tt) ;;;
    catch
      (modify_bm (BM.start_batch now (rq_start_trial batch) (rq_end_trial batch)
                    (rq_concurrent batch)) ;;;
       running_count <~ lift (get_running_trial_count be) ;;
       bm1 <~ read_bm ;;
       started <~ start_initial (length (pending_trials bm1)) be
                    (rq_concurrent batch) running_count [] ;;
       st <~ get_status ;;
       broadcast (EvBatchStarted started st) ;;;
       bm2 <~ read_bm ;;
       ret {| rs_started := started;
              rs_total := rq_end_trial batch - rq_start_trial batch + 1;
              rs_pending := length (pending_trials bm2);
              rs_message :=
                lit "Batch started: " ++ str_of_int (Z.of_nat (length started))
                ++ lit " trials running, "
                ++ str_of_int (Z.of_nat (length (pending_trials bm2)))
                ++ lit " pending" |})
      (fun _ => raise (HTTPException 500)).

(** ** POST /api/batch/cancel *)

Definition cancel_batch : M unit :=
  modify_bm BM.stop_batch ;;;
  broadcast EvBatchCancelled.

(** ** POST /api/batch/stop *)

Fixpoint starts_with (p s : str) : bool :=
  match p, s with
  | [], _ => true
  | a :: p', b :: s' => if ascii_dec a b then starts_with p' s' else false
  | _ :: _, [] => false
  end.

(** The loop over [docker_client.containers.list()]; [names] are the
    running containers and [stop_ok] tells whether [stop] returns. *)
Fixpoint stop_each (stop_ok : str -> bool) (names stopped : list str) : M (list str) :=
  match names with
  | [] => ret stopped
  | name :: rest =>
      if starts_with (lit "aquatic-trial-") name then
        issue (CmdStop name) ;;;
        if stop_ok name then stop_each stop_ok rest (stopped ++ [name])
        else raise BackendError
      else stop_each stop_ok rest stopped
  end.

Definition stop_all (running_names : result (list str)) (stop_ok : str -> bool) : M (list str) :=
  catch
    (modify_bm BM.stop_batch ;;;
     names <~ lift running_names ;;
     stopped <~ stop_each stop_ok names [] ;;
     broadcast (EvBatchStopped stopped) ;;;
     ret stopped)
    (fun _ => raise (HTTPException 500)).

(** ** batch_monitor_task *)

(** The [for] loop that classifies exited containers. *)
Fixpoint classify_exited (be : backend) (containers : list container) : M unit :=
  match containers with
  | [] => ret tt
  | c :: rest =>
      (if is_status "exited" c then
         let trial_id := TStr (c_trial_id c) in
         if has_samples be (c_trial_id c)
         then modify_bm (BM.mark_completed trial_id)
         else modify_bm (BM.mark_failed trial_id)
       else ret tt) ;;;
      classify_exited be rest
  end.

(** The inner [while] loop that starts new trials; it returns the local
    [running_count]. *)
Fixpoint fill_capacity (fuel : nat) (be : backend) (running_count : Z) : M Z :=
  bm <~ read_bm ;;
  if (running_count <? concurrent_limit bm) && negb (is_nil (pending_trials bm)) then
    match fuel with
    | O => out_of_fuel
    | S fuel' =>
        match pending_trials bm with
        | [] => raise IndexError
        | next_trial :: _ =>
            (* the assignment to [running_count] survives an exception
               raised after it *)
            rc <~ catch
                    (start_single_trial be next_trial ;;;
                     _ <~ pop_pending ;;
                     catch
                       (st <~ get_status ;;
                        broadcast (EvTrialStarted next_trial st) ;;;
                        ret (running_count + 1))
                       (fun _ =>
                          modify_bm (BM.mark_failed next_trial) ;;;
                          ret (running_count + 1)))
                    (fun _ =>
                       modify_bm (BM.mark_failed next_trial) ;;;
                       ret running_count) ;;
            fill_capacity fuel' be rc
        end
    end
  else ret running_count.

(** The body of the [try] block of one cycle; [true] stands for [break]. *)
Definition cycle_body (be : backend) : M bool :=
  containers <~ lift (get_simulation_containers be) ;;
  let running_count := Z.of_nat (length (filter (is_status "running") containers)) in
  classify_exited be containers ;;;
  bm <~ read_bm ;;
  running_count <~ fill_capacity (length (pending_trials bm)) be running_count ;;
  st <~ get_status ;;
  broadcast (EvBatchUpdate st) ;;;
  bm' <~ read_bm ;;
  if is_nil (pending_trials bm') && (running_count =? 0) then
    modify_bm (BM.set_running false) ;;;
    st' <~ get_status ;;
    broadcast (EvBatchComplete st') ;;;
    ret true
  else ret false.

(** The condition of the outer [while]; the running count is asked for
    only when the queue is empty. *)
Definition monitor_guard (be : backend) : M bool :=
  bm <~ read_bm ;;
  if running bm then
    if negb (is_nil (pending_trials bm)) then ret true
    else n <~ lift (get_running_trial_count be) ;; ret (n >? 0)
  else ret false.

Inductive task_state : Type :=
| Sleeping      (* in [asyncio.sleep(5)], another iteration follows *)
| Finished.     (* the loop was left, the task is over *)

(** One pass through the outer [while]: its condition under the backend
    [g], then, if it holds, the cycle under the backend [be]. *)
Definition monitor_iteration (g be : backend) : M task_state :=
  go <~ monitor_guard g ;;
  if go then
    brk <~ catch (cycle_body be) (fun _ => ret false) ;;
    if brk then ret Finished else ret Sleeping
  else ret Finished.

(** The task run against a schedule of backend answers, one pair per
    pass.  It is [Sleeping] when the schedule ends before the loop does. *)
Fixpoint batch_monitor_task (schedule : list (backend * backend)) : M task_state :=
  match schedule with
  | [] => ret Sleeping
  | (g, be) :: rest =>
      s <~ monitor_iteration g be ;;
      match s with
      | Finished => ret Finished
      | Sleeping => batch_monitor_task rest
      end
  end.

(** ** ConnectionManager *)

Module ConnectionManager.

(** A websocket is known by its identity. *)
Definition websocket : Type := nat.

Record t : Type := { active_connections : list websocket }.

(** One call of [send_json] made by [broadcast], and how it ended. *)
Record attempt : Type := {
  at_conn : websocket;
  at_msg : event;
  at_ok : bool
}.

(** [connect(websocket)], after [accept] *)
Definition connect (ws : websocket) (m : t) : t :=
  {| active_connections := active_connections m ++ [ws] |}.

Fixpoint remove_first (ws : websocket) (l : list websocket) : option (list websocket) :=
  match l with
  | [] => None
  | x :: l' =>
      if Nat.eqb ws x then Some l'
      else match remove_first ws l' with
           | Some r => Some (x :: r)
           | None => None
           end
  end.

(** [disconnect(websocket)]: [list.remove] raises when the socket is
    not held. *)
Definition disconnect (ws : websocket) (m : t) : result t :=
  match remove_first ws (active_connections m) with
  | Some l => Ok {| active_connections := l |}
  | None => Raise ValueError
  end.

(** The [for] loop of [broadcast]; [send_ok c] tells whether
    [send_json] on [c] returns or raises.  The exception is dropped by
    the bare [except]. *)
Fixpoint deliver (send_ok : websocket -> bool) (message : event)
    (conns : list websocket) : list attempt :=
  match conns with
  | [] => []
  | connection :: rest =>
      {| at_conn := connection; at_msg := message; at_ok := send_ok connection |}
      :: deliver send_ok message rest
  end.

(** [broadcast(message)]: the manager afterwards and the calls made. *)
Definition broadcast (send_ok : websocket -> bool) (message : event) (m : t)
  : t * list attempt :=
  (m, deliver send_ok message (active_connections m)).

End ConnectionManager.

(** ** Regular expressions of the two parsers *)

Definition is_digit (c : ascii) : bool :=
  let n := nat_of_ascii c in (Nat.leb 48 n) && (Nat.leb n 57).

(** [\d+], greedy: the longest run of digits and what follows it.  The
    patterns continue with a character that is no digit, so a shorter run
    can never make them match. *)
Fixpoint span_digits (s : str) : str * str :=
  match s with
  | c :: s' =>
      if is_digit c then let (d, r) := span_digits s' in (c :: d, r)
      else ([], s)
  | [] => ([], [])
  end.

Fixpoint strip_prefix (p s : str) : option str :=
  match p, s with
  | [], _ => Some s
  | a :: p', b :: s' => if ascii_dec a b then strip_prefix p' s' else None
  | _ :: _, [] => None
  end.

(** [int(ds)] for a run of digits *)
Definition int_of_digits (ds : str) : Z :=
  fold_left (fun acc c => 10 * acc + (Z.of_nat (nat_of_ascii c) - 48)) ds 0.

(** [x in s] for text *)
Fixpoint contains (x s : str) : bool :=
  starts_with x s ||
  match s with
  | [] => false
  | _ :: s' => contains x s'
  end.

(** The pattern [Waypoint (\d+)/(\d+):] tried at the start of [s]: the
    two groups and the text after the match. *)
Definition match_waypoint (s : str) : option ((str * str) * str) :=
  match strip_prefix (lit "Waypoint ") s with
  | None => None
  | Some r1 =>
      let (a, r2) := span_digits r1 in
      if is_nil a then None
      else match r2 with
           | "/"%char :: r3 =>
               let (b, r4) := span_digits r3 in
               if is_nil b then None
               else match r4 with
                    | ":"%char :: r5 => Some ((a, b), r5)
                    | _ => None
                    end
           | _ => None
           end
  end.

(** [re.findall]: matches are searched from left to right and do not
    overlap; after a match the search resumes behind it, which [skip]
    counts down to. *)
Fixpoint findall_from (skip : nat) (s : str) : list (str * str) :=
  match s with
  | [] => []
  | _ :: s' =>
      match skip with
      | S k => findall_from k s'
      | O =>
          match match_waypoint s with
          | Some (m, rest) => m :: findall_from (length s' - length rest) s'
          | None => findall_from 0 s'
          end
      end
  end.

Definition findall_waypoint (logs : str) : list (str * str) := findall_from 0 logs.

(** ** parse_mission_progress *)

Record progress : Type := {
  current_waypoint : Z;
  total_waypoints : Z;
  mission_complete : bool;
  progress_percent : pynum
}.

Definition last_match (l : list (str * str)) : option (str * str) :=
  match rev l with
  | [] => None
  | m :: _ => Some m
  end.

Definition parse_mission_progress (logs : str) : result progress :=
  p <- match last_match (findall_waypoint logs) with
       | Some (a, b) =>
           q <- PyFloat.int_truediv (int_of_digits a) (int_of_digits b) ;;
           Ok {| current_waypoint := int_of_digits a;
                 total_waypoints := int_of_digits b;
                 mission_complete := false;
                 progress_percent :=
                   py_round1 (PFloat (PyFloat.mul q (PyFloat.of_int 100))) |}
       | None =>
           Ok {| current_waypoint := 0; total_waypoints := 0;
                 mission_complete := false; progress_percent := PInt 0 |}
       end ;;
  if contains (lit "MISSION COMPLETE!") logs
  then Ok {| current_waypoint := current_waypoint p;
             total_waypoints := total_waypoints p;
             mission_complete := true;
             progress_percent := PInt 100 |}
  else Ok p.

(** ** The CPU percentage of get_simulation_containers

    The four arguments are the cumulative counters of the two samples:
    [cpu_stats.cpu_usage.total_usage], [precpu_stats.cpu_usage.total_usage],
    [cpu_stats.system_cpu_usage] and [precpu_stats.system_cpu_usage]. *)
Definition cpu_percent (cpu_total precpu_total system_total presystem_total : Z)
  : result pynum :=
  let cpu_delta := cpu_total - precpu_total in
  let system_delta := system_total - presystem_total in
  if system_delta >? 0
  then q <- PyFloat.int_truediv cpu_delta system_delta ;;
       Ok (PFloat (PyFloat.mul q (PyFloat.of_int 100)))
  else Ok (PInt 0).

(** [stats["cpu_percent"]], that is [round(cpu_percent, 1)] *)
Definition stats_cpu_percent (cpu_total precpu_total system_total presystem_total : Z)
  : result pynum :=
  rmap py_round1 (cpu_percent cpu_total precpu_total system_total presystem_total).

(** ** Integers and decimal text in CPython *)

(** [sys.int_max_str_digits], which is 4300 unless it is set. *)
Definition max_str_digits : nat := 4300.

(** [int(ds)] on a run of ASCII digits: a run of more than 4300 digits,
    leading zeros counted, raises [ValueError]. *)
Definition py_int (ds : str) : result Z :=
  if Nat.ltb max_str_digits (length ds) then Raise ValueError
  else Ok (int_of_digits ds).

(** The number of decimal digits of [z], the sign not counted. *)
Definition decimal_digits (z : Z) : nat := length (str_of_int (Z.abs z)).

(** [str(z)], also as an f-string prints [z]: an integer of more than
    4300 decimal digits raises [ValueError]. *)
Definition py_str (z : Z) : result str :=
  if Nat.ltb max_str_digits (decimal_digits z) then Raise ValueError
  else Ok (str_of_int z).

(** ** Dictionaries built from pairs *)

(** [d[k] = v] on a dictionary kept in insertion order: a key that is
    there keeps its place and takes the new value. *)
Fixpoint dict_set (k v : str) (d : list (str * str)) : list (str * str) :=
  match d with
  | [] => [(k, v)]
  | (k', v') :: d' =>
      if str_eq_dec k k' then (k', v) :: d' else (k', v') :: dict_set k v d'
  end.

(** [{k: v for k, v in items}] *)
Definition dict_of (items : list (str * str)) : list (str * str) :=
  fold_left (fun d kv => dict_set (fst kv) (snd kv) d) items [].

(** ** trial-vnc-proxy.py *)

Module Proxy.

Definition BASE_VNC_PORT : Z := 6080.

Record request : Type := {
  rq_method : str;
  rq_host : option str;                (* the [Host] header, if any *)
  rq_path_qs : str;
  rq_headers : list (str * str);
  rq_body : option str                 (* the body when [body_exists] *)
}.

(** [re.match(r'trial(\d+)\.', host)]: the group, when the pattern
    matches at the start of [host]. *)
Definition match_trial (host : str) : option str :=
  match strip_prefix (lit "trial") host with
  | None => None
  | Some r1 =>
      let (d, r2) := span_digits r1 in
      if is_nil d then None
      else match r2 with
           | "."%char :: _ => Some d
           | _ => None
           end
  end.

(** [extract_trial_number(request)]; the conversion of the group raises
    when the group is too long. *)
Definition extract_trial_number (rq : request) : result (option Z) :=
  let host := match rq_host rq with Some h => h | None => [] end in
  match match_trial host with
  | Some d => n <- py_int d ;; Ok (Some n)
  | None => Ok None
  end.

Definition lower_char (c : ascii) : ascii :=
  let n := nat_of_ascii c in
  if (Nat.leb 65 n) && (Nat.leb n 90) then ascii_of_nat (n + 32) else c.

Definition lower (s : str) : str := map lower_char s.

Definition keep_header (dropped : list string) (h : str * str) : bool :=
  negb (existsb (fun d => if str_eq_dec (lower (fst h)) (lit d) then true else false) dropped).

(** The request made on the upstream session; [up_headers] is the
    dictionary of the headers that are passed on. *)
Record upstream_call : Type := {
  up_port : Z;
  up_method : str;
  up_url : str;
  up_headers : list (str * str);
  up_data : option str
}.

(** What the upstream session does with it. *)
Inductive upstream_outcome : Type :=
| UpResponse (status : Z) (headers : list (str * str)) (body : str)
| UpConnectorError          (* [aiohttp.ClientConnectorError] *)
| UpOtherError.             (* any other exception *)

Inductive reply : Type :=
| TextResponse (status : Z) (text : str)
| BodyResponse (status : Z) (headers : list (str * str)) (body : str)
| Crash.                    (* an exception leaves the handler: the
                               server answers 500 *)

(** [proxy_handler(request)]: the upstream calls it made and its reply.
    The two f-strings in front of the [try] print the port and the
    trial number, and raise when one of them is too long to print. *)
Definition proxy_handler (upstream : upstream_call -> upstream_outcome) (rq : request)
  : list upstream_call * reply :=
  match extract_trial_number rq with
  | Raise _ => ([], Crash)
  | Ok None =>
      ([], TextResponse 400 (lit "Invalid trial URL. Use trialX.bharathdesikan.com"))
  | Ok (Some trial_num) =>
      let target_port := BASE_VNC_PORT + trial_num in
      match py_str target_port, py_str trial_num with
      | Ok port_text, Ok trial_text =>
          let target_url := lit "http://localhost:" ++ port_text ++ rq_path_qs rq in
          let call :=
            {| up_port := target_port;
               up_method := rq_method rq;
               up_url := target_url;
               up_headers :=
                 dict_of (filter (keep_header ["host"; "content-length"]%string)
                            (rq_headers rq));
               up_data := rq_body rq |} in
          ([call],
           match upstream call with
           | UpResponse status headers body =>
               BodyResponse status
                 (dict_of (filter (keep_header ["content-encoding"; "transfer-encoding";
                                                "content-length"]%string) headers))
                 body
           | UpConnectorError =>
               TextResponse 503
                 (lit "Trial " ++ trial_text ++ lit " VNC not running (port "
                  ++ port_text ++ lit ")")
           | UpOtherError => Crash
           end)
      | _, _ => ([], Crash)
      end
  end.

End Proxy.

(** ** start_single_trial: what a trial container is given *)


(** [trial_id % 100], the ROS domain of the trial *)
Definition domain_id (trial_id : Z) : Z := trial_id mod 100.




(** ** get_simulation_containers in full *)

(** [s.replace(old, "")] for a non-empty [old]: the occurrences are
    searched from left to right and do not overlap; [skip] counts down
    the rest of an occurrence that is being dropped. *)
Fixpoint str_remove_from (skip : nat) (old s : str) : str :=
  match s with
  | [] => []
  | c :: s' =>
      match skip with
      | S k => str_remove_from k old s'
      | O =>
          if starts_with old s then str_remove_from (length old - 1) old s'
          else c :: str_remove_from 0 old s'
      end
  end.

Definition str_remove (old s : str) : str := str_remove_from 0 old s.

(** [s.isdigit()] on ASCII text *)
Definition isdigit (s : str) : bool := negb (is_nil s) && forallb is_digit s.

(** [sorted(l, key=key)]: Python's sort is stable, so the result is the
    one of any stable sort; this is the insertion sort. *)
Fixpoint insert_by {A : Type} (key : A -> Z) (x : A) (l : list A) : list A :=
  match l with
  | [] => [x]
  | y :: l' => if key x <=? key y then x :: l else y :: insert_by key x l'
  end.

Definition py_sorted {A : Type} (key : A -> Z) (l : list A) : list A :=
  fold_right (insert_by key) [] l.

(** [x / y] with a float on the left. *)
Definition float_div (x y : spec_float) : result spec_float :=
  match y with
  | S754_zero _ => Raise ZeroDivisionError
  | _ => Ok (SFdiv PyFloat.prec PyFloat.emax x y)
  end.

Module Aggregator.

(** The answer of [container.stats(stream=False)], cut down to what is
    read.  A counter is [None] when the path to it is not in the
    answer, which raises [KeyError]; the two memory entries are read
    with [get] and a default. *)
Record raw_stats : Type := {
  cpu_total_usage : option Z;          (* cpu_stats.cpu_usage.total_usage *)
  precpu_total_usage : option Z;       (* precpu_stats.cpu_usage.total_usage *)
  system_cpu_usage : option Z;         (* cpu_stats.system_cpu_usage *)
  presystem_cpu_usage : option Z;      (* precpu_stats.system_cpu_usage *)
  mem_usage : option Z;                (* memory_stats.usage *)
  mem_limit : option Z                 (* memory_stats.limit *)
}.

(** A container as the docker client shows it. *)
Record docker_container : Type := {
  dc_name : str;
  dc_status : str;
  dc_stats : result raw_stats;         (* [container.stats], or the error it raises *)
  dc_logs : result str;                (* the decoded last 50 log lines, or the error *)
  dc_ports : option (list (str * list str));
                                       (* NetworkSettings.Ports: the host ports of each
                                          container port; [None] when it is not there *)
  dc_created : str
}.

Record stats : Type := {
  st_cpu_percent : pynum;
  st_mem_usage_mb : pynum;
  st_mem_percent : pynum
}.

(** An entry of the list that is returned; an empty dictionary of stats
    or of mission progress is [None]. *)
Record snapshot : Type := {
  sn_name : str;
  sn_trial_id : str;
  sn_status : str;
  sn_vnc_port : option str;
  sn_stats : option stats;
  sn_mission : option progress;
  sn_created : str
}.

(** [d.get(key, default)] *)
Definition get_or (o : option Z) (default : Z) : Z :=
  match o with
  | Some z => z
  | None => default
  end.

(** A [try] block whose bare [except] leaves the empty dictionary:
    whatever is raised, the outcome is [None]. *)
Definition best_effort {A : Type} (r : result A) : option A :=
  match r with
  | Ok a => Some a
  | Raise _ => None
  end.

Definition obind {A B : Type} (m : option A) (k : A -> option B) : option B :=
  match m with
  | Some a => k a
  | None => None
  end.

Notation "x <-? m ;; k" := (obind m (fun x => k))
  (at level 61, m at next level, right associativity).

(** The first [try] block.  [None] stands for any exception: the
    [KeyError] of a counter that is not there, or an error of a
    division. *)
Definition compute_stats (raw : raw_stats) : option stats :=
  c <-? cpu_total_usage raw ;;
  pc <-? precpu_total_usage raw ;;
  s <-? system_cpu_usage raw ;;
  ps <-? presystem_cpu_usage raw ;;
  cpu <-? best_effort (cpu_percent c pc s ps) ;;
  let usage := get_or (mem_usage raw) 0 in
  let limit := get_or (mem_limit raw) 1 in
  q <-? best_effort (PyFloat.int_truediv usage limit) ;;
  let mem_percent := PyFloat.mul q (PyFloat.of_int 100) in
  kb <-? best_effort (PyFloat.int_truediv usage 1024) ;;
  mb <-? best_effort (float_div kb (PyFloat.of_int 1024)) ;;
  Some {| st_cpu_percent := py_round1 cpu;
          st_mem_usage_mb := PFloat (PyFloat.round1 mb);
          st_mem_percent := PFloat (PyFloat.round1 mem_percent) |}.

Fixpoint assoc (k : str) (l : list (str * list str)) : option (list str) :=
  match l with
  | [] => None
  | (k', v) :: l' => if str_eq_dec k k' then Some v else assoc k l'
  end.

Definition vnc_port_of (ports : option (list (str * list str))) : option str :=
  match ports with
  | Some tbl =>
      match assoc (lit "6080/tcp") tbl with
      | Some (host_port :: _) => Some host_port
      | _ => None
      end
  | None => None
  end.

Definition is_running (c : docker_container) : bool :=
  if str_eq_dec (dc_status c) (lit "running") then true else false.

(** The dictionary appended for one container of the fleet. *)
Definition snapshot_of (c : docker_container) : snapshot :=
  {| sn_name := dc_name c;
     sn_trial_id := str_remove (lit "aquatic-trial-") (dc_name c);
     sn_status := dc_status c;
     sn_vnc_port := vnc_port_of (dc_ports c);
     sn_stats :=
       if is_running c
       then raw <-? best_effort (dc_stats c) ;; compute_stats raw
       else None;
     sn_mission :=
       if is_running c
       then best_effort (logs <- dc_logs c ;; parse_mission_progress logs)
       else None;
     sn_created := dc_created c |}.

(** The key of the final sort. *)
Definition sort_key (sn : snapshot) : Z :=
  if isdigit (sn_trial_id sn) then int_of_digits (sn_trial_id sn) else 0.

Definition in_fleet (c : docker_container) : bool :=
  starts_with (lit "aquatic-trial-") (dc_name c).

(** [get_simulation_containers()]; [client] is [None] when there is no
    docker client, else the answer of [containers.list(all=True)]. *)
Definition get_simulation_containers (client : option (result (list docker_container)))
  : result (list snapshot) :=
  match client with
  | None => Ok []
  | Some listed =>
      l <- listed ;;
      Ok (py_sorted sort_key (map snapshot_of (filter in_fleet l)))
  end.

End Aggregator.

(** ** The /ws endpoint *)

Module Endpoint.

(** How the [while True] loop of the endpoint ends.  It has no exit of
    its own: it runs until a statement of its body raises. *)
Inductive loop_end : Type :=
| ClientGone                        (* [WebSocketDisconnect] *)
| LoopError (e : py_exc).           (* any other exception *)

(** The [except] clause of [websocket_endpoint(websocket)]: what the
    end of the loop does to the manager, and the exception that leaves
    the handler. *)
Definition leave (ws : ConnectionManager.websocket) (ending : loop_end)
    (m : ConnectionManager.t) : ConnectionManager.t * option py_exc :=
  match ending with
  | ClientGone =>
      match ConnectionManager.disconnect ws m with
      | Ok m' => (m', None)
      | Raise e => (m, Some e)
      end
  | LoopError e => (m, Some e)
  end.

(** [websocket_endpoint(websocket)] from the accepted socket to the end
    of its loop; [between] is what the other handlers do to the manager
    while the loop runs. *)
Definition websocket_endpoint (ws : ConnectionManager.websocket)
    (between : ConnectionManager.t -> ConnectionManager.t) (ending : loop_end)
    (m : ConnectionManager.t) : ConnectionManager.t * option py_exc :=
  leave ws ending (between (ConnectionManager.connect ws m)).

End Endpoint.

(** ** trial-vnc-proxy.py: the WebSocket route *)

Module ProxyWs.







Inductive ws_action : Type :=
| Prepare                           (* [ws_client.prepare(request)], the handshake *)
| WsConnect (port : Z) (url : str)  (* [session.ws_connect(target_ws_url)] *)
| LogError.                         (* [logger.error] in the [except] clause *)

Inductive ws_reply : Type :=
| WsText (status : Z) (text : str)
| WsSocket                          (* [ws_client] *)
| WsCrash.                          (* an exception leaves the handler *)

(** [websocket_handler(request)]: what it does and its reply.
    [prepare_ok] tells whether the handshake returns, [session_ok]
    whether the upstream connection and the relay end without an
    exception; an exception of theirs is caught and logged. *)
Definition websocket_handler (prepare_ok session_ok : bool) (rq : Proxy.request)
  : list ws_action * ws_reply :=
  match Proxy.extract_trial_number rq with
  | Raise _ => ([], WsCrash)
  | Ok None => ([], WsText 400 (lit "Invalid trial URL"))
  | Ok (Some trial_num) =>
      let target_port := Proxy.BASE_VNC_PORT + trial_num in
      match py_str target_port, py_str trial_num with
      | Ok port_text, Ok _ =>
          let target_ws_url :=
            lit "ws://localhost:" ++ port_text ++ Proxy.rq_path_qs rq in
          if prepare_ok
          then (Prepare :: WsConnect target_port target_ws_url
                  :: (if session_ok then [] else [LogError]),
                WsSocket)
          else ([Prepare], WsCrash)
      | _, _ => ([], WsCrash)
      end
  end.

End ProxyWs.

(** ** Lines and paths *)

(** [s.split(sep)] for a separator of one character *)
Fixpoint split_on (sep : ascii) (s : str) : list str :=
  match s with
  | [] => [[]]
  | c :: s' =>
      if ascii_dec c sep then [] :: split_on sep s'
      else match split_on sep s' with
           | l :: ls => (c :: l) :: ls
           | [] => [[c]]
           end
  end.

(** [sep.join(l)] *)
Fixpoint join (sep : str) (l : list str) : str :=
  match l with
  | [] => []
  | x :: l' =>
      match l' with
      | [] => x
      | _ :: _ => x ++ sep ++ join sep l'
      end
  end.

(** [l[-n:]] for a positive [n] *)
Definition last_n {A : Type} (n : nat) (l : list A) : list A :=
  skipn (length l - n) l.

Definition ends_with_slash (s : str) : bool :=
  match rev s with
  | c :: _ => if ascii_dec c "/" then true else false
  | [] => false
  end.

(** [os.path.join(a, b)] *)
Definition path_join (a b : str) : str :=
  if starts_with (lit "/") b then b
  else if is_nil a || ends_with_slash a then a ++ b
  else a ++ "/"%char :: b.

Definition str_eqb (a b : str) : bool := if str_eq_dec a b then true else false.

(** The body of the loop of [posixpath.normpath]. *)
Definition norm_step (initial_slashes : nat) (new_comps : list str) (comp : str)
  : list str :=
  if is_nil comp || str_eqb comp (lit ".") then new_comps
  else if negb (str_eqb comp (lit ".."))
          || (Nat.eqb initial_slashes 0 && is_nil new_comps)
          || (negb (is_nil new_comps) && str_eqb (last new_comps []) (lit ".."))
       then new_comps ++ [comp]
       else if negb (is_nil new_comps) then removelast new_comps
            else new_comps.

(** [posixpath.normpath(path)] *)
Definition normpath (path : str) : str :=
  if is_nil path then lit "."
  else
    let initial_slashes :=
      if starts_with (lit "/") path
      then if starts_with (lit "//") path && negb (starts_with (lit "///") path)
           then 2%nat else 1%nat
      else 0%nat in
    let comps := fold_left (norm_step initial_slashes) (split_on "/" path) [] in
    let p := repeat "/"%char initial_slashes ++ join (lit "/") comps in
    if is_nil p then lit "." else p.

(** [os.path.abspath(path)] in the working directory [cwd] *)
Definition abspath (cwd path : str) : str :=
  normpath (if starts_with (lit "/") path then path else path_join cwd path).

(** ** Reconstruction processes and trial data *)

Module Reconstruction.

(** [reconstruction_processes]: a dictionary from trial identifiers to
    [Popen] objects, which are known here by their pid.  Nothing
    iterates over it. *)
Definition table : Type := list (Z * Z).

(** [d.get(k)]; [k in d] is [lookup k d <> None] *)
Fixpoint lookup (k : Z) (t : table) : option Z :=
  match t with
  | [] => None
  | (k', v) :: t' => if k =? k' then Some v else lookup k t'
  end.

(** [del d[k]] *)
Fixpoint delete (k : Z) (t : table) : table :=
  match t with
  | [] => []
  | (k', v) :: t' => if k =? k' then delete k t' else (k', v) :: delete k t'
  end.

(** [d[k] = v] *)
Fixpoint store (k v : Z) (t : table) : table :=
  match t with
  | [] => [(k, v)]
  | (k', v') :: t' => if k =? k' then (k, v) :: t' else (k', v') :: store k v t'
  end.

(** The processes as the handler finds them. *)
Record procs : Type := {
  poll : Z -> option Z;                (* [proc.poll()]: [None] while it runs,
                                          else the return code *)
  wait_ok : Z -> bool                  (* [proc.wait(timeout)] returns in time *)
}.

Inductive effect : Type :=
| Terminate (pid : Z)
| Wait (pid : Z) (timeout : Z)
| Kill (pid : Z)
| Popen (cmd : list str) (cwd : str) (log_file : str)
| Broadcast (trial_id : Z).            (* the event [reconstruction_started] *)

(** [terminate], [wait] and, when the wait raises, [kill], for a
    process that still runs. *)
Definition stop_process (ps : procs) (timeout pid : Z) : list effect :=
  match poll ps pid with
  | None => Terminate pid :: Wait pid timeout
            :: (if wait_ok ps pid then [] else [Kill pid])
  | Some _ => []
  end.

(** [os.path.expanduser] of the three directories; [home] is the home
    directory of the user. *)
Definition missions_dir (home : str) : str :=
  home ++ lit "/workspaces/aquatic-mapping/src/sampling/data/missions".

Definition reconstruction_dir (home : str) : str :=
  home ++ lit "/workspaces/aquatic-mapping/reconstruction".

Definition results_root (home : str) : str :=
  home ++ lit "/workspaces/aquatic-mapping/reconstruction/results".

(** [f"~/workspaces/aquatic-mapping/reconstruction/results/trial_{trial_id}"],
    expanded *)
Definition results_dir (home : str) (trial_id : Z) : str :=
  home ++ lit "/workspaces/aquatic-mapping/reconstruction/results/trial_"
       ++ str_of_int trial_id.

(** What [shutil.rmtree] does to a path that exists; [msg] is [str(e)]. *)
Inductive rm_outcome : Type :=
| Removed
| PermissionDenied (msg : str)        (* [PermissionError] *)
| RmFailed (msg : str).               (* any other exception *)

Record delete_doc : Type := {
  dd_success : bool;
  dd_deleted : list str;
  dd_errors : list str;
  dd_message : str
}.

(** [delete_trial_data(trial_id)]; [data] and [results] are [None] when
    the directory does not exist, else what [shutil.rmtree] does to it.
    The walk that resets the permissions before the removal has no part
    in the answer: whatever it raises is dropped. *)
Definition delete_trial_data (home : str) (ps : procs) (trial_id : Z)
    (data results : option rm_outcome) (t : table)
  : (table * list effect) * result delete_doc :=
  let trial_data_path :=
    path_join (missions_dir home) (lit "trial_" ++ str_of_int trial_id) in
  let trial_results_path :=
    path_join (results_root home) (lit "trial_" ++ str_of_int trial_id) in
  let (deleted1, errors1) :=
    match data with
    | None => ([], [])
    | Some Removed => ([lit "trial data (" ++ trial_data_path ++ lit ")"], [])
    | Some (PermissionDenied _) =>
        ([], [lit "Permission denied deleting trial data. Files may be owned by Docker. Try: sudo rm -rf "
                ++ trial_data_path])
    | Some (RmFailed msg) => ([], [lit "Failed to delete trial data: " ++ msg])
    end in
  let (deleted2, errors) :=
    match results with
    | None => (deleted1, errors1)
    | Some Removed =>
        (deleted1 ++ [lit "reconstruction results (" ++ trial_results_path ++ lit ")"],
         errors1)
    | Some (PermissionDenied msg) | Some (RmFailed msg) =>
        (deleted1, errors1 ++ [lit "Failed to delete reconstruction results: " ++ msg])
    end in
  let '(t', effects, deleted) :=
    match lookup trial_id t with
    | Some proc =>
        (delete trial_id t, stop_process ps 2 proc,
         deleted2 ++ [lit "running reconstruction process"])
    | None => (t, [], deleted2)
    end in
  if is_nil deleted && is_nil errors
  then ((t', effects), Raise (HTTPException 404))
  else ((t', effects),
        Ok {| dd_success := is_nil errors;
              dd_deleted := deleted;
              dd_errors := errors;
              dd_message :=
                if is_nil errors
                then lit "Deleted trial " ++ str_of_int trial_id
                else lit "Partially deleted trial " ++ str_of_int trial_id |}).

Record start_doc : Type := {
  sd_message : str;
  sd_pid : Z;
  sd_log_file : str
}.

(** [start_reconstruction(trial_id, request)]; [trial_exists] tells
    whether the data directory of the trial exists, [spawn] is the pid
    of the process that [Popen] starts, or what is raised on the way to
    it.  The request body is not read. *)
Definition start_reconstruction (home : str) (ps : procs) (trial_id : Z)
    (trial_exists : bool) (spawn : result Z) (t : table)
  : (table * list effect) * result start_doc :=
  let venv_python :=
    path_join (path_join (path_join (reconstruction_dir home) (lit "venv")) (lit "bin"))
              (lit "python") in
  let script_path := path_join (reconstruction_dir home) (lit "run_reconstruction.py") in
  if negb trial_exists then ((t, []), Raise (HTTPException 404))
  else
    let (t1, stops) :=
      match lookup trial_id t with
      | Some proc => (delete trial_id t, stop_process ps 5 proc)
      | None => (t, [])
      end in
    let cmd := [venv_python; script_path; lit "all"; str_of_int trial_id; lit "all"] in
    let log_file := path_join (results_dir home trial_id) (lit "reconstruction.log") in
    match spawn with
    | Ok pid =>
        ((store trial_id pid t1,
          stops ++ [Popen cmd (reconstruction_dir home) log_file; Broadcast trial_id]),
         Ok {| sd_message := lit "Reconstruction started for trial " ++ str_of_int trial_id;
               sd_pid := pid;
               sd_log_file := log_file |})
    | Raise _ => ((t1, stops), Raise (HTTPException 500))
    end.

Inductive status_doc : Type :=
| NoProcess                          (* running false, "No reconstruction process found" *)
| InProgress (pid : Z)               (* running true, "Reconstruction in progress" *)
| Ended (return_code : Z) (success : bool) (message : str) (error : option str).

(** The condition of the list comprehension over the lines of the log. *)
Definition is_error_line (line : str) : bool :=
  contains (lit "ERROR") line || contains (lit "error") (Proxy.lower line).

(** [status["error"]] from the text of the log. *)
Definition error_of_log (log_content : str) : str :=
  let error_lines := filter is_error_line (split_on "010" log_content) in
  if negb (is_nil error_lines) then join ["010"%char] (last_n 5 error_lines)
  else lit "Reconstruction failed. Check logs for details.".

(** [get_reconstruction_status(trial_id)]; [log] is [None] when there is
    no log file, else its text or what reading it raises. *)
Definition get_reconstruction_status (ps : procs) (trial_id : Z)
    (log : option (result str)) (t : table) : status_doc :=
  match lookup trial_id t with
  | None => NoProcess
  | Some proc =>
      match poll ps proc with
      | None => InProgress proc
      | Some return_code =>
          if negb (return_code =? 0) then
            match log with
            | Some (Ok log_content) =>
                Ended return_code false (lit "Reconstruction failed")
                      (Some (error_of_log log_content))
            | Some (Raise _) =>
                Ended return_code false (lit "Reconstruction failed")
                      (Some (lit "Could not read error log"))
            | None =>
                Ended return_code false (lit "Reconstruction failed")
                      (Some (lit "No log file found"))
            end
          else Ended return_code true (lit "Reconstruction completed successfully") None
      end
  end.

Inductive image_reply : Type :=
| Forbidden                          (* 403 *)
| NotFound                           (* 404 *)
| FileResponse (path : str).

(** [get_reconstruction_image(trial_id, image_path)]; [cwd] is the
    working directory and [file_exists] the file system. *)
Definition get_reconstruction_image (home cwd : str) (file_exists : str -> bool)
    (trial_id : Z) (image_path : str) : image_reply :=
  let full_path := path_join (results_dir home trial_id) image_path in
  if negb (starts_with (abspath cwd (results_dir home trial_id)) (abspath cwd full_path))
  then Forbidden
  else if negb (file_exists full_path) then NotFound
  else FileResponse full_path.

End Reconstruction.

(** ** Vocabulary of the properties *)

Definition mk_world (bm : BatchManager) (ev : list event) (cm : list backend_cmd) : world :=
  {| w_bm := bm; w_events := ev; w_cmds := cm |}.

(** The number of trials the first loop starts when every start succeeds:
    the free capacity, or the whole queue if that is shorter. *)
Definition free_slots (limit rc : Z) (queue : list tid) : nat :=
  Z.to_nat (Z.min (Z.max (limit - rc) 0) (Z.of_nat (length queue))).

(** The pending queue has no duplicates and shares no element with the
    completed list nor with the failed list.  Elements are compared as
    Python compares them: the integer [3] and the text ["3"] differ. *)
Definition batch_inv (bm : BatchManager) : Prop :=
  NoDup (pending_trials bm) /\
  (forall t, In t (pending_trials bm) -> ~ In t (completed_trials bm)) /\
  (forall t, In t (pending_trials bm) -> ~ In t (failed_trials bm)).

(** A step that only takes identifiers out of the pending queue and keeps
    [batch_inv]. *)
Definition shrinks (a b : BatchManager) : Prop :=
  incl (pending_trials b) (pending_trials a) /\ (batch_inv a -> batch_inv b).

(** [m] changes the manager along [shrinks], however it ends. *)
Definition shrinking {A : Type} (m : M A) : Prop :=
  forall w, shrinks (w_bm w) (w_bm (fst (m w))).





Definition is_complete_event (ev : event) : bool :=
  match ev with
  | EvBatchComplete _ => true
  | _ => false
  end.

(** The literal that ends a mission log. *)
Definition marker : str := lit "MISSION COMPLETE!".



(** The free capacity a loop starts from. *)
Definition capacity (limit rc : Z) : nat := Z.to_nat (Z.max (limit - rc) 0).

(** One step of [int]: a digit more on the right. *)
Definition digit_step (acc : Z) (c : ascii) : Z :=
  10 * acc + (Z.of_nat (nat_of_ascii c) - 48).






(** What the handlers of the other sockets do to the manager. *)
Inductive registry_op : Type :=
| RConnect (ws : ConnectionManager.websocket)
| RDisconnect (ws : ConnectionManager.websocket).

Definition registry_socket (o : registry_op) : ConnectionManager.websocket :=
  match o with
  | RConnect ws | RDisconnect ws => ws
  end.

Definition registry_step (m : ConnectionManager.t) (o : registry_op) : ConnectionManager.t :=
  match o with
  | RConnect ws => ConnectionManager.connect ws m
  | RDisconnect ws =>
      match ConnectionManager.disconnect ws m with
      | Ok m' => m'
      | Raise _ => m
      end
  end.

Definition registry_run (ops : list registry_op) (m : ConnectionManager.t)
  : ConnectionManager.t :=
  fold_left registry_step ops m.

(** How many times the manager holds a socket. *)
Definition held (ws : ConnectionManager.websocket) (m : ConnectionManager.t) : nat :=
  count_occ Nat.eq_dec (ConnectionManager.active_connections m) ws.






(** An integer that [str] prints. *)
Definition printable (z : Z) : Prop := (decimal_digits z <= max_str_digits)%nat.

(** An identifier as the queue holds it, not as the monitor reads it
    off a container. *)
Definition is_int (t : tid) : bool :=
  match t with
  | TInt _ => true
  | TStr _ => false
  end.

(** The table after a handler. *)
Definition table_after {A : Type} (r : (Reconstruction.table * list Reconstruction.effect) * A)
  : Reconstruction.table := fst (fst r).

Definition effects_of {A : Type} (r : (Reconstruction.table * list Reconstruction.effect) * A)
  : list Reconstruction.effect := snd (fst r).

(** A removal that was tried and did not succeed. *)
Definition rm_failed (o : option Reconstruction.rm_outcome) : bool :=
  match o with
  | Some (Reconstruction.PermissionDenied _) | Some (Reconstruction.RmFailed _) => true
  | _ => false
  end.

(** A line that has the word [error] in it, in any letter case. *)
Definition mentions_error (line : str) : bool :=
  contains (lit "error") (Proxy.lower line).

Definition newline : ascii := "010"%char.

(** A name of a file or a directory: not empty, neither [.] nor [..],
    and no slash in it. *)
Definition is_plain (c : str) : bool :=
  negb (is_nil c) && negb (str_eqb c (lit ".")) && negb (str_eqb c (lit ".."))
  && forallb (fun ch => if ascii_dec ch "/" then false else true) c.

(** The absolute path made of the names [cs]. *)
Definition abs_path (cs : list str) : str := flat_map (fun c => "/"%char :: c) cs.

(** The names from the home directory to the results. *)
Definition results_comps : list str :=
  [lit "workspaces"; lit "aquatic-mapping"; lit "reconstruction"; lit "results"].

(** The name of the directory of a trial. *)
Definition trial_dir (trial_id : Z) : str := lit "trial_" ++ str_of_int trial_id.

(** What the image handler answers once its check has passed. *)
Definition served (file_exists : str -> bool) (path : str) : Reconstruction.image_reply :=
  if file_exists path then Reconstruction.FileResponse path else Reconstruction.NotFound.

(** ** Sample requests, backends and states *)

Definition ctr (id status : string) : container :=
  {| c_trial_id := lit id; c_status := lit status |}.

Definition request (s e c : Z) : BatchRequest :=
  {| rq_start_trial := s; rq_end_trial := e; rq_concurrent := c |}.

(** A reachable backend with the listing [l], no sample file, and starts
    that succeed as [ok] tells. *)
Definition backend_with (l : list container) (ok : tid -> bool) : backend :=
  {| docker_client := true;
     listing := Ok l;
     has_samples := fun _ => false;
     start_ok := ok |}.

Definition samples_at (ids : list string) : str -> bool :=
  fun id => existsb (fun i => if str_eq_dec id (lit i) then true else false) ids.

(** A reachable backend with the listing [l], sample files for the trials
    [samples], and starts that all succeed. *)
Definition backend_at (l : list container) (samples : list string) : backend :=
  {| docker_client := true;
     listing := Ok l;
     has_samples := samples_at samples;
     start_ok := fun _ => true |}.

(** Three trials, one completed and one failed: progress 66.7. *)
Definition two_of_three : BatchManager :=
  BM.mark_failed (TInt 2)
    (BM.mark_completed (TStr (lit "1")) (BM.start_batch (lit "t0") 1 3 3 BM.init)).



(** A batch of one trial.  The trial is started by the handler, is seen
    running by the first pass of the monitor and exits during the sleep. *)
Definition single_trial_started : world :=
  fst (start_batch (lit "t0") (backend_at [] []) (request 1 1 1) world0).

Definition single_trial_schedule : list (backend * backend) :=
  [ (backend_at [ctr "1" "running"] [], backend_at [ctr "1" "running"] []);
    (backend_at [ctr "1" "exited"] ["1"%string],
     backend_at [ctr "1" "exited"] ["1"%string]) ].


(** A running container with the statistics [raw] and the log text
    [logs]. *)
Definition running_container (name : string) (raw : Aggregator.raw_stats) (logs : string)
  : Aggregator.docker_container :=
  {| Aggregator.dc_name := lit name;
     Aggregator.dc_status := lit "running";
     Aggregator.dc_stats := Ok raw;
     Aggregator.dc_logs := Ok (lit logs);
     Aggregator.dc_ports := None;
     Aggregator.dc_created := lit "2025-01-01T00:00:00Z" |}.

(** Counters that advance, and a memory limit of zero. *)
Definition zero_limit_stats : Aggregator.raw_stats :=
  {| Aggregator.cpu_total_usage := Some 900;
     Aggregator.precpu_total_usage := Some 400;
     Aggregator.system_cpu_usage := Some 8000;
     Aggregator.presystem_cpu_usage := Some 7000;
     Aggregator.mem_usage := Some 1048576;
     Aggregator.mem_limit := Some 0 |}.


(** Processes that all still run and do not end on [terminate]. *)
Definition stubborn : Reconstruction.procs :=
  {| Reconstruction.poll := fun _ => None; Reconstruction.wait_ok := fun _ => false |}.

(** Processes that have all ended with return code [rc]. *)
Definition ended_with (rc : Z) : Reconstruction.procs :=
  {| Reconstruction.poll := fun _ => Some rc; Reconstruction.wait_ok := fun _ => true |}.

(** A log of three lines, two of which tell of an error. *)
Definition sample_log : str :=
  lit "ok" ++ newline :: lit "ERROR a" ++ newline :: lit "Error b".

(** A request for the page of a trial desktop under the host [host]. *)
Definition request_of (host : str) : Proxy.request :=
  {| Proxy.rq_method := lit "GET";
     Proxy.rq_host := Some host;
     Proxy.rq_path_qs := lit "/vnc.html";
     Proxy.rq_headers := [(lit "Host", host); (lit "Accept", lit "text/html")];
     Proxy.rq_body := None |}.

(** A host whose label has 4301 digits. *)
Definition long_label_host : str :=
  lit "trial" ++ repeat "1"%char 4301 ++ lit ".example.com".

(** A plain request for the page of a trial desktop. *)
Definition request_for (host : string) : Proxy.request :=
  {| Proxy.rq_method := lit "GET";
     Proxy.rq_host := Some (lit host);
     Proxy.rq_path_qs := lit "/vnc.html";
     Proxy.rq_headers := [(lit "Host", lit host); (lit "Accept", lit "text/html")];
     Proxy.rq_body := None |}.

(** * Properties *)

(** ** Rounding to one decimal *)

(** [div_half_even] returns an integer nearest to the quotient. *)
Lemma div_half_even_nearest (n d : Z) :
  0 < d -> Z.abs (2 * (PyFloat.div_half_even n d * d - n)) <= d.
Proof.
  intros Hd. unfold PyFloat.div_half_even.
  pose proof (Z.div_mod n d ltac:(lia)) as Hdm.
  pose proof (Z.mod_pos_bound n d Hd) as Hr.
  destruct (Z.compare_spec (2 * (n mod d)) d) as [He | Hl | Hg];
    try destruct (Z.even (n / d)); nia.
Qed.

(** On a tie it returns the even neighbour. *)
Lemma div_half_even_tie (n d : Z) :
  0 < d -> 2 * (n mod d) = d -> Z.even (PyFloat.div_half_even n d) = true.
Proof.
  intros Hd He. unfold PyFloat.div_half_even.
  rewrite He, Z.compare_refl.
  destruct (Z.even (n / d)) eqn:E; [exact E |].
  rewrite Z.even_add, E. reflexivity.
Qed.

Lemma pow2_iter (p : positive) : Zpos (Pos.iter xO xH p) = 2 ^ Zpos p.
Proof.
  induction p as [| p IH] using Pos.peano_ind.
  - reflexivity.
  - rewrite Pos.iter_succ, Pos2Z.inj_succ, Z.pow_succ_r by lia.
    rewrite <- IH. reflexivity.
Qed.

(** [round(x, 1)] on a float [m * 2^-p] is the float written [t/10] for
    an integer [t] nearest to ten times its exact value. *)
Lemma round1_nearest_tenth (s : bool) (m p : positive) :
  exists t,
    0 <= t /\
    Z.abs (2 * (t * 2 ^ Zpos p - 10 * Zpos m)) <= 2 ^ Zpos p /\
    PyFloat.round1 (S754_finite s m (Zneg p)) =
      if t =? 0 then S754_zero s
      else SFdiv PyFloat.prec PyFloat.emax (S754_finite s (Z.to_pos t) 0)
             (PyFloat.exact_int 10).
Proof.
  exists (PyFloat.div_half_even (10 * Zpos m) (Zpos (Pos.iter xO xH p))).
  pose proof (div_half_even_nearest (10 * Zpos m) (Zpos (Pos.iter xO xH p)) ltac:(lia)) as H.
  split; [| split; [| reflexivity]].
  - unfold PyFloat.div_half_even.
    pose proof (Z.div_pos (10 * Zpos m) (Zpos (Pos.iter xO xH p)) ltac:(lia) ltac:(lia)).
    destruct (_ ?= _); [destruct (Z.even _) | |]; lia.
  - rewrite <- (pow2_iter p). exact H.
Qed.

(** ** Status document *)

Lemma get_status_raises_iff (bm : BatchManager) (b : batch_info) :
  active_batch bm = Some b ->
  (BM.get_status bm = Raise ZeroDivisionError <-> total b = 0).
Proof.
  intros Hb. unfold BM.get_status, BM.progress_of, PyFloat.int_truediv.
  rewrite Hb. destruct (Z.eqb_spec (total b) 0) as [E | E]; simpl.
  - split; [intros _; exact E | reflexivity].
  - split; [| intros E'; contradiction].
    destruct (PyFloat.is_infinite _); simpl; discriminate.
Qed.

Lemma int_truediv_zero (t : Z) :
  t <> 0 -> PyFloat.int_truediv 0 t = Ok (S754_zero (t <? 0)).
Proof.
  intros H. unfold PyFloat.int_truediv.
  destruct (Z.eqb_spec t 0) as [E | _]; [contradiction |].
  destruct t; [contradiction | reflexivity | reflexivity].
Qed.

Lemma get_status_fresh (bm : BatchManager) (b : batch_info) :
  active_batch bm = Some b -> total b <> 0 ->
  completed_trials bm = [] -> failed_trials bm = [] ->
  BM.get_status bm =
    Ok (BM.StatusBatch (running bm) b
          (length (pending_trials bm)) (firstn 10 (pending_trials bm))
          0 [] 0 [] (PFloat (S754_zero (total b <? 0)))).
Proof.
  intros Hb Ht Hc Hf. unfold BM.get_status, BM.progress_of.
  rewrite Hb, Hc, Hf. simpl length. change (Z.of_nat 0 + Z.of_nat 0) with 0.
  rewrite int_truediv_zero by exact Ht.
  destruct (total b <? 0); vm_compute; reflexivity.
Qed.

(** C3: with a recorded batch the status document carries the running
    flag, the batch metadata, the size of the pending queue and its first
    ten identifiers, the completed and failed lists with their sizes, and
    the progress [(|completed| + |failed|) / total * 100] rounded to one
    decimal; the division raises only for a zero total, and the progress
    is 0.0 as long as nothing is completed or failed.  Without a recorded
    batch the document is the single entry [active = false] and
    carries no progress. *)
Theorem get_status_document (bm : BatchManager) :
  (forall b, active_batch bm = Some b ->
     BM.get_status bm =
       rmap (fun q =>
               BM.StatusBatch (running bm) b
                 (length (pending_trials bm)) (firstn 10 (pending_trials bm))
                 (length (completed_trials bm)) (completed_trials bm)
                 (length (failed_trials bm)) (failed_trials bm)
                 (PFloat (PyFloat.round1 (PyFloat.mul q (PyFloat.of_int 100)))))
            (PyFloat.int_truediv
               (Z.of_nat (length (completed_trials bm)) + Z.of_nat (length (failed_trials bm)))
               (total b)) /\
     (total b <> 0 -> BM.get_status bm <> Raise ZeroDivisionError) /\
     (total b <> 0 -> completed_trials bm = [] -> failed_trials bm = [] ->
        rmap BM.doc_progress (BM.get_status bm)
          = Ok (Some (PFloat (S754_zero (total b <? 0)))))) /\
  (active_batch bm = None ->
     BM.get_status bm = Ok BM.StatusNoBatch /\
     BM.doc_active BM.StatusNoBatch = false /\
     BM.doc_progress BM.StatusNoBatch = None).
Proof.
  split.
  - intros b Hb. split; [| split].
    + unfold BM.get_status, BM.progress_of. rewrite Hb.
      destruct (PyFloat.int_truediv _ _); reflexivity.
    + intros Ht Hz.
      apply (get_status_raises_iff bm b Hb) in Hz. contradiction.
    + intros Ht Hc Hf. rewrite (get_status_fresh bm b Hb Ht Hc Hf). reflexivity.
  - intros Hb. unfold BM.get_status. rewrite Hb. repeat split.
Qed.

Lemma get_status_document_witness :
  BM.get_status two_of_three =
    Ok (BM.StatusBatch true
          {| start_trial := 1; end_trial := 3; concurrent := 3; total := 3;
             started_at := lit "t0" |}
          2 [TInt 1; TInt 3] 1 [TStr (lit "1")] 1 [TInt 2]
          (PFloat (PyFloat.tenths 667))).
Proof.
  rewrite (proj1 (proj1 (get_status_document two_of_three) _ eq_refl)).
  vm_compute. reflexivity.
Defined.

(** The preview is cut at ten identifiers. *)
Example get_status_preview :
  rmap (fun d => match d with
                 | BM.StatusBatch _ _ n l _ _ _ _ _ => (n, l)
                 | BM.StatusNoBatch => (O, [])
                 end)
       (BM.get_status (BM.start_batch [] 1 12 3 BM.init))
  = Ok (12%nat, map TInt [1; 2; 3; 4; 5; 6; 7; 8; 9; 10]).
Proof. vm_compute. reflexivity. Qed.

(** C3 as stated fails: with no batch recorded, as at start-up and after
    a cancel, the document has no progress entry at all, so no progress of
    0 is reported. *)
Lemma get_status_no_batch_no_progress :
  BM.get_status BM.init = Ok BM.StatusNoBatch /\
  BM.get_status (BM.stop_batch two_of_three) = Ok BM.StatusNoBatch /\
  BM.doc_progress BM.StatusNoBatch <> Some (PInt 0) /\
  BM.doc_progress BM.StatusNoBatch <> Some (PFloat (PyFloat.of_int 0)).
Proof.
  repeat split; discriminate.
Qed.

(** ** CPU percentage *)

(** C7: the CPU percentage is [(cpu_delta / system_delta) * 100] when the
    system counter advanced; when the two system samples are equal it is
    the integer 0, also after rounding; and no counters at all make the
    computation raise a division by zero. *)
Theorem cpu_percent_guarded (c pc s ps : Z) :
  cpu_percent c pc s ps <> Raise ZeroDivisionError /\
  stats_cpu_percent c pc s ps <> Raise ZeroDivisionError /\
  (s = ps ->
     cpu_percent c pc s ps = Ok (PInt 0) /\
     stats_cpu_percent c pc s ps = Ok (PInt 0)) /\
  (ps < s ->
     cpu_percent c pc s ps =
       rmap (fun q => PFloat (PyFloat.mul q (PyFloat.of_int 100)))
            (PyFloat.int_truediv (c - pc) (s - ps))).
Proof.
  assert (H : cpu_percent c pc s ps <> Raise ZeroDivisionError).
  { unfold cpu_percent, PyFloat.int_truediv.
    destruct (Z.gtb_spec (s - ps) 0) as [Hg | Hg]; [| discriminate].
    destruct (Z.eqb_spec (s - ps) 0) as [E | E]; [lia |].
    simpl. destruct (PyFloat.is_infinite _); simpl; discriminate. }
  split; [| split; [| split]].
  - exact H.
  - unfold stats_cpu_percent, rmap.
    destruct (cpu_percent c pc s ps) as [v | e] eqn:E; simpl; [discriminate |].
    intros He. apply H. congruence.
  - intros ->. unfold stats_cpu_percent, cpu_percent. rewrite Z.sub_diag.
    split; reflexivity.
  - intros Hlt. unfold cpu_percent.
    destruct (Z.gtb_spec (s - ps) 0) as [Hg | Hg]; [| lia].
    destruct (PyFloat.int_truediv _ _); reflexivity.
Qed.

Lemma cpu_percent_guarded_witness :
  stats_cpu_percent 900 400 7000 7000 = Ok (PInt 0) /\
  stats_cpu_percent 900 400 8000 7000 = Ok (PFloat (PyFloat.tenths 500)).
Proof.
  split.
  - apply (proj1 (proj2 (proj2 (cpu_percent_guarded 900 400 7000 7000)))). reflexivity.
  - unfold stats_cpu_percent.
    rewrite (proj2 (proj2 (proj2 (cpu_percent_guarded 900 400 8000 7000)))) by lia.
    vm_compute. reflexivity.
Defined.

(** ** Cancel *)

(** C8: cancelling deactivates the batch and empties the pending queue,
    leaves the completed and failed lists as they were, sends no command
    to the backend, and publishes one cancellation event; a second cancel
    changes neither the batch state nor the command log. *)
Theorem cancel_batch_frame (w : world) :
  let w1 := fst (cancel_batch w) in
  let w2 := fst (cancel_batch w1) in
  snd (cancel_batch w) = Done tt /\
  running (w_bm w1) = false /\
  active_batch (w_bm w1) = None /\
  pending_trials (w_bm w1) = [] /\
  completed_trials (w_bm w1) = completed_trials (w_bm w) /\
  failed_trials (w_bm w1) = failed_trials (w_bm w) /\
  w_cmds w1 = w_cmds w /\
  w_events w1 = w_events w ++ [EvBatchCancelled] /\
  w_bm w2 = w_bm w1 /\
  w_cmds w2 = w_cmds w1.
Proof.
  cbv zeta. unfold cancel_batch, bind, modify_bm, broadcast, BM.stop_batch. simpl.
  repeat split.
Qed.

(** By contrast the stop-all handler sends a stop to every running trial
    container. *)
Example stop_all_issues_stops :
  w_cmds (fst (stop_all (Ok [lit "aquatic-trial-1"; lit "db"; lit "aquatic-trial-2"])
                 (fun _ => true) world0))
  = [CmdStop (lit "aquatic-trial-1"); CmdStop (lit "aquatic-trial-2")].
Proof. vm_compute. reflexivity. Qed.

(** ** Broadcast *)

Lemma deliver_conns send_ok msg conns :
  map ConnectionManager.at_conn (ConnectionManager.deliver send_ok msg conns) = conns.
Proof.
  induction conns as [| c l IH]; simpl; [reflexivity | now rewrite IH].
Qed.

Lemma deliver_spec send_ok msg conns :
  ConnectionManager.deliver send_ok msg conns =
  map (fun c => {| ConnectionManager.at_conn := c;
                   ConnectionManager.at_msg := msg;
                   ConnectionManager.at_ok := send_ok c |}) conns.
Proof.
  induction conns as [| c l IH]; simpl; [reflexivity | now rewrite IH].
Qed.

Lemma remove_first_others ws l l' :
  ConnectionManager.remove_first ws l = Some l' ->
  forall c, c <> ws -> (In c l <-> In c l').
Proof.
  revert l'. induction l as [| x l IH]; simpl; intros l' H c Hc; [discriminate |].
  destruct (Nat.eqb_spec ws x) as [-> | Hne].
  - injection H as <-. split; [intros [E | Hin]; [congruence | exact Hin] | auto].
  - destruct (ConnectionManager.remove_first ws l) as [r |]; [| discriminate].
    injection H as <-. simpl. rewrite (IH r eq_refl c Hc). reflexivity.
Qed.

Lemma remove_first_length ws l l' :
  ConnectionManager.remove_first ws l = Some l' -> length l = S (length l').
Proof.
  revert l'. induction l as [| x l IH]; simpl; intros l' H; [discriminate |].
  destruct (Nat.eqb ws x).
  - injection H as <-. reflexivity.
  - destruct (ConnectionManager.remove_first ws l) as [r |]; [| discriminate].
    injection H as <-. simpl. now rewrite (IH r eq_refl).
Qed.

(** C9: a broadcast calls [send_json] once on every held observer, in the
    order they are held; whether the call on one observer fails has no
    bearing on the others, each of which is still attempted with its own
    outcome; the set of observers is the same afterwards.  Only
    [disconnect] takes an observer out: one entry of the socket it is
    given, and no other socket. *)
Theorem broadcast_best_effort (send_ok : ConnectionManager.websocket -> bool)
    (msg : event) (m : ConnectionManager.t) :
  let r := ConnectionManager.broadcast send_ok msg m in
  fst r = m /\
  map ConnectionManager.at_conn (snd r) = ConnectionManager.active_connections m /\
  (forall c, In c (ConnectionManager.active_connections m) ->
     In {| ConnectionManager.at_conn := c;
           ConnectionManager.at_msg := msg;
           ConnectionManager.at_ok := send_ok c |} (snd r)) /\
  (forall a, In a (snd r) ->
     ConnectionManager.at_msg a = msg /\
     ConnectionManager.at_ok a = send_ok (ConnectionManager.at_conn a)) /\
  (forall ws m', ConnectionManager.disconnect ws m = Ok m' ->
     length (ConnectionManager.active_connections m) =
       S (length (ConnectionManager.active_connections m')) /\
     (forall c, c <> ws ->
        (In c (ConnectionManager.active_connections m) <->
         In c (ConnectionManager.active_connections m')))).
Proof.
  cbv zeta. unfold ConnectionManager.broadcast. simpl.
  split; [| split; [| split; [| split]]].
  - reflexivity.
  - apply deliver_conns.
  - intros c Hc. rewrite deliver_spec. apply in_map_iff. now exists c.
  - intros a H. rewrite deliver_spec in H. apply in_map_iff in H.
    destruct H as [c [<- _]]. split; reflexivity.
  - intros ws m' H. unfold ConnectionManager.disconnect in H.
    destruct (ConnectionManager.remove_first ws _) as [l |] eqn:E; [| discriminate].
    injection H as <-. simpl.
    split; [exact (remove_first_length ws _ _ E) | exact (remove_first_others ws _ _ E)].
Qed.

(** Three observers, the second one closed: the first and the third are
    served, and all three stay registered. *)
Lemma broadcast_best_effort_witness :
  ConnectionManager.broadcast (fun c => negb (Nat.eqb c 2)) EvBatchCancelled
    {| ConnectionManager.active_connections := [1; 2; 3]%nat |}
  = ({| ConnectionManager.active_connections := [1; 2; 3]%nat |},
     [ {| ConnectionManager.at_conn := 1%nat; ConnectionManager.at_msg := EvBatchCancelled;
          ConnectionManager.at_ok := true |};
       {| ConnectionManager.at_conn := 2%nat; ConnectionManager.at_msg := EvBatchCancelled;
          ConnectionManager.at_ok := false |};
       {| ConnectionManager.at_conn := 3%nat; ConnectionManager.at_msg := EvBatchCancelled;
          ConnectionManager.at_ok := true |} ]) /\
  In {| ConnectionManager.at_conn := 3%nat; ConnectionManager.at_msg := EvBatchCancelled;
        ConnectionManager.at_ok := true |}
     (snd (ConnectionManager.broadcast (fun c => negb (Nat.eqb c 2)) EvBatchCancelled
             {| ConnectionManager.active_connections := [1; 2; 3]%nat |})).
Proof.
  split; [reflexivity |].
  apply (proj1 (proj2 (proj2 (broadcast_best_effort (fun c => negb (Nat.eqb c 2))
           EvBatchCancelled {| ConnectionManager.active_connections := [1; 2; 3]%nat |})))
         3%nat).
  simpl. auto.
Defined.

(** ** Printing and reading back a trial number *)

Lemma int_of_digits_fold (ds : str) : int_of_digits ds = fold_left digit_step ds 0.
Proof. reflexivity. Qed.

Lemma uint_digits (d : Decimal.uint) :
  forallb is_digit (lit (NilEmpty.string_of_uint d)) = true.
Proof.
  induction d; simpl; try reflexivity; exact IHd.
Qed.

Lemma uint_fold_pos (d : Decimal.uint) : forall acc : positive,
  fold_left digit_step (lit (NilEmpty.string_of_uint d)) (Zpos acc)
    = Zpos (Pos.of_uint_acc d acc).
Proof.
  induction d; intros acc; cbn [NilEmpty.string_of_uint lit list_ascii_of_string
    fold_left Pos.of_uint_acc]; try reflexivity;
    fold (lit (NilEmpty.string_of_uint d));
    match goal with
    | |- fold_left _ _ ?a = Zpos (Pos.of_uint_acc _ ?b) =>
        replace a with (Zpos b)
          by (unfold digit_step;
              match goal with
              | |- context [nat_of_ascii ?c] =>
                  let v := eval vm_compute in (nat_of_ascii c) in
                  change (nat_of_ascii c) with v
              end; lia)
    end; apply IHd.
Qed.

Lemma uint_fold_zero (d : Decimal.uint) :
  fold_left digit_step (lit (NilEmpty.string_of_uint d)) 0 = Z.of_N (Pos.of_uint d).
Proof.
  induction d; cbn [NilEmpty.string_of_uint lit list_ascii_of_string fold_left
    Pos.of_uint]; try reflexivity;
    fold (lit (NilEmpty.string_of_uint d));
    try (match goal with
         | |- fold_left _ _ ?a = Z.of_N (Npos (Pos.of_uint_acc _ ?b)) =>
             change a with (Zpos b)
         end; cbn [Z.of_N]; apply uint_fold_pos).
  exact IHd.
Qed.

(** [int(str(n)) == n] for a number that is not negative, and [str(n)]
    is a non-empty run of digits. *)
Lemma str_of_int_round_trip (n : Z) :
  0 <= n ->
  str_of_int n <> [] /\
  forallb is_digit (str_of_int n) = true /\
  int_of_digits (str_of_int n) = n.
Proof.
  intros Hn. unfold str_of_int. destruct n as [| p | p]; [| | lia].
  - repeat split. discriminate.
  - cbn [Z.to_int NilZero.string_of_int].
    pose proof (DecimalPos.Unsigned.to_uint_nonnil p) as Hnn.
    pose proof (DecimalPos.Unsigned.of_to p) as Hof.
    unfold NilZero.string_of_uint.
    destruct (Pos.to_uint p) as [| d | d | d | d | d | d | d | d | d | d] eqn:E;
      try contradiction; rewrite <- E in *;
      (split; [rewrite E; discriminate |]);
      (split; [apply uint_digits |]);
      rewrite int_of_digits_fold, uint_fold_zero, Hof; reflexivity.
Qed.







(** ** Proxy routing *)












(** C5 as stated fails.  On the WebSocket route an upstream that cannot
    be reached gives no 503: the failure is logged and the client is
    left with the socket it was given at the handshake.  And a host
    whose label has 4301 digits gets neither a forward nor a 400: the
    conversion of the label raises. *)
Lemma proxy_routing_counterexample :
  ProxyWs.websocket_handler true false (request_for "trial7.example.com")
  = ([ProxyWs.Prepare; ProxyWs.WsConnect 6087 (lit "ws://localhost:6087/vnc.html");
      ProxyWs.LogError], ProxyWs.WsSocket) /\
  Proxy.match_trial long_label_host = Some (repeat "1"%char 4301) /\
  Proxy.proxy_handler (fun _ => Proxy.UpConnectorError) (request_of long_label_host)
  = ([], Proxy.Crash).
Proof.
  split; [vm_compute; reflexivity |]. split; vm_compute; reflexivity.
Qed.

(** ** Ranges *)

Lemma py_range_nil (a b : Z) : b <= a -> py_range a b = [].
Proof.
  intros H. unfold py_range. replace (Z.to_nat (b - a)) with O by lia. reflexivity.
Qed.

Lemma py_range_cons (a b : Z) : a < b -> py_range a b = a :: py_range (a + 1) b.
Proof.
  intros H. unfold py_range.
  replace (Z.to_nat (b - a)) with (S (Z.to_nat (b - (a + 1)))) by lia.
  simpl. f_equal; [lia |].
  rewrite <- seq_shift, map_map. apply map_ext. intros i. lia.
Qed.

Lemma py_range_length (a b : Z) : length (py_range a b) = Z.to_nat (b - a).
Proof.
  unfold py_range. now rewrite length_map, length_seq.
Qed.

Lemma py_range_firstn (k : nat) : forall a b,
  Z.of_nat k <= b - a -> firstn k (py_range a b) = py_range a (a + Z.of_nat k).
Proof.
  induction k as [| k IH]; intros a b H.
  - simpl. rewrite py_range_nil by lia. reflexivity.
  - rewrite (py_range_cons a b) by lia.
    rewrite (py_range_cons a (a + Z.of_nat (S k))) by lia.
    simpl. f_equal. rewrite IH by lia. f_equal. lia.
Qed.

Lemma py_range_skipn (k : nat) : forall a b,
  Z.of_nat k <= b - a -> skipn k (py_range a b) = py_range (a + Z.of_nat k) b.
Proof.
  induction k as [| k IH]; intros a b H.
  - simpl. f_equal. lia.
  - rewrite (py_range_cons a b) by lia. simpl.
    rewrite IH by lia. f_equal. lia.
Qed.

Lemma py_range_In (a b x : Z) : In x (py_range a b) <-> a <= x < b.
Proof.
  unfold py_range. rewrite in_map_iff. split.
  - intros [i [<- Hi]]. apply in_seq in Hi. lia.
  - intros H. exists (Z.to_nat (x - a)). split; [lia |]. apply in_seq. lia.
Qed.

Lemma NoDup_map_inj {A B : Type} (f : A -> B) (l : list A) :
  (forall x y, f x = f y -> x = y) -> NoDup l -> NoDup (map f l).
Proof.
  intros Hf Hl. induction Hl as [| x l Hx Hl IH]; simpl; constructor; [| exact IH].
  rewrite in_map_iff. intros [y [Hy Hin]]. apply Hf in Hy. now subst.
Qed.

Lemma py_range_NoDup (a b : Z) : NoDup (py_range a b).
Proof.
  unfold py_range. apply NoDup_map_inj; [| apply seq_NoDup].
  intros i j H. lia.
Qed.

(** ** Batch start *)

Lemma set_pending_same (bm : BatchManager) (l : list tid) :
  pending_trials bm = l -> BM.set_pending l bm = bm.
Proof. intros <-. destruct bm; reflexivity. Qed.

(** Runs the straight-line part of a computation in [M]. *)
Ltac mrun :=
  repeat (progress
            (unfold bind, read_bm, modify_bm, ret, catch, start_single_trial, issue,
               raise, pop_pending, lift, broadcast, get_status, out_of_fuel;
             cbn [w_bm w_events w_cmds fst snd])).

Lemma start_initial_eq fuel be limit rc started :
  start_initial fuel be limit rc started =
  (bm <~ read_bm ;;
   if (rc <? limit) && negb (is_nil (pending_trials bm)) then
     match fuel with
     | O => out_of_fuel
     | S fuel' =>
         next_trial <~ pop_pending ;;
         ok <~ catch (start_single_trial be next_trial ;;; ret true)
                     (fun _ => modify_bm (BM.mark_failed next_trial) ;;; ret false) ;;
         if ok
         then start_initial fuel' be limit (rc + 1) (started ++ [next_trial])
         else start_initial fuel' be limit rc started
     end
   else ret started).
Proof. destruct fuel; reflexivity. Qed.

Lemma start_initial_all_ok (be : backend) (limit : Z) :
  (forall t, start_ok be t = true) ->
  forall fuel rc started w,
    (length (pending_trials (w_bm w)) <= fuel)%nat ->
    let p := pending_trials (w_bm w) in
    let k := free_slots limit rc p in
    start_initial fuel be limit rc started w =
      (mk_world (BM.set_pending (skipn k p) (w_bm w)) (w_events w)
                (w_cmds w ++ map CmdStartTrial (firstn k p)),
       Done (started ++ firstn k p)).
Proof.
  intros Hok. induction fuel as [| fuel IH]; intros rc started [bm ev cm] Hf;
    cbv zeta; rewrite start_initial_eq; unfold bind at 1, read_bm at 1;
    cbn [w_bm w_events w_cmds] in *;
    destruct (pending_trials bm) as [| t rest] eqn:Hp; simpl in Hf.
  - rewrite andb_false_r. unfold free_slots, ret, mk_world. simpl.
    replace (Z.to_nat (Z.min (Z.max (limit - rc) 0) 0)) with O by lia.
    simpl. rewrite (set_pending_same _ _ Hp), !app_nil_r. reflexivity.
  - lia.
  - rewrite andb_false_r. unfold free_slots, ret, mk_world. simpl.
    replace (Z.to_nat (Z.min (Z.max (limit - rc) 0) 0)) with O by lia.
    simpl. rewrite (set_pending_same _ _ Hp), !app_nil_r. reflexivity.
  - destruct (Z.ltb_spec rc limit) as [Hlt | Hge]; simpl andb; cbv iota.
    + cbn [andb negb is_nil]. mrun. rewrite Hp. mrun. rewrite Hok. mrun.
      rewrite IH by (cbn [w_bm BM.set_pending pending_trials]; lia).
      cbn [w_bm w_events w_cmds BM.set_pending pending_trials].
      assert (Hk : free_slots limit rc (t :: rest) = S (free_slots limit (rc + 1) rest)).
      { unfold free_slots. simpl length. lia. }
      rewrite Hk. simpl. unfold mk_world. rewrite <- !app_assoc. reflexivity.
    + unfold free_slots, ret, mk_world.
      replace (Z.to_nat _) with O by lia.
      simpl. rewrite (set_pending_same _ _ Hp), !app_nil_r. reflexivity.
Qed.

Lemma running_count_listing (be : backend) (l : list container) :
  docker_client be = true -> listing be = Ok l ->
  get_running_trial_count be =
    Ok (Z.of_nat (length (filter (is_status "running") l))).
Proof.
  intros Hd Hl. unfold get_running_trial_count, get_simulation_containers.
  rewrite Hd, Hl. reflexivity.
Qed.

(** What the start handler does after the manager was reset, when every
    start succeeds. *)
Lemma start_batch_from_reset (now : str) (be : backend) (l : list container)
    (s e c : Z) (w : world) :
  docker_client be = true -> listing be = Ok l ->
  (forall t, start_ok be t = true) -> s <= e ->
  let r := Z.of_nat (length (filter (is_status "running") l)) in
  let p := map TInt (py_range s (e + 1)) in
  let k := free_slots c r p in
  exists w' resp,
    start_batch now be
      {| rq_start_trial := s; rq_end_trial := e; rq_concurrent := c |} w
    = (w', Done resp) /\
    rs_started resp = firstn k p /\
    pending_trials (w_bm w') = skipn k p /\
    completed_trials (w_bm w') = [] /\
    failed_trials (w_bm w') = [] /\
    running (w_bm w') = true /\
    w_cmds w' = w_cmds w ++ map CmdStartTrial (rs_started resp).
Proof.
  intros Hd Hl Hok Hse r p k.
  unfold start_batch. rewrite Hd. cbn [negb].
  assert (Hgo : forall w0 : world,
    exists w' resp,
      catch
        (modify_bm (BM.start_batch now s e c) ;;;
         running_count <~ lift (get_running_trial_count be) ;;
         bm1 <~ read_bm ;;
         started <~ start_initial (length (pending_trials bm1)) be c running_count [] ;;
         st <~ get_status ;;
         broadcast (EvBatchStarted started st) ;;;
         bm2 <~ read_bm ;;
         ret {| rs_started := started;
                rs_total := e - s + 1;
                rs_pending := length (pending_trials bm2);
                rs_message :=
                  lit "Batch started: " ++ str_of_int (Z.of_nat (length started))
                  ++ lit " trials running, "
                  ++ str_of_int (Z.of_nat (length (pending_trials bm2)))
                  ++ lit " pending" |})
        (fun _ => raise (HTTPException 500)) w0
      = (w', Done resp) /\
      rs_started resp = firstn k p /\
      pending_trials (w_bm w') = skipn k p /\
      completed_trials (w_bm w') = [] /\
      failed_trials (w_bm w') = [] /\
      running (w_bm w') = true /\
      w_cmds w' = w_cmds w0 ++ map CmdStartTrial (rs_started resp)).
  { intros [bm0 ev0 cm0]. mrun.
    rewrite (running_count_listing be l Hd Hl).
    rewrite start_initial_all_ok by (exact Hok || (cbn; lia)).
    cbn [w_bm w_events w_cmds mk_world BM.start_batch pending_trials app].
    fold p r k.
    erewrite get_status_fresh; [| reflexivity | simpl; lia | reflexivity | reflexivity].
    eexists. eexists. split; [reflexivity |]. cbn. repeat split. }
  mrun. destruct (running (w_bm w)).
  - mrun. destruct (Hgo (mk_world (BM.stop_batch (w_bm w)) (w_events w) (w_cmds w)))
      as (w' & resp & H & Hrest).
    exists w', resp. split; [exact H | exact Hrest].
  - mrun. destruct w as [bm ev cm]. exact (Hgo _).
Qed.

(** C1, amended: for a range [s <= e] and a limit [c >= 1], when [r]
    trial containers are already running as the handler is called and
    every start succeeds, the handler starts the [min(max(c - r, 0),
    e - s + 1)] lowest identifiers and leaves the remaining ones pending
    in ascending order; with no trial container running that number is
    [min(c, e - s + 1)]. *)
Theorem start_batch_initial_dispatch (now : str) (be : backend) (l : list container)
    (s e c : Z) (w : world) :
  docker_client be = true -> listing be = Ok l ->
  (forall t, start_ok be t = true) ->
  s <= e -> 1 <= c ->
  let r := Z.of_nat (length (filter (is_status "running") l)) in
  let k := Z.min (Z.max (c - r) 0) (e - s + 1) in
  exists w' resp,
    start_batch now be
      {| rq_start_trial := s; rq_end_trial := e; rq_concurrent := c |} w
    = (w', Done resp) /\
    rs_started resp = map TInt (py_range s (s + k)) /\
    Z.of_nat (length (rs_started resp)) = k /\
    (r = 0 -> Z.of_nat (length (rs_started resp)) = Z.min c (e - s + 1)) /\
    pending_trials (w_bm w') = map TInt (py_range (s + k) (e + 1)) /\
    failed_trials (w_bm w') = [] /\
    w_cmds w' = w_cmds w ++ map CmdStartTrial (rs_started resp).
Proof.
  intros Hd Hl Hok Hse Hc r k.
  destruct (start_batch_from_reset now be l s e c w Hd Hl Hok Hse)
    as (w' & resp & Hrun & Hst & Hpe & _ & Hfa & _ & Hcm).
  fold r in Hst, Hpe.
  assert (Hk : Z.of_nat (free_slots c r (map TInt (py_range s (e + 1)))) = k).
  { unfold free_slots. rewrite length_map, py_range_length. subst k. lia. }
  set (kn := free_slots c r (map TInt (py_range s (e + 1)))) in *.
  assert (Hst' : rs_started resp = map TInt (py_range s (s + k))).
  { rewrite Hst, firstn_map, py_range_firstn by lia. now rewrite Hk. }
  exists w', resp. repeat split.
  - exact Hrun.
  - exact Hst'.
  - rewrite Hst', length_map, py_range_length. lia.
  - intros Hr. rewrite Hst', length_map, py_range_length. lia.
  - rewrite Hpe, skipn_map, py_range_skipn by lia. now rewrite Hk.
  - exact Hfa.
  - exact Hcm.
Qed.

(** Five trials under a limit of two, nothing running: 1 and 2 are
    started, 3, 4 and 5 stay pending. *)
Lemma start_batch_initial_dispatch_witness :
  exists w' resp,
    start_batch (lit "t0") (backend_with [ctr "9" "exited"] (fun _ => true))
      (request 1 5 2) world0 = (w', Done resp) /\
    rs_started resp = [TInt 1; TInt 2] /\
    pending_trials (w_bm w') = [TInt 3; TInt 4; TInt 5].
Proof.
  destruct (start_batch_initial_dispatch (lit "t0")
              (backend_with [ctr "9" "exited"] (fun _ => true))
              [ctr "9" "exited"] 1 5 2 world0
              eq_refl eq_refl (fun _ => eq_refl) ltac:(lia) ltac:(lia))
    as (w' & resp & H & Hs & _ & _ & Hp & _).
  exists w', resp. split; [exact H |]. split; [exact Hs | exact Hp].
Defined.

(** C1 as stated fails.  With two trial containers already running and a
    limit of two the handler starts nothing and the whole range stays
    pending; and when the starts fail nothing is counted as started
    while the queue is drained into the failed list. *)
Lemma start_batch_dispatch_counterexample :
  (exists w' resp,
     start_batch (lit "t0")
       (backend_with [ctr "8" "running"; ctr "9" "running"] (fun _ => true))
       (request 1 5 2) world0 = (w', Done resp) /\
     rs_started resp = [] /\
     Z.of_nat (length (rs_started resp)) <> Z.min 2 (5 - 1 + 1) /\
     pending_trials (w_bm w') = [TInt 1; TInt 2; TInt 3; TInt 4; TInt 5]) /\
  (exists w' resp,
     start_batch (lit "t0") (backend_with [] (fun _ => false))
       (request 1 3 1) world0 = (w', Done resp) /\
     Z.of_nat (length (rs_started resp)) <> Z.min 1 (3 - 1 + 1) /\
     pending_trials (w_bm w') = [] /\
     failed_trials (w_bm w') = [TInt 1; TInt 2; TInt 3]).
Proof.
  split; eexists; eexists; (split; [vm_compute; reflexivity |]);
    repeat split; discriminate.
Qed.

(** ** A batch over an empty range *)

(** The start handler takes the range [s, s - 1]: it answers with an
    error, because the status document of its own event cannot be built,
    but by then the batch is recorded and active. *)
Lemma start_batch_empty_range (now : str) (be : backend) (s c : Z) (w : world) :
  docker_client be = true ->
  start_batch now be (request s (s - 1) c) w =
    (mk_world (BM.start_batch now s (s - 1) c
                 (if running (w_bm w) then BM.stop_batch (w_bm w) else w_bm w))
              (w_events w) (w_cmds w),
     Exc (HTTPException 500)).
Proof.
  intros Hd. unfold start_batch, request. rewrite Hd. cbn [negb].
  destruct w as [bm ev cm]. mrun.
  assert (Hz : forall bm0,
            BM.get_status (BM.start_batch now s (s - 1) c bm0) = Raise ZeroDivisionError).
  { intros bm0.
    apply (get_status_raises_iff (BM.start_batch now s (s - 1) c bm0) _ eq_refl).
    simpl. lia. }
  assert (Hp : forall bm0, pending_trials (BM.start_batch now s (s - 1) c bm0) = []).
  { intros bm0. simpl. rewrite py_range_nil by lia. reflexivity. }
  destruct (running bm); mrun; cbn [rq_start_trial rq_end_trial rq_concurrent];
    (destruct (get_running_trial_count be) as [r | e]; [| reflexivity]);
    rewrite Hp; cbn [length]; rewrite start_initial_eq; mrun;
    rewrite Hp, andb_false_r; mrun; rewrite Hz; reflexivity.
Qed.

(** C10: the status query divides by the recorded total without a guard.
    With a recorded batch it raises a division error exactly when the
    total is zero; right after the manager was given a range it does so
    exactly when [end = start - 1]; and the start handler accepts such a
    range and records it as an active batch, on which the query then
    raises. *)
Theorem get_status_zero_total :
  (forall bm b, active_batch bm = Some b ->
     (BM.get_status bm = Raise ZeroDivisionError <-> total b = 0)) /\
  (forall now s e c bm,
     running (BM.start_batch now s e c bm) = true /\
     (BM.get_status (BM.start_batch now s e c bm) = Raise ZeroDivisionError
      <-> e = s - 1)) /\
  (forall now be s c w,
     docker_client be = true ->
     let w' := fst (start_batch now be (request s (s - 1) c) w) in
     running (w_bm w') = true /\
     BM.get_status (w_bm w') = Raise ZeroDivisionError).
Proof.
  split; [exact get_status_raises_iff |]. split.
  - intros now s e c bm. split; [reflexivity |].
    rewrite (get_status_raises_iff (BM.start_batch now s e c bm) _ eq_refl). simpl. lia.
  - intros now be s c w Hd. cbv zeta.
    rewrite (start_batch_empty_range now be s c w Hd). cbn [fst mk_world w_bm].
    split; [reflexivity |].
    apply (get_status_raises_iff (BM.start_batch now s (s - 1) c _) _ eq_refl).
    simpl. lia.
Qed.

(** The range [4, 3]: recorded as active by the handler, and the status
    query raises from then on. *)
Lemma get_status_zero_total_witness :
  running (w_bm (fst (start_batch (lit "t0") (backend_at [] []) (request 4 3 2) world0)))
    = true /\
  BM.get_status
    (w_bm (fst (start_batch (lit "t0") (backend_at [] []) (request 4 3 2) world0)))
    = Raise ZeroDivisionError /\
  BM.get_status (BM.start_batch (lit "t0") 4 3 2 BM.init) = Raise ZeroDivisionError.
Proof.
  destruct get_status_zero_total as (_ & Hbm & Hh).
  destruct (Hh (lit "t0") (backend_at [] []) 4 2 world0 eq_refl) as [Hr Hs].
  split; [exact Hr |]. split; [exact Hs |].
  apply (proj2 (Hbm (lit "t0") 4 3 2 BM.init)). reflexivity.
Defined.

(** ** The queues of a batch *)

Lemma shrinks_refl (a : BatchManager) : shrinks a a.
Proof. split; [apply incl_refl | auto]. Qed.

Lemma shrinks_trans (a b c : BatchManager) : shrinks a b -> shrinks b c -> shrinks a c.
Proof.
  intros [H1 H2] [H3 H4]. split; [eapply incl_tran; eassumption | auto].
Qed.

Lemma py_in_true (x : tid) (l : list tid) : py_in x l = true <-> In x l.
Proof. unfold py_in. destruct (in_dec tid_eq_dec x l); split; congruence || auto. Qed.

Lemma list_remove_incl (x : tid) (l : list tid) : incl (list_remove x l) l.
Proof.
  induction l as [| y l IH]; simpl; [apply incl_refl |].
  destruct (tid_eq_dec x y).
  - apply incl_tl, incl_refl.
  - intros z [-> | Hz]; [now left | right; now apply IH].
Qed.

Lemma list_remove_NoDup (x : tid) (l : list tid) :
  NoDup l -> NoDup (list_remove x l) /\ ~ In x (list_remove x l).
Proof.
  induction 1 as [| y l Hy Hl IH]; simpl; [split; [constructor | auto] |].
  destruct (tid_eq_dec x y) as [-> | Hne].
  - split; assumption.
  - destruct IH as [IH1 IH2]. split.
    + constructor; [| exact IH1]. intros Hin. apply Hy. now apply (list_remove_incl x).
    + intros [-> | Hin]; [now apply Hne | now apply IH2].
Qed.

Lemma list_remove_head (x : tid) (l : list tid) : list_remove x (x :: l) = l.
Proof. simpl. destruct (tid_eq_dec x x); [reflexivity | contradiction]. Qed.

Lemma drop_pending_spec (t : tid) (bm : BatchManager) :
  incl (pending_trials (BM.drop_pending t bm)) (pending_trials bm) /\
  completed_trials (BM.drop_pending t bm) = completed_trials bm /\
  failed_trials (BM.drop_pending t bm) = failed_trials bm /\
  (NoDup (pending_trials bm) ->
     NoDup (pending_trials (BM.drop_pending t bm)) /\
     ~ In t (pending_trials (BM.drop_pending t bm))).
Proof.
  unfold BM.drop_pending. destruct (py_in t (pending_trials bm)) eqn:E; simpl.
  - repeat split; try apply list_remove_incl; now apply list_remove_NoDup.
  - repeat split; try apply incl_refl; try assumption.
    intros Hin. apply py_in_true in Hin. congruence.
Qed.

Lemma mark_completed_shrinks (t : tid) (bm : BatchManager) :
  shrinks bm (BM.mark_completed t bm).
Proof.
  destruct (drop_pending_spec t bm) as (Hi & Hc & Hf & Hn).
  unfold shrinks, batch_inv, BM.mark_completed.
  destruct (py_in t (completed_trials (BM.drop_pending t bm))); simpl;
    (split; [exact Hi |]); intros (N & C & F); destruct (Hn N) as [N' Ht];
    (split; [exact N' |]); split; intros x Hx; rewrite ?Hc, ?Hf; auto.
  rewrite in_app_iff. intros [Hin | [<- | []]]; [| contradiction].
  exact (C x (Hi x Hx) Hin).
Qed.

Lemma mark_failed_shrinks (t : tid) (bm : BatchManager) :
  shrinks bm (BM.mark_failed t bm).
Proof.
  destruct (drop_pending_spec t bm) as (Hi & Hc & Hf & Hn).
  unfold shrinks, batch_inv, BM.mark_failed.
  destruct (py_in t (failed_trials (BM.drop_pending t bm))); simpl;
    (split; [exact Hi |]); intros (N & C & F); destruct (Hn N) as [N' Ht];
    (split; [exact N' |]); split; intros x Hx; rewrite ?Hc, ?Hf; auto.
  rewrite in_app_iff. intros [Hin | [<- | []]]; [| contradiction].
  exact (F x (Hi x Hx) Hin).
Qed.

Lemma stop_batch_shrinks (bm : BatchManager) : shrinks bm (BM.stop_batch bm).
Proof.
  split; simpl; [intros x [] |].
  intros _. repeat split; simpl; [constructor | intros t [] | intros t []].
Qed.

Lemma set_running_shrinks (b : bool) (bm : BatchManager) :
  shrinks bm (BM.set_running b bm).
Proof. split; simpl; [apply incl_refl | auto]. Qed.


Lemma shrinking_ret {A} (a : A) : shrinking (ret a).
Proof. intros w. apply shrinks_refl. Qed.

Lemma shrinking_raise {A} (e : py_exc) : shrinking (@raise A e).
Proof. intros w. apply shrinks_refl. Qed.

Lemma shrinking_out_of_fuel {A} : shrinking (@out_of_fuel A).
Proof. intros w. apply shrinks_refl. Qed.

Lemma shrinking_lift {A} (r : result A) : shrinking (lift r).
Proof. intros w. apply shrinks_refl. Qed.

Lemma shrinking_read_bm : shrinking read_bm.
Proof. intros w. apply shrinks_refl. Qed.

Lemma shrinking_broadcast (ev : event) : shrinking (broadcast ev).
Proof. intros w. apply shrinks_refl. Qed.

Lemma shrinking_issue (c : backend_cmd) : shrinking (issue c).
Proof. intros w. apply shrinks_refl. Qed.

Lemma shrinking_modify (f : BatchManager -> BatchManager) :
  (forall bm, shrinks bm (f bm)) -> shrinking (modify_bm f).
Proof. intros H w. apply H. Qed.

Lemma shrinking_bind {A B} (m : M A) (k : A -> M B) :
  shrinking m -> (forall a, shrinking (k a)) -> shrinking (bind m k).
Proof.
  intros Hm Hk w. unfold bind. specialize (Hm w).
  destruct (m w) as [w' [a | e |]]; simpl in *; [| exact Hm | exact Hm].
  eapply shrinks_trans; [exact Hm | apply Hk].
Qed.

Lemma shrinking_catch {A} (m : M A) (h : py_exc -> M A) :
  shrinking m -> (forall e, shrinking (h e)) -> shrinking (catch m h).
Proof.
  intros Hm Hh w. unfold catch. specialize (Hm w).
  destruct (m w) as [w' [a | e |]]; simpl in *; [exact Hm | | exact Hm].
  eapply shrinks_trans; [exact Hm | apply Hh].
Qed.

Lemma shrinking_if {A} (b : bool) (m1 m2 : M A) :
  shrinking m1 -> shrinking m2 -> shrinking (if b then m1 else m2).
Proof. destruct b; auto. Qed.

Lemma shrinking_pop_pending : shrinking pop_pending.
Proof.
  intros [bm ev cm]. unfold pop_pending. mrun.
  destruct (pending_trials bm) as [| t rest] eqn:E; mrun; [apply shrinks_refl |].
  unfold shrinks, batch_inv. simpl. rewrite E.
  split; [apply incl_tl, incl_refl |].
  intros (N & C & F). inversion N; subst.
  repeat split; [assumption | intros x Hx; apply C; now right
                | intros x Hx; apply F; now right].
Qed.

Create HintDb shrink.
#[local] Hint Resolve shrinking_ret shrinking_raise shrinking_out_of_fuel shrinking_lift
  shrinking_read_bm shrinking_broadcast shrinking_issue shrinking_pop_pending
  mark_completed_shrinks mark_failed_shrinks stop_batch_shrinks set_running_shrinks
  : shrink.

Ltac shrink :=
  repeat first
    [ solve [auto with shrink]
    | apply shrinking_bind; [| intro]
    | apply shrinking_catch; [| intro]
    | apply shrinking_if
    | apply shrinking_modify; intro ].

Lemma fill_capacity_eq fuel be rc :
  fill_capacity fuel be rc =
  (bm <~ read_bm ;;
   if (rc <? concurrent_limit bm) && negb (is_nil (pending_trials bm)) then
     match fuel with
     | O => out_of_fuel
     | S fuel' =>
         match pending_trials bm with
         | [] => raise IndexError
         | next_trial :: _ =>
             rc' <~ catch
                      (start_single_trial be next_trial ;;;
                       _ <~ pop_pending ;;
                       catch
                         (st <~ get_status ;;
                          broadcast (EvTrialStarted next_trial st) ;;;
                          ret (rc + 1))
                         (fun _ =>
                            modify_bm (BM.mark_failed next_trial) ;;;
                            ret (rc + 1)))
                      (fun _ =>
                         modify_bm (BM.mark_failed next_trial) ;;;
                         ret rc) ;;
             fill_capacity fuel' be rc'
         end
     end
   else ret rc).
Proof. destruct fuel; reflexivity. Qed.

Lemma shrinking_get_status : shrinking get_status.
Proof. unfold get_status. shrink. Qed.

Lemma shrinking_start_single_trial be t : shrinking (start_single_trial be t).
Proof. unfold start_single_trial. shrink. Qed.

#[local] Hint Resolve shrinking_get_status shrinking_start_single_trial : shrink.

Lemma shrinking_start_initial be limit fuel :
  forall rc started, shrinking (start_initial fuel be limit rc started).
Proof.
  induction fuel as [| fuel IH]; intros rc started; rewrite start_initial_eq; shrink.
Qed.

Lemma shrinking_classify_exited be containers : shrinking (classify_exited be containers).
Proof.
  induction containers as [| c l IH]; simpl; shrink.
Qed.

Lemma shrinking_fill_capacity be fuel : forall rc, shrinking (fill_capacity fuel be rc).
Proof.
  induction fuel as [| fuel IH]; intros rc; rewrite fill_capacity_eq; shrink.
  destruct (pending_trials a); shrink.
Qed.

#[local] Hint Resolve shrinking_start_initial shrinking_classify_exited
  shrinking_fill_capacity : shrink.

Lemma shrinking_cycle_body be : shrinking (cycle_body be).
Proof. unfold cycle_body. shrink. Qed.

Lemma shrinking_monitor_guard be : shrinking (monitor_guard be).
Proof. unfold monitor_guard. shrink. Qed.

#[local] Hint Resolve shrinking_cycle_body shrinking_monitor_guard : shrink.



Lemma shrinking_stop_each stop_ok names : forall stopped,
  shrinking (stop_each stop_ok names stopped).
Proof.
  induction names as [| n l IH]; intros stopped; simpl; shrink.
Qed.

#[local] Hint Resolve shrinking_stop_each : shrink.







(** ** The loops end *)

Lemma classify_exited_run (be : backend) (l : list container) : forall w,
  exists bm',
    classify_exited be l w = (mk_world bm' (w_events w) (w_cmds w), Done tt) /\
    incl (pending_trials bm') (pending_trials (w_bm w)).
Proof.
  induction l as [| c l IH]; intros [bm ev cm]; cbn [classify_exited w_events w_cmds w_bm].
  - exists bm. split; [reflexivity | apply incl_refl].
  - cbv zeta. unfold bind at 1. fold (mk_world bm ev cm).
    assert (H : exists bm1,
              (if is_status "exited" c
               then if has_samples be (c_trial_id c)
                    then modify_bm (BM.mark_completed (TStr (c_trial_id c)))
                    else modify_bm (BM.mark_failed (TStr (c_trial_id c)))
               else ret tt) (mk_world bm ev cm) = (mk_world bm1 ev cm, Done tt) /\
              incl (pending_trials bm1) (pending_trials bm)).
    { destruct (is_status "exited" c); [destruct (has_samples be (c_trial_id c)) |].
      - eexists. split; [reflexivity | apply mark_completed_shrinks].
      - eexists. split; [reflexivity | apply mark_failed_shrinks].
      - exists bm. split; [reflexivity | apply incl_refl]. }
    destruct H as (bm1 & -> & Hi).
    destruct (IH (mk_world bm1 ev cm)) as (bm' & -> & Hi').
    exists bm'. split; [reflexivity |]. eapply incl_tran; eassumption.
Qed.

Lemma list_remove_length (x : tid) (l : list tid) :
  (length (list_remove x l) <= length l)%nat.
Proof.
  induction l as [| y l IH]; simpl; [lia |].
  destruct (tid_eq_dec x y); simpl; lia.
Qed.

Lemma mark_failed_pending_length (t : tid) (bm : BatchManager) :
  (length (pending_trials (BM.mark_failed t bm)) <= length (pending_trials bm))%nat.
Proof.
  unfold BM.mark_failed, BM.drop_pending.
  destruct (py_in t (pending_trials bm));
    destruct (py_in t (failed_trials _)); simpl;
    try apply list_remove_length; lia.
Qed.

Lemma mark_failed_head (t : tid) (rest : list tid) (bm : BatchManager) :
  pending_trials bm = t :: rest ->
  pending_trials (BM.mark_failed t bm) = rest.
Proof.
  intros Hp. unfold BM.mark_failed, BM.drop_pending. rewrite Hp.
  assert (E : py_in t (t :: rest) = true) by (apply py_in_true; now left).
  rewrite E, list_remove_head.
  destruct (py_in t (failed_trials _)); reflexivity.
Qed.

(** The first loop of the start handler ends by its own condition, and
    nothing is raised out of it: the length of the queue is fuel enough. *)
Lemma start_initial_returns (be : backend) (limit : Z) : forall fuel rc started w,
  (length (pending_trials (w_bm w)) <= fuel)%nat ->
  exists w' started', start_initial fuel be limit rc started w = (w', Done started').
Proof.
  induction fuel as [| fuel IH]; intros rc started [bm ev cm] Hf;
    rewrite start_initial_eq; mrun; cbn [w_bm] in Hf;
    destruct (pending_trials bm) as [| t rest] eqn:Hp; cbn [length] in Hf;
    rewrite ?andb_false_r; try (eexists; eexists; reflexivity); try (exfalso; lia).
  destruct (rc <? limit); cbn [andb negb is_nil]; [| eexists; eexists; reflexivity].
  mrun. rewrite ?Hp. mrun. destruct (start_ok be t); mrun.
  - apply IH. cbn [w_bm BM.set_pending pending_trials]. lia.
  - apply IH. cbn [w_bm].
    pose proof (mark_failed_pending_length t (BM.set_pending rest bm)) as L.
    cbn [BM.set_pending pending_trials] in L. lia.
Qed.

(** So does the loop of the monitor that fills the free capacity. *)
Lemma fill_capacity_returns (be : backend) : forall fuel rc w,
  (length (pending_trials (w_bm w)) <= fuel)%nat ->
  exists w' rc', fill_capacity fuel be rc w = (w', Done rc').
Proof.
  induction fuel as [| fuel IH]; intros rc [bm ev cm] Hf;
    rewrite fill_capacity_eq; mrun; cbn [w_bm] in Hf;
    destruct (pending_trials bm) as [| t rest] eqn:Hp; cbn [length] in Hf;
    rewrite ?andb_false_r; try (eexists; eexists; reflexivity); try (exfalso; lia).
  destruct (rc <? concurrent_limit bm); cbn [andb negb is_nil];
    [| eexists; eexists; reflexivity].
  mrun. destruct (start_ok be t); mrun.
  - rewrite ?Hp. mrun.
    destruct (BM.get_status (BM.set_pending rest bm)) as [st | e]; mrun.
    + apply IH. cbn [w_bm BM.set_pending pending_trials]. lia.
    + apply IH. cbn [w_bm].
      pose proof (mark_failed_pending_length t (BM.set_pending rest bm)) as L.
      cbn [BM.set_pending pending_trials] in L. lia.
  - apply IH. cbn [w_bm]. rewrite (mark_failed_head t rest bm Hp). lia.
Qed.

(** The handler and a pass of the monitor always come to an end: with a
    result, or with the exception they let through. *)
Lemma handlers_end (now : str) (g be : backend) (rq : BatchRequest) (w : world) :
  snd (start_batch now be rq w) <> OutOfFuel /\
  snd (monitor_iteration g be w) <> OutOfFuel.
Proof.
  split.
  - unfold start_batch. destruct (docker_client be); cbn [negb]; [| discriminate].
    assert (H : forall w0, snd (catch
              (modify_bm (BM.start_batch now (rq_start_trial rq) (rq_end_trial rq)
                            (rq_concurrent rq)) ;;;
               running_count <~ lift (get_running_trial_count be) ;;
               bm1 <~ read_bm ;;
               started <~ start_initial (length (pending_trials bm1)) be
                            (rq_concurrent rq) running_count [] ;;
               st <~ get_status ;;
               broadcast (EvBatchStarted started st) ;;;
               bm2 <~ read_bm ;;
               ret {| rs_started := started;
                      rs_total := rq_end_trial rq - rq_start_trial rq + 1;
                      rs_pending := length (pending_trials bm2);
                      rs_message :=
                        lit "Batch started: " ++ str_of_int (Z.of_nat (length started))
                        ++ lit " trials running, "
                        ++ str_of_int (Z.of_nat (length (pending_trials bm2)))
                        ++ lit " pending" |})
              (fun _ => raise (HTTPException 500)) w0) <> OutOfFuel).
    { intros [bm0 ev0 cm0]. mrun.
      destruct (get_running_trial_count be) as [r | e]; [| discriminate].
      match goal with
      | |- context [start_initial ?f be ?l r [] ?w1] =>
          destruct (start_initial_returns be l f r [] w1 (Nat.le_refl _))
            as (w' & started & ->)
      end.
      destruct (BM.get_status (w_bm w')); discriminate. }
    mrun. destruct (running (w_bm w)); mrun; apply H.
  - unfold monitor_iteration, monitor_guard. mrun.
    assert (H : snd ((brk <~ catch (cycle_body be) (fun _ => ret false) ;;
                      if brk then ret Finished else ret Sleeping) w) <> OutOfFuel).
    { unfold cycle_body. mrun.
      destruct (get_simulation_containers be) as [l | e]; [| discriminate].
      destruct (classify_exited_run be l w) as (bm1 & -> & _). unfold mk_world.
      match goal with
      | |- context [fill_capacity ?f be ?r ?w1] =>
          destruct (fill_capacity_returns be f r w1 (Nat.le_refl _))
            as (w' & rc & ->)
      end.
      destruct (BM.get_status (w_bm w')) as [st | e]; [| discriminate].
      destruct (is_nil (pending_trials (w_bm w')) && (rc =? 0)); [| discriminate].
      cbn [w_bm]. destruct (BM.get_status (BM.set_running false (w_bm w')));
        discriminate. }
    destruct (running (w_bm w)); [| discriminate].
    destruct (negb (is_nil (pending_trials (w_bm w)))); mrun; [exact H |].
    destruct (get_running_trial_count g) as [n | e]; [| discriminate].
    destruct (n >? 0); [exact H | discriminate].
Qed.

(** ** The end of a batch *)

(** The condition of the [while] loop leaves the task as soon as the
    queue is empty and nothing runs: the body, and with it the block that
    clears the running flag and publishes the completion, is not entered. *)
Lemma monitor_iteration_idle (g be : backend) (w : world) :
  running (w_bm w) = true -> pending_trials (w_bm w) = [] ->
  get_running_trial_count g = Ok 0 ->
  monitor_iteration g be w = (w, Done Finished).
Proof.
  intros Hr Hp Hc. unfold monitor_iteration, monitor_guard. mrun.
  rewrite Hr, Hp. cbn [is_nil negb]. mrun. rewrite Hc. reflexivity.
Qed.

Lemma get_status_set_running (b : bool) (bm : BatchManager) (st : BM.status_doc) :
  BM.get_status bm = Ok st ->
  exists st', BM.get_status (BM.set_running b bm) = Ok st' /\
              (active_batch bm <> None -> BM.doc_active st' = b).
Proof.
  unfold BM.get_status. simpl. destruct (active_batch bm) as [bi |].
  - destruct (BM.progress_of _ _ _) as [p | e]; simpl; [| discriminate].
    intros _. eexists. split; [reflexivity | reflexivity].
  - intros _. eexists. split; [reflexivity |]. intros H. now contradiction H.
Qed.

(** What the body of a cycle does when it is entered with an empty queue
    and its listing shows no running trial: it publishes the update, then
    clears the running flag, publishes one completion event and breaks. *)
Lemma cycle_body_completion (be : backend) (l : list container) (w : world)
    (st : BM.status_doc) :
  get_simulation_containers be = Ok l ->
  filter (is_status "running") l = [] ->
  pending_trials (w_bm w) = [] ->
  BM.get_status (w_bm (fst (classify_exited be l w))) = Ok st ->
  exists st',
    BM.get_status (BM.set_running false (w_bm (fst (classify_exited be l w)))) = Ok st' /\
    cycle_body be w =
      (mk_world (BM.set_running false (w_bm (fst (classify_exited be l w))))
                (w_events w ++ [EvBatchUpdate st; EvBatchComplete st'])
                (w_cmds w),
       Done true).
Proof.
  intros Hl Hrun Hp Hst.
  destruct (classify_exited_run be l w) as (bm1 & Hc & Hi).
  rewrite Hc in *. cbn [fst mk_world w_bm] in *.
  assert (Hp1 : pending_trials bm1 = []).
  { rewrite Hp in Hi. destruct (pending_trials bm1) as [| t r]; [reflexivity |].
    destruct (Hi t (or_introl eq_refl)). }
  destruct (get_status_set_running false bm1 st Hst) as (st' & Hst' & _).
  exists st'. split; [exact Hst' |].
  unfold cycle_body. unfold bind at 1. unfold lift at 1. rewrite Hl, Hrun.
  unfold bind at 1. rewrite Hc. unfold mk_world. mrun.
  rewrite Hp1. cbn [length]. rewrite fill_capacity_eq. mrun.
  rewrite Hp1, andb_false_r. mrun. rewrite Hst. mrun.
  rewrite Hp1. cbn [is_nil andb]. change (Z.of_nat 0 =? 0) with true.
  cbn [w_bm w_events w_cmds]. rewrite Hst'. rewrite <- app_assoc. reflexivity.
Qed.

(** C6 on the code: after the last trial of a batch has exited, the
    monitor finds the queue empty and nothing running, and ends without
    a cycle: the batch stays active, no completion event is published,
    and the exited trial is never classified. *)
Theorem monitor_ends_without_completion :
  pending_trials (w_bm single_trial_started) = [] /\
  running (w_bm single_trial_started) = true /\
  snd (batch_monitor_task single_trial_schedule single_trial_started) = Done Finished /\
  running (w_bm (fst (batch_monitor_task single_trial_schedule single_trial_started)))
    = true /\
  filter is_complete_event
    (w_events (fst (batch_monitor_task single_trial_schedule single_trial_started))) = [] /\
  completed_trials
    (w_bm (fst (batch_monitor_task single_trial_schedule single_trial_started))) = [].
Proof.
  repeat split; vm_compute; reflexivity.
Qed.

(** When the body is entered all the same, because the last trial exits
    between the test of the loop condition and the listing made by the
    body, the block does what it is written for: one completion event,
    the flag cleared, the task over. *)
Example cycle_reaches_completion :
  let r := batch_monitor_task
             [(backend_at [ctr "1" "running"] [],
               backend_at [ctr "1" "exited"] ["1"%string])]
             single_trial_started in
  snd r = Done Finished /\
  running (w_bm (fst r)) = false /\
  length (filter is_complete_event (w_events (fst r))) = 1%nat /\
  completed_trials (w_bm (fst r)) = [TStr (lit "1")].
Proof.
  repeat split; vm_compute; reflexivity.
Qed.

(** For a batch over the empty range [s, s - 1] the body cannot reach the
    block either: the status document it builds for the update event
    raises, the pass is abandoned and the batch stays active. *)
Example cycle_empty_range :
  let w := mk_world (BM.start_batch (lit "t0") 4 3 2 BM.init) [] [] in
  let r := monitor_iteration (backend_at [ctr "9" "running"] [])
             (backend_at [] []) w in
  r = (w, Done Sleeping).
Proof.
  vm_compute. reflexivity.
Qed.

(** ** The waypoint pattern *)













(** ** Mission progress *)


(** The parser by cases on the last match and on the marker. *)
Lemma parse_mission_progress_cases (logs : str) :
  match last_match (findall_waypoint logs) with
  | None =>
      parse_mission_progress logs =
        Ok {| current_waypoint := 0; total_waypoints := 0;
              mission_complete := contains marker logs;
              progress_percent := if contains marker logs then PInt 100 else PInt 0 |}
  | Some (a, b) =>
      match PyFloat.int_truediv (int_of_digits a) (int_of_digits b) with
      | Raise e => parse_mission_progress logs = Raise e
      | Ok q =>
          parse_mission_progress logs =
            Ok {| current_waypoint := int_of_digits a;
                  total_waypoints := int_of_digits b;
                  mission_complete := contains marker logs;
                  progress_percent :=
                    if contains marker logs then PInt 100
                    else PFloat (PyFloat.round1 (PyFloat.mul q (PyFloat.of_int 100))) |}
      end
  end.
Proof.
  unfold parse_mission_progress. fold marker.
  destruct (last_match (findall_waypoint logs)) as [[a b] |].
  - destruct (PyFloat.int_truediv _ _) as [q | e]; simpl; [| reflexivity].
    destruct (contains marker logs); reflexivity.
  - simpl. destruct (contains marker logs); reflexivity.
Qed.





(** * Further properties of the scheduler *)

(** ** No identifier is counted twice *)

Section Keeps.

Variable I : BatchManager -> Prop.
Hypothesis I_pending : forall l bm, I bm -> I (BM.set_pending l bm).
Hypothesis I_running : forall b bm, I bm -> I (BM.set_running b bm).
Hypothesis I_completed : forall t bm, I bm -> I (BM.mark_completed t bm).
Hypothesis I_failed : forall t bm, I bm -> I (BM.mark_failed t bm).
Hypothesis I_stop : forall bm, I bm -> I (BM.stop_batch bm).
Hypothesis I_start : forall now s e c bm, I (BM.start_batch now s e c bm).


















End Keeps.




(** ** Failed starts at the start of a batch *)

Lemma mark_failed_fresh (t : tid) (bm : BatchManager) :
  ~ In t (pending_trials bm) -> ~ In t (failed_trials bm) ->
  BM.mark_failed t bm = BM.set_failed (failed_trials bm ++ [t]) bm.
Proof.
  intros Hp Hf. unfold BM.mark_failed, BM.drop_pending.
  destruct (py_in t (pending_trials bm)) eqn:E1;
    [apply py_in_true in E1; contradiction |].
  destruct (py_in t (failed_trials bm)) eqn:E2;
    [apply py_in_true in E2; contradiction | reflexivity].
Qed.

Lemma capacity_step (limit rc : Z) :
  rc < limit -> capacity limit rc = S (capacity limit (rc + 1)).
Proof. unfold capacity. lia. Qed.

Lemma capacity_none (limit rc : Z) : limit <= rc -> capacity limit rc = O.
Proof. unfold capacity. lia. Qed.

(** The first loop of the start handler on a queue without duplicates:
    it walks down the queue, files each failed start under failed and
    goes on, until the free capacity is used up or the queue is empty. *)
Lemma start_initial_run (be : backend) (limit : Z) :
  forall fuel rc started bm ev cm,
    (length (pending_trials bm) <= fuel)%nat ->
    NoDup (pending_trials bm) ->
    (forall t, In t (pending_trials bm) -> ~ In t (failed_trials bm)) ->
    exists j,
      start_initial fuel be limit rc started (mk_world bm ev cm) =
        (mk_world
           (BM.set_failed
              (failed_trials bm
               ++ filter (fun t => negb (start_ok be t)) (firstn j (pending_trials bm)))
              (BM.set_pending (skipn j (pending_trials bm)) bm))
           ev
           (cm ++ map CmdStartTrial (firstn j (pending_trials bm))),
         Done (started ++ filter (start_ok be) (firstn j (pending_trials bm)))) /\
      length (filter (start_ok be) (firstn j (pending_trials bm))) =
        Nat.min (capacity limit rc) (length (filter (start_ok be) (pending_trials bm))).
Proof.
  assert (Hstay : forall bm ev cm started q,
    pending_trials bm = q ->
    (mk_world bm ev cm, @Done (list tid) started) =
    (mk_world (BM.set_failed (failed_trials bm ++ []) (BM.set_pending q bm))
       ev (cm ++ []),
     Done (started ++ []))).
  { intros bm ev cm started q <-. rewrite !app_nil_r. destruct bm; reflexivity. }
  induction fuel as [| fuel IH]; intros rc started bm ev cm Hf Hn Hd;
    rewrite start_initial_eq; unfold mk_world; mrun;
    destruct (pending_trials bm) as [| t rest] eqn:Hp; cbn [length] in Hf;
    try (exfalso; lia).
  - exists O. rewrite andb_false_r. mrun. split; [| cbn; lia].
    cbn [firstn skipn filter map]. apply Hstay, Hp.
  - exists O. rewrite andb_false_r. mrun. split; [| cbn; lia].
    cbn [firstn skipn filter map]. apply Hstay, Hp.
  - destruct (Z.ltb_spec rc limit) as [Hlt | Hge]; cbn [andb negb is_nil].
    + mrun. rewrite ?Hp. mrun.
      inversion Hn as [| ? ? Ht Hn']; subst.
      destruct (start_ok be t) eqn:Hok; mrun.
      * destruct (IH (rc + 1) (started ++ [t]) (BM.set_pending rest bm) ev
                    (cm ++ [CmdStartTrial t])) as (j & Hrun & Hlen).
        { cbn. lia. } { exact Hn'. }
        { cbn. intros x Hx. apply Hd. now right. }
        cbn [BM.set_pending pending_trials failed_trials] in Hrun, Hlen.
        exists (S j). unfold mk_world in Hrun. rewrite Hrun.
        cbn [firstn skipn filter map]. rewrite Hok. cbn [negb length].
        split; [rewrite <- !app_assoc; reflexivity |].
        rewrite Hlen, (capacity_step limit rc Hlt). reflexivity.
      * rewrite mark_failed_fresh;
          [| cbn; exact Ht | cbn; apply Hd; now left].
        destruct (IH rc started
                    (BM.set_failed (failed_trials bm ++ [t]) (BM.set_pending rest bm))
                    ev (cm ++ [CmdStartTrial t])) as (j & Hrun & Hlen).
        { cbn. lia. } { exact Hn'. }
        { cbn. intros x Hx. rewrite in_app_iff. intros [Hin | [<- | []]].
          - apply (Hd x); [now right | exact Hin].
          - contradiction. }
        cbn [BM.set_pending BM.set_failed pending_trials failed_trials] in Hrun, Hlen.
        exists (S j). unfold mk_world in Hrun.
        cbn [BM.set_pending pending_trials failed_trials]. rewrite Hrun.
        cbn [firstn skipn filter map]. rewrite Hok. cbn [negb].
        split; [rewrite <- !app_assoc; reflexivity | exact Hlen].
    + exists O. mrun. split; [| rewrite (capacity_none limit rc Hge); cbn; lia].
      cbn [firstn skipn filter map]. apply Hstay, Hp.
Qed.

(** X2: a failed start does not use up a slot.  For any range and any
    backend that answers, the start handler walks down the range, files
    each trial whose start fails under failed and goes on to the next
    identifier; it stops when it has started as many trials as there was
    free capacity, or when the range is exhausted.  The trials it started
    are those of the walked stretch whose start succeeded, in order. *)
Theorem start_batch_skips_failed_starts (now : str) (be : backend)
    (l : list container) (s e c : Z) (w : world) :
  docker_client be = true -> listing be = Ok l ->
  let r := Z.of_nat (length (filter (is_status "running") l)) in
  let p := map TInt (py_range s (e + 1)) in
  let w' := fst (start_batch now be (request s e c) w) in
  exists j,
    pending_trials (w_bm w') = skipn j p /\
    failed_trials (w_bm w') = filter (fun t => negb (start_ok be t)) (firstn j p) /\
    w_cmds w' = w_cmds w ++ map CmdStartTrial (firstn j p) /\
    length (filter (start_ok be) (firstn j p)) =
      Nat.min (capacity c r) (length (filter (start_ok be) p)) /\
    (forall resp, snd (start_batch now be (request s e c) w) = Done resp ->
       rs_started resp = filter (start_ok be) (firstn j p)).
Proof.
  intros Hd Hl r p. cbv zeta.
  unfold start_batch, request. rewrite Hd. cbn [negb].
  cbn [rq_start_trial rq_end_trial rq_concurrent].
  assert (Hgo : forall bm0 ev0 cm0,
    exists j,
      let res :=
        catch
          (modify_bm (BM.start_batch now s e c) ;;;
           running_count <~ lift (get_running_trial_count be) ;;
           bm1 <~ read_bm ;;
           started <~ start_initial (length (pending_trials bm1)) be c running_count [] ;;
           st <~ get_status ;;
           broadcast (EvBatchStarted started st) ;;;
           bm2 <~ read_bm ;;
           ret {| rs_started := started;
                  rs_total := e - s + 1;
                  rs_pending := length (pending_trials bm2);
                  rs_message :=
                    lit "Batch started: " ++ str_of_int (Z.of_nat (length started))
                    ++ lit " trials running, "
                    ++ str_of_int (Z.of_nat (length (pending_trials bm2)))
                    ++ lit " pending" |})
          (fun _ => raise (HTTPException 500)) (mk_world bm0 ev0 cm0) in
      pending_trials (w_bm (fst res)) = skipn j p /\
      failed_trials (w_bm (fst res))
        = filter (fun t => negb (start_ok be t)) (firstn j p) /\
      w_cmds (fst res) = cm0 ++ map CmdStartTrial (firstn j p) /\
      length (filter (start_ok be) (firstn j p)) =
        Nat.min (capacity c r) (length (filter (start_ok be) p)) /\
      (forall resp, snd res = Done resp ->
         rs_started resp = filter (start_ok be) (firstn j p))).
  { intros bm0 ev0 cm0. unfold mk_world. mrun.
    rewrite (running_count_listing be l Hd Hl). fold r.
    destruct (start_initial_run be c
                (length (pending_trials (BM.start_batch now s e c bm0))) r []
                (BM.start_batch now s e c bm0) ev0 cm0) as (j & Hrun & Hlen).
    { apply Nat.le_refl. }
    { cbn. apply NoDup_map_inj; [intros x y H; congruence | apply py_range_NoDup]. }
    { cbn. auto. }
    cbn [BM.start_batch pending_trials failed_trials] in Hrun, Hlen. fold p in Hrun, Hlen.
    exists j. unfold mk_world in Hrun. cbn [BM.start_batch pending_trials]. fold p.
    rewrite Hrun. cbn [w_bm w_events w_cmds app].
    destruct (BM.get_status _) as [st | ex]; cbn [fst snd w_bm w_cmds
      BM.set_failed BM.set_pending pending_trials failed_trials app];
      repeat split; try exact Hlen.
    - intros resp H. injection H as <-. reflexivity.
    - intros resp H. discriminate. }
  mrun. destruct w as [bm ev cm]. cbn [w_bm w_events w_cmds].
  destruct (running bm); mrun; apply Hgo.
Qed.

(** Trials 1 to 5 under a limit of two, where trials 1 and 3 cannot be
    started: 2 and 4 run, 1 and 3 are failed, 5 stays pending. *)
Lemma start_batch_skips_failed_starts_witness :
  let be := backend_with [] (fun t => if tid_eq_dec t (TInt 1) then false
                                      else if tid_eq_dec t (TInt 3) then false
                                      else true) in
  pending_trials (w_bm (fst (start_batch (lit "t0") be (request 1 5 2) world0)))
    = [TInt 5] /\
  failed_trials (w_bm (fst (start_batch (lit "t0") be (request 1 5 2) world0)))
    = [TInt 1; TInt 3] /\
  exists j,
    pending_trials (w_bm (fst (start_batch (lit "t0") be (request 1 5 2) world0)))
      = skipn j (map TInt (py_range 1 6)) /\
    length (filter (start_ok be) (firstn j (map TInt (py_range 1 6)))) = 2%nat.
Proof.
  cbv zeta. split; [vm_compute; reflexivity |]. split; [vm_compute; reflexivity |].
  destruct (start_batch_skips_failed_starts (lit "t0")
              (backend_with [] (fun t => if tid_eq_dec t (TInt 1) then false
                                         else if tid_eq_dec t (TInt 3) then false
                                         else true))
              [] 1 5 2 world0 eq_refl eq_refl) as (j & Hp & _ & _ & Hlen & _).
  exists j. split; [exact Hp | exact Hlen].
Defined.

(** ** The concurrency ceiling of a monitor pass *)

Lemma mark_failed_limit (t : tid) (bm : BatchManager) :
  concurrent_limit (BM.mark_failed t bm) = concurrent_limit bm.
Proof.
  unfold BM.mark_failed, BM.drop_pending.
  destruct (py_in t (pending_trials bm)); destruct (py_in t (failed_trials _));
    reflexivity.
Qed.

Lemma mark_failed_fresh_pending (t : tid) (l : list tid) (bm : BatchManager) :
  ~ In t l ->
  pending_trials (BM.mark_failed t (BM.set_pending l bm)) = l.
Proof.
  intros Ht. unfold BM.mark_failed, BM.drop_pending. cbn [BM.set_pending pending_trials].
  destruct (py_in t l) eqn:E; [apply py_in_true in E; contradiction |].
  destruct (py_in t (failed_trials _)); reflexivity.
Qed.

Lemma mark_failed_completed (t : tid) (bm : BatchManager) :
  completed_trials (BM.mark_failed t bm) = completed_trials bm.
Proof.
  unfold BM.mark_failed, BM.drop_pending.
  destruct (py_in t (pending_trials bm)); destruct (py_in t (failed_trials _));
    reflexivity.
Qed.

Lemma mark_failed_In (t x : tid) (bm : BatchManager) :
  In x (failed_trials (BM.mark_failed t bm)) <-> In x (failed_trials bm) \/ x = t.
Proof.
  unfold BM.mark_failed, BM.drop_pending.
  destruct (py_in t (pending_trials bm));
    cbn [BM.set_pending failed_trials];
    (destruct (py_in t (failed_trials bm)) eqn:E;
     cbn [BM.set_failed BM.set_pending failed_trials];
     [ apply py_in_true in E; split; [auto | intros [H | ->]; assumption]
     | rewrite in_app_iff; cbn [In]; split; [intros [H | [H | []]]; auto
                                            | intros [H | ->]; auto] ]).
Qed.

(** X3: the loop of a monitor pass that fills the free capacity, on a queue
    without duplicates: it takes identifiers from the head of the queue
    in order, the running count it keeps grows by one for each start that
    succeeds, and it stops when that count reaches the limit or the queue
    is empty.  So the number of trials started in a pass is the smaller
    of the free capacity and the number of trials that can be started,
    and the count never passes the limit unless it was beyond it.  Every
    trial of the walked stretch whose start failed is in the failed list
    afterwards; the failed list loses nothing and gains nothing but
    trials of the walked stretch, and the completed list is untouched. *)
Theorem fill_capacity_admission (be : backend) : forall fuel rc w,
  (length (pending_trials (w_bm w)) <= fuel)%nat ->
  NoDup (pending_trials (w_bm w)) ->
  let p := pending_trials (w_bm w) in
  let limit := concurrent_limit (w_bm w) in
  exists j w' rc',
    fill_capacity fuel be rc w = (w', Done rc') /\
    pending_trials (w_bm w') = skipn j p /\
    concurrent_limit (w_bm w') = limit /\
    w_cmds w' = w_cmds w ++ map CmdStartTrial (firstn j p) /\
    rc' = rc + Z.of_nat (length (filter (start_ok be) (firstn j p))) /\
    length (filter (start_ok be) (firstn j p)) =
      Nat.min (capacity limit rc) (length (filter (start_ok be) p)) /\
    rc' <= Z.max rc limit /\
    completed_trials (w_bm w') = completed_trials (w_bm w) /\
    (forall t, In t (firstn j p) -> start_ok be t = false ->
       In t (failed_trials (w_bm w'))) /\
    (forall t, In t (failed_trials (w_bm w)) -> In t (failed_trials (w_bm w'))) /\
    (forall t, In t (failed_trials (w_bm w')) ->
       In t (failed_trials (w_bm w)) \/ In t (firstn j p)).
Proof.
  assert (Hle : forall limit rc n m, n = Nat.min (capacity limit rc) m ->
            rc + Z.of_nat n <= Z.max rc limit).
  { intros limit rc n m ->. unfold capacity. lia. }
  induction fuel as [| fuel IH]; intros rc [bm ev cm] Hf Hn; cbv zeta;
    cbn [w_bm w_cmds] in *; rewrite fill_capacity_eq; mrun;
    destruct (pending_trials bm) as [| t rest] eqn:Hp; cbn [length] in Hf;
    try (exfalso; lia).
  - exists O. rewrite andb_false_r. mrun. eexists. eexists.
    split; [reflexivity |]. cbn. rewrite Hp, app_nil_r.
    repeat split; try lia; try contradiction; auto.
  - exists O. rewrite andb_false_r. mrun. eexists. eexists.
    split; [reflexivity |]. cbn. rewrite Hp, app_nil_r.
    repeat split; try lia; try contradiction; auto.
  - destruct (Z.ltb_spec rc (concurrent_limit bm)) as [Hlt | Hge];
      cbn [andb negb is_nil].
    + inversion Hn as [| ? ? Ht Hn']; subst.
      assert (Hstep : forall w1 rc1,
        pending_trials (w_bm w1) = rest ->
        concurrent_limit (w_bm w1) = concurrent_limit bm ->
        w_cmds w1 = cm ++ [CmdStartTrial t] ->
        rc1 = rc + Z.of_nat (length (filter (start_ok be) [t])) ->
        completed_trials (w_bm w1) = completed_trials bm ->
        (start_ok be t = false -> In t (failed_trials (w_bm w1))) ->
        (forall x, In x (failed_trials bm) -> In x (failed_trials (w_bm w1))) ->
        (forall x, In x (failed_trials (w_bm w1)) -> In x (failed_trials bm) \/ x = t) ->
        exists j w' rc',
          fill_capacity fuel be rc1 w1 = (w', Done rc') /\
          pending_trials (w_bm w') = skipn j (t :: rest) /\
          concurrent_limit (w_bm w') = concurrent_limit bm /\
          w_cmds w' = cm ++ map CmdStartTrial (firstn j (t :: rest)) /\
          rc' = rc + Z.of_nat (length (filter (start_ok be) (firstn j (t :: rest)))) /\
          length (filter (start_ok be) (firstn j (t :: rest))) =
            Nat.min (capacity (concurrent_limit bm) rc)
              (length (filter (start_ok be) (t :: rest))) /\
          rc' <= Z.max rc (concurrent_limit bm) /\
          completed_trials (w_bm w') = completed_trials bm /\
          (forall x, In x (firstn j (t :: rest)) -> start_ok be x = false ->
             In x (failed_trials (w_bm w'))) /\
          (forall x, In x (failed_trials bm) -> In x (failed_trials (w_bm w'))) /\
          (forall x, In x (failed_trials (w_bm w')) ->
             In x (failed_trials bm) \/ In x (firstn j (t :: rest)))).
      { intros w1 rc1 Hp1 Hl1 Hc1 Hrc1 Hco1 Hfa1 Hin1 Hsub1.
        destruct (IH rc1 w1)
          as (j & w' & rc' & Hrun & Hpe & Hli & Hcm & Hrc & Hlen & _
              & Hco & Hfa & Hin & Hsub).
        { rewrite Hp1. lia. } { rewrite Hp1. exact Hn'. }
        rewrite Hp1, Hl1 in *. rewrite Hc1 in Hcm.
        exists (S j), w', rc'. cbn [firstn skipn map filter] in *.
        assert (Hlen' :
          length (if start_ok be t then t :: filter (start_ok be) (firstn j rest)
                  else filter (start_ok be) (firstn j rest)) =
          Nat.min (capacity (concurrent_limit bm) rc)
            (length (if start_ok be t then t :: filter (start_ok be) rest
                     else filter (start_ok be) rest))).
        { destruct (start_ok be t); cbn [length] in *.
          - rewrite (capacity_step _ _ Hlt), Hlen.
            replace rc1 with (rc + 1) by lia. reflexivity.
          - replace rc1 with rc in Hlen by lia. exact Hlen. }
        split; [exact Hrun |]. split; [exact Hpe |]. split; [exact Hli |].
        split; [rewrite Hcm, <- app_assoc; reflexivity |].
        assert (Hrc' : rc' = rc + Z.of_nat (length
                  (if start_ok be t then t :: filter (start_ok be) (firstn j rest)
                   else filter (start_ok be) (firstn j rest)))).
        { rewrite Hrc, Hrc1. destruct (start_ok be t); cbn [length]; lia. }
        split; [exact Hrc' |]. split; [exact Hlen' |].
        split; [rewrite Hrc'; eapply Hle; exact Hlen' |].
        split; [rewrite Hco; exact Hco1 |].
        split; [| split].
        - intros x [<- | Hx] Hno; [apply Hin, Hfa1, Hno | now apply Hfa].
        - intros x Hx. apply Hin, Hin1, Hx.
        - intros x Hx. destruct (Hsub x Hx) as [H | H]; [| right; now right].
          destruct (Hsub1 x H) as [H' | ->]; [now left | right; now left]. }
      mrun. destruct (start_ok be t) eqn:Hok; mrun.
      * rewrite ?Hp. mrun.
        destruct (BM.get_status (BM.set_pending rest bm)) as [st | ex]; mrun;
          apply Hstep; cbn [w_bm w_cmds length filter]; rewrite ?Hok;
          try reflexivity; try discriminate;
          try (rewrite mark_failed_fresh_pending; [reflexivity | exact Ht]);
          try (rewrite mark_failed_limit; reflexivity);
          try (rewrite mark_failed_completed; reflexivity);
          try (intros x Hx; apply mark_failed_In; left; exact Hx);
          try (intros x Hx; apply mark_failed_In in Hx; exact Hx);
          try (intros x Hx; exact Hx);
          try (intros x Hx; left; exact Hx).
      * apply Hstep; cbn [w_bm w_cmds length filter]; rewrite ?Hok;
          try reflexivity;
          try (apply (mark_failed_head t rest bm Hp));
          try (rewrite mark_failed_limit; reflexivity);
          try (cbn [length]; lia);
          try (rewrite mark_failed_completed; reflexivity);
          try (intros _; apply mark_failed_In; right; reflexivity);
          try (intros x Hx; apply mark_failed_In; left; exact Hx);
          try (intros x Hx; apply mark_failed_In in Hx; exact Hx).
    + exists O. mrun. eexists. eexists. split; [reflexivity |].
      cbn. rewrite Hp, app_nil_r, (capacity_none _ _ Hge).
      repeat split; try lia; try contradiction; auto.
Qed.

(** Trials 2, 3 and 4 pending under a limit of three with one trial
    running, and the start of trial 2 fails: trial 2 is filed under
    failed and the two free slots go to trials 3 and 4. *)
Lemma fill_capacity_admission_witness :
  let w := mk_world (BM.set_pending [TInt 2; TInt 3; TInt 4]
                       (BM.start_batch (lit "t0") 1 4 3 BM.init)) [] [] in
  let be := backend_with [] (fun t => if tid_eq_dec t (TInt 2) then false else true) in
  exists j w' rc',
    fill_capacity 3 be 1 w = (w', Done rc') /\
    pending_trials (w_bm w') = skipn j [TInt 2; TInt 3; TInt 4] /\
    rc' <= Z.max 1 3 /\
    (In (TInt 2) (firstn j [TInt 2; TInt 3; TInt 4]) ->
     In (TInt 2) (failed_trials (w_bm w'))).
Proof.
  cbv zeta.
  destruct (fill_capacity_admission
              (backend_with [] (fun t => if tid_eq_dec t (TInt 2) then false else true))
              3 1
              (mk_world (BM.set_pending [TInt 2; TInt 3; TInt 4]
                           (BM.start_batch (lit "t0") 1 4 3 BM.init)) [] []))
    as (j & w' & rc' & Hrun & Hp & _ & _ & _ & _ & Hle & _ & Hfa & _).
  - cbn. lia.
  - cbn. repeat constructor; cbn; intuition discriminate.
  - exists j, w', rc'. split; [exact Hrun |]. split; [exact Hp |].
    split; [exact Hle |]. intros Hin. apply (Hfa _ Hin). reflexivity.
Defined.

(** ** Cancelling and the monitor *)

Lemma monitor_iteration_inactive (g be : backend) (w : world) :
  running (w_bm w) = false -> monitor_iteration g be w = (w, Done Finished).
Proof.
  intros Hr. unfold monitor_iteration, monitor_guard. mrun. rewrite Hr. reflexivity.
Qed.

Lemma stop_each_bm (stop_ok : str -> bool) (names : list str) : forall stopped w,
  w_bm (fst (stop_each stop_ok names stopped w)) = w_bm w.
Proof.
  induction names as [| n l IH]; intros stopped w; cbn [stop_each]; [reflexivity |].
  destruct (starts_with (lit "aquatic-trial-") n); [| apply IH]. mrun.
  destruct (stop_ok n); [| reflexivity].
  rewrite IH. reflexivity.
Qed.

Lemma stop_all_bm (names : result (list str)) (stop_ok : str -> bool) (w : world) :
  w_bm (fst (stop_all names stop_ok w)) = BM.stop_batch (w_bm w).
Proof.
  unfold stop_all. mrun. destruct names as [l | e]; [| reflexivity].
  pose proof (stop_each_bm stop_ok l []
                {| w_bm := BM.stop_batch (w_bm w); w_events := w_events w;
                   w_cmds := w_cmds w |}) as H.
  destruct (stop_each stop_ok l [] _) as [w' [st | e |]]; cbn [fst snd w_bm] in *;
    exact H.
Qed.

(** X4: once a batch is cancelled, by the cancel handler or by the stop-all
    handler (also when the latter ends in an error), the monitor leaves
    its loop at the next test of the condition, whatever the backend
    shows: it starts no trial, changes no list and publishes nothing. *)
Theorem cancelled_batch_ends_monitor (g be : backend) (w : world)
    (names : result (list str)) (stop_ok : str -> bool)
    (schedule : list (backend * backend)) :
  monitor_iteration g be (fst (cancel_batch w)) = (fst (cancel_batch w), Done Finished) /\
  monitor_iteration g be (fst (stop_all names stop_ok w))
    = (fst (stop_all names stop_ok w), Done Finished) /\
  batch_monitor_task ((g, be) :: schedule) (fst (cancel_batch w))
    = (fst (cancel_batch w), Done Finished).
Proof.
  assert (H1 : running (w_bm (fst (cancel_batch w))) = false) by reflexivity.
  assert (H2 : running (w_bm (fst (stop_all names stop_ok w))) = false)
    by (rewrite stop_all_bm; reflexivity).
  split; [| split].
  - apply monitor_iteration_inactive, H1.
  - apply monitor_iteration_inactive, H2.
  - cbn [batch_monitor_task]. unfold bind at 1.
    rewrite (monitor_iteration_inactive g be _ H1). reflexivity.
Qed.

(** ** Stop-all *)

Lemma stop_each_run (stop_ok : str -> bool) (names : list str) : forall stopped w,
  let fleet := filter (starts_with (lit "aquatic-trial-")) names in
  exists k,
    w_cmds (fst (stop_each stop_ok names stopped w))
      = w_cmds w ++ map CmdStop (firstn k fleet) /\
    w_events (fst (stop_each stop_ok names stopped w)) = w_events w /\
    (forallb stop_ok fleet = true ->
       k = length fleet /\
       snd (stop_each stop_ok names stopped w) = Done (stopped ++ fleet)) /\
    (forallb stop_ok fleet = false ->
       forallb stop_ok (firstn k fleet) = false /\
       forallb stop_ok (firstn (pred k) fleet) = true /\
       snd (stop_each stop_ok names stopped w) = Exc BackendError).
Proof.
  induction names as [| n l IH]; intros stopped w; cbv zeta; cbn [stop_each filter].
  - exists O. cbn. rewrite !app_nil_r. repeat split; discriminate.
  - destruct (starts_with (lit "aquatic-trial-") n) eqn:Hn; [| apply IH].
    mrun. destruct (stop_ok n) eqn:Hs.
    + destruct (IH (stopped ++ [n])
                  {| w_bm := w_bm w; w_events := w_events w;
                     w_cmds := w_cmds w ++ [CmdStop n] |})
        as (k & Hc & He & Hall & Hsome).
      cbv zeta in *. cbn [w_cmds w_events] in *.
      exists (S k). cbn [firstn map forallb length pred]. rewrite Hs. cbn [andb].
      split; [rewrite Hc, <- app_assoc; reflexivity |].
      split; [exact He |]. split.
      * intros Hf. destruct (Hall Hf) as [-> ->].
        split; [reflexivity | rewrite <- app_assoc; reflexivity].
      * intros Hf. destruct (Hsome Hf) as (Ha & Hb & Hc').
        split; [exact Ha |]. split; [| exact Hc'].
        destruct k as [| k]; [reflexivity |].
        cbn [pred firstn forallb] in *. rewrite Hs. exact Hb.
    + exists 1%nat. cbn [firstn map forallb pred fst snd w_cmds w_events].
      rewrite Hs. cbn [andb].
      split; [reflexivity |]. split; [reflexivity |].
      split; [discriminate | intros _; repeat split].
Qed.

(** X5: the stop-all handler cancels the batch first, then sends a stop to
    the listed containers whose name begins with [aquatic-trial-], in
    the order of the listing, and to no other container.  When every
    stop succeeds all of them are stopped and reported in one event;
    when a stop fails the handler answers with an error, the containers
    listed after the failing one are left running and no event is
    published, while the batch stays cancelled. *)
Theorem stop_all_stops_the_fleet (names : list str) (stop_ok : str -> bool) (w : world) :
  let fleet := filter (starts_with (lit "aquatic-trial-")) names in
  let r := stop_all (Ok names) stop_ok w in
  w_bm (fst r) = BM.stop_batch (w_bm w) /\
  (exists k, w_cmds (fst r) = w_cmds w ++ map CmdStop (firstn k fleet)) /\
  (forallb stop_ok fleet = true ->
     snd r = Done fleet /\
     w_cmds (fst r) = w_cmds w ++ map CmdStop fleet /\
     w_events (fst r) = w_events w ++ [EvBatchStopped fleet]) /\
  (forallb stop_ok fleet = false ->
     snd r = Exc (HTTPException 500) /\
     w_events (fst r) = w_events w /\
     exists k, (k < length fleet)%nat /\
       w_cmds (fst r) = w_cmds w ++ map CmdStop (firstn (S k) fleet) /\
       forallb stop_ok (firstn k fleet) = true /\
       forallb stop_ok (firstn (S k) fleet) = false).
Proof.
  cbv zeta. split; [apply stop_all_bm |].
  unfold stop_all. mrun.
  destruct (stop_each_run stop_ok names []
              {| w_bm := BM.stop_batch (w_bm w); w_events := w_events w;
                 w_cmds := w_cmds w |}) as (k & Hc & He & Hall & Hsome).
  cbv zeta in *. cbn [w_cmds w_events app] in *.
  set (fleet := filter (starts_with (lit "aquatic-trial-")) names) in *.
  destruct (stop_each stop_ok names [] _) as [w' [st | e |]] eqn:E;
    cbn [fst snd w_cmds w_events] in *.
  - destruct (forallb stop_ok fleet) eqn:Hf.
    + destruct (Hall eq_refl) as [-> Hst]. injection Hst as ->.
      rewrite firstn_all in Hc.
      split; [exists (length fleet); rewrite firstn_all; exact Hc |].
      split; [intros _; repeat split; [exact Hc | rewrite He; reflexivity]
             | discriminate].
    + destruct (Hsome eq_refl) as (_ & _ & Hx). discriminate.
  - destruct (forallb stop_ok fleet) eqn:Hf.
    + destruct (Hall eq_refl) as [_ Hx]. discriminate.
    + destruct (Hsome eq_refl) as (Ha & Hb & _).
      split; [exists k; exact Hc |]. split; [discriminate |].
      intros _. split; [reflexivity |]. split; [exact He |].
      destruct k as [| k]; [cbn in Ha; discriminate |].
      exists k. cbn [pred] in Hb. repeat split; try assumption.
      destruct (Nat.lt_ge_cases k (length fleet)) as [Hlt | Hge]; [exact Hlt |].
      rewrite (firstn_all2 fleet) in Ha by lia. rewrite (firstn_all2 fleet) in Hb by lia.
      congruence.
  - destruct (forallb stop_ok fleet) eqn:Hf.
    + destruct (Hall eq_refl) as [_ Hx]. discriminate.
    + destruct (Hsome eq_refl) as (_ & _ & Hx). discriminate.
Qed.

Lemma stop_all_stops_the_fleet_witness :
  let names := [lit "aquatic-trial-1"; lit "postgres"; lit "aquatic-trial-2";
                lit "aquatic-trial-3"] in
  let stop_ok := fun n : str => if str_eq_dec n (lit "aquatic-trial-2") then false else true in
  snd (stop_all (Ok names) stop_ok world0) = Exc (HTTPException 500) /\
  w_cmds (fst (stop_all (Ok names) stop_ok world0))
    = [CmdStop (lit "aquatic-trial-1"); CmdStop (lit "aquatic-trial-2")] /\
  snd (stop_all (Ok names) (fun _ => true) world0)
    = Done [lit "aquatic-trial-1"; lit "aquatic-trial-2"; lit "aquatic-trial-3"].
Proof.
  cbv zeta.
  pose (names := [lit "aquatic-trial-1"; lit "postgres"; lit "aquatic-trial-2";
                  lit "aquatic-trial-3"]).
  pose (stop_ok := fun n : str =>
                     if str_eq_dec n (lit "aquatic-trial-2") then false else true).
  destruct (stop_all_stops_the_fleet names stop_ok world0) as (_ & _ & _ & Hfail).
  destruct (stop_all_stops_the_fleet names (fun _ => true) world0) as (_ & _ & Hall & _).
  split; [exact (proj1 (Hfail eq_refl)) |].
  split; [vm_compute; reflexivity |].
  exact (proj1 (Hall eq_refl)).
Defined.

(** * The fleet: names, ports and domains *)

(** ** The proxy and the published port *)


Lemma not_printable_digits (n : Z) :
  0 <= n -> ~ printable n -> (max_str_digits < length (str_of_int n))%nat.
Proof.
  unfold printable, decimal_digits. intros Hn H. rewrite Z.abs_eq in H by exact Hn.
  now apply Nat.nle_gt.
Qed.




(** ** ROS domains *)

(** X7: the ROS domain given to a trial lies in [0, 100); two trials get the
    same domain exactly when their identifiers differ by a multiple of
    100, so trials less than 100 apart never share one, and trials [t]
    and [t + 100] always do. *)
Theorem domain_id_collisions (t u : Z) :
  0 <= domain_id t < 100 /\
  (domain_id t = domain_id u <-> (t - u) mod 100 = 0) /\
  domain_id (t + 100) = domain_id t /\
  (t <> u -> Z.abs (t - u) < 100 -> domain_id t <> domain_id u).
Proof.
  unfold domain_id.
  assert (Hiff : t mod 100 = u mod 100 <-> (t - u) mod 100 = 0).
  { pose proof (Z.div_mod t 100 ltac:(lia)) as Dt.
    pose proof (Z.div_mod u 100 ltac:(lia)) as Du.
    pose proof (Z.mod_pos_bound t 100 ltac:(lia)) as Bt.
    pose proof (Z.mod_pos_bound u 100 ltac:(lia)) as Bu.
    split; intros E.
    - replace (t - u) with ((t / 100 - u / 100) * 100) by lia.
      apply Z.mod_mul. lia.
    - apply Z.mod_divide in E; [| lia]. destruct E as [k Hk]. nia. }
  split; [apply Z.mod_pos_bound; lia |].
  split; [exact Hiff |].
  split.
  - replace (t + 100) with (t + 1 * 100) by lia. apply Z.mod_add. lia.
  - intros Hne Hd H. apply Hiff in H. apply Z.mod_divide in H; [| lia].
    destruct H as [k Hk]. nia.
Qed.

Lemma domain_id_collisions_witness :
  domain_id 7 <> domain_id 42 /\ domain_id 101 = domain_id 1.
Proof.
  split.
  - apply (proj2 (proj2 (proj2 (domain_id_collisions 7 42)))); cbn; lia.
  - exact (proj1 (proj2 (proj2 (domain_id_collisions 1 1)))).
Defined.

(** ** From the name of a container to its trial *)

Lemma starts_with_app (p s : str) : starts_with p (p ++ s) = true.
Proof.
  induction p as [| a p IH]; simpl; [reflexivity |].
  destruct (ascii_dec a a); [exact IH | contradiction].
Qed.





(** * The listing of the fleet *)

(** ** The final sort *)








(** ** The running count over the listing *)





(** ** Statistics and mission progress of one container *)

Lemma compute_stats_zero_limit (raw : Aggregator.raw_stats) :
  Aggregator.mem_limit raw = Some 0 -> Aggregator.compute_stats raw = None.
Proof.
  intros Hl. unfold Aggregator.compute_stats, Aggregator.obind.
  destruct (Aggregator.cpu_total_usage raw) as [c |]; [| reflexivity].
  destruct (Aggregator.precpu_total_usage raw) as [pc |]; [| reflexivity].
  destruct (Aggregator.system_cpu_usage raw) as [s |]; [| reflexivity].
  destruct (Aggregator.presystem_cpu_usage raw) as [ps |]; [| reflexivity].
  destruct (Aggregator.best_effort (cpu_percent c pc s ps)); [| reflexivity].
  rewrite Hl. reflexivity.
Qed.

Lemma compute_stats_missing_counter (raw : Aggregator.raw_stats) :
  Aggregator.cpu_total_usage raw = None \/ Aggregator.precpu_total_usage raw = None \/
  Aggregator.system_cpu_usage raw = None \/ Aggregator.presystem_cpu_usage raw = None ->
  Aggregator.compute_stats raw = None.
Proof.
  intros H. unfold Aggregator.compute_stats, Aggregator.obind.
  destruct (Aggregator.cpu_total_usage raw) as [c |]; [| reflexivity].
  destruct (Aggregator.precpu_total_usage raw) as [pc |]; [| reflexivity].
  destruct (Aggregator.system_cpu_usage raw) as [s |]; [| reflexivity].
  destruct (Aggregator.presystem_cpu_usage raw) as [ps |]; [| reflexivity].
  destruct H as [H | [H | [H | H]]]; discriminate.
Qed.

(** X11: the entry of a container that does not run has neither statistics
    nor mission progress, whatever docker would answer.  For one that
    runs, the statistics are all dropped, the CPU figure with them, when
    the memory limit reads 0 or one of the four CPU counters is not
    there; the mission progress is dropped when the last progress line
    of the log has a zero total, marker or not, and is there with the
    completion flag of the marker when the log has no progress line. *)
Theorem snapshot_best_effort (c : Aggregator.docker_container) :
  (Aggregator.is_running c = false ->
     Aggregator.sn_stats (Aggregator.snapshot_of c) = None /\
     Aggregator.sn_mission (Aggregator.snapshot_of c) = None) /\
  (Aggregator.is_running c = true ->
     (forall raw, Aggregator.dc_stats c = Ok raw ->
        Aggregator.mem_limit raw = Some 0 \/
        Aggregator.cpu_total_usage raw = None \/
        Aggregator.precpu_total_usage raw = None \/
        Aggregator.system_cpu_usage raw = None \/
        Aggregator.presystem_cpu_usage raw = None ->
        Aggregator.sn_stats (Aggregator.snapshot_of c) = None) /\
     (forall logs a b, Aggregator.dc_logs c = Ok logs ->
        last_match (findall_waypoint logs) = Some (a, b) -> int_of_digits b = 0 ->
        Aggregator.sn_mission (Aggregator.snapshot_of c) = None) /\
     (forall logs, Aggregator.dc_logs c = Ok logs -> findall_waypoint logs = [] ->
        Aggregator.sn_mission (Aggregator.snapshot_of c)
        = Some {| current_waypoint := 0; total_waypoints := 0;
                  mission_complete := contains marker logs;
                  progress_percent :=
                    if contains marker logs then PInt 100 else PInt 0 |})).
Proof.
  split.
  - intros Hr. cbn [Aggregator.snapshot_of Aggregator.sn_stats Aggregator.sn_mission].
    rewrite Hr. split; reflexivity.
  - intros Hr. cbn [Aggregator.snapshot_of Aggregator.sn_stats Aggregator.sn_mission].
    rewrite Hr. split; [| split].
    + intros raw Hs H. rewrite Hs. cbn [Aggregator.best_effort Aggregator.obind].
      destruct H as [H | H];
        [now apply compute_stats_zero_limit | now apply compute_stats_missing_counter].
    + intros logs a b Hl Hm Hz. rewrite Hl. cbn [rbind].
      pose proof (parse_mission_progress_cases logs) as C. rewrite Hm in C.
      unfold PyFloat.int_truediv in C. rewrite Hz in C. cbn in C. now rewrite C.
    + intros logs Hl Hn. rewrite Hl. cbn [rbind].
      pose proof (parse_mission_progress_cases logs) as C. rewrite Hn in C.
      cbn [last_match rev] in C. now rewrite C.
Qed.

(** A running container whose memory limit reads 0 and whose log ends in
    ["Waypoint 3/0:"] before the marker: its entry has no statistics and
    no mission progress. *)
Lemma snapshot_best_effort_witness :
  Aggregator.sn_stats
    (Aggregator.snapshot_of
       (running_container "aquatic-trial-4" zero_limit_stats
          "Waypoint 3/0: MISSION COMPLETE!")) = None /\
  Aggregator.sn_mission
    (Aggregator.snapshot_of
       (running_container "aquatic-trial-4" zero_limit_stats
          "Waypoint 3/0: MISSION COMPLETE!")) = None.
Proof.
  pose proof (proj2 (snapshot_best_effort
                       (running_container "aquatic-trial-4" zero_limit_stats
                          "Waypoint 3/0: MISSION COMPLETE!")) eq_refl) as [Hs [Hm _]].
  split.
  - apply (Hs zero_limit_stats eq_refl). left. reflexivity.
  - apply (Hm (lit "Waypoint 3/0: MISSION COMPLETE!") (lit "3") (lit "0") eq_refl);
      reflexivity.
Defined.

(** * Observers *)

(** ** The life of an endpoint *)

Lemma held_connect (c ws : ConnectionManager.websocket) (m : ConnectionManager.t) :
  held c (ConnectionManager.connect ws m)
  = if Nat.eq_dec ws c then S (held c m) else held c m.
Proof.
  unfold held, ConnectionManager.connect.
  cbn [ConnectionManager.active_connections].
  rewrite count_occ_app. cbn [count_occ].
  destruct (Nat.eq_dec ws c); [apply Nat.add_1_r | apply Nat.add_0_r].
Qed.

Lemma remove_first_count (ws : ConnectionManager.websocket) :
  forall l : list ConnectionManager.websocket,
  match ConnectionManager.remove_first ws l with
  | Some l' =>
      count_occ Nat.eq_dec l ws = S (count_occ Nat.eq_dec l' ws) /\
      (forall c, c <> ws -> count_occ Nat.eq_dec l c = count_occ Nat.eq_dec l' c)
  | None => count_occ Nat.eq_dec l ws = O
  end.
Proof.
  induction l as [| x l IH]; cbn [ConnectionManager.remove_first]; [reflexivity |].
  destruct (Nat.eqb_spec ws x) as [<- | Hne].
  - split.
    + cbn [count_occ]. destruct (Nat.eq_dec ws ws); [reflexivity | contradiction].
    + intros c Hc. cbn [count_occ].
      destruct (Nat.eq_dec ws c); [congruence | reflexivity].
  - destruct (ConnectionManager.remove_first ws l) as [l' |].
    + destruct IH as [IH1 IH2]. split.
      * cbn [count_occ]. destruct (Nat.eq_dec x ws); [congruence | exact IH1].
      * intros c Hc. cbn [count_occ]. rewrite (IH2 c Hc). reflexivity.
    + cbn [count_occ]. destruct (Nat.eq_dec x ws); [congruence | exact IH].
Qed.

Lemma registry_step_held (ws : ConnectionManager.websocket) (o : registry_op)
    (m : ConnectionManager.t) :
  registry_socket o <> ws -> held ws (registry_step m o) = held ws m.
Proof.
  destruct o as [c | c]; cbn [registry_socket registry_step]; intros Hne.
  - rewrite held_connect. destruct (Nat.eq_dec c ws); [contradiction | reflexivity].
  - unfold ConnectionManager.disconnect.
    pose proof (remove_first_count c (ConnectionManager.active_connections m)) as R.
    destruct (ConnectionManager.remove_first c _) as [l' |]; [| reflexivity].
    unfold held. cbn [ConnectionManager.active_connections].
    symmetry. apply (proj2 R). congruence.
Qed.

Lemma registry_run_held (ws : ConnectionManager.websocket) (ops : list registry_op) :
  Forall (fun o => registry_socket o <> ws) ops ->
  forall m, held ws (registry_run ops m) = held ws m.
Proof.
  unfold registry_run. induction 1 as [| o ops Ho _ IH]; intros m; cbn [fold_left].
  - reflexivity.
  - rewrite IH. now apply registry_step_held.
Qed.

(** X12: whatever the handlers of other sockets do to the manager while the
    loop of an endpoint runs, the [disconnect] of the endpoint finds its
    socket and does not raise: after a client disconnect the handler
    returns and the manager holds the socket as often as before the
    endpoint was opened.  When the loop ends with any other exception,
    the exception leaves the handler and the socket stays held. *)
Theorem endpoint_registration (ws : ConnectionManager.websocket)
    (ops : list registry_op) (m : ConnectionManager.t) (e : py_exc) :
  Forall (fun o => registry_socket o <> ws) ops ->
  (snd (Endpoint.websocket_endpoint ws (registry_run ops) Endpoint.ClientGone m) = None /\
   held ws (fst (Endpoint.websocket_endpoint ws (registry_run ops) Endpoint.ClientGone m))
   = held ws m) /\
  (snd (Endpoint.websocket_endpoint ws (registry_run ops) (Endpoint.LoopError e) m)
   = Some e /\
   held ws (fst (Endpoint.websocket_endpoint ws (registry_run ops) (Endpoint.LoopError e) m))
   = S (held ws m)).
Proof.
  intros Hops.
  assert (Hh : held ws (registry_run ops (ConnectionManager.connect ws m)) = S (held ws m)).
  { rewrite (registry_run_held ws ops Hops), held_connect.
    destruct (Nat.eq_dec ws ws); [reflexivity | contradiction]. }
  unfold Endpoint.websocket_endpoint, Endpoint.leave. split; [| split; [reflexivity | exact Hh]].
  unfold ConnectionManager.disconnect.
  pose proof (remove_first_count ws
                (ConnectionManager.active_connections
                   (registry_run ops (ConnectionManager.connect ws m)))) as R.
  unfold held in Hh at 1.
  destruct (ConnectionManager.remove_first ws _) as [l' |].
  - cbn [fst snd]. split; [reflexivity |].
    unfold held at 1. cbn [ConnectionManager.active_connections].
    destruct R as [R _]. lia.
  - exfalso. lia.
Qed.

(** Socket 7 joins two observers; while its loop runs, socket 1 leaves
    and socket 9 joins. *)
Lemma endpoint_registration_witness :
  Endpoint.websocket_endpoint 7%nat (registry_run [RDisconnect 1%nat; RConnect 9%nat])
    Endpoint.ClientGone {| ConnectionManager.active_connections := [1; 2]%nat |}
  = ({| ConnectionManager.active_connections := [2; 9]%nat |}, None) /\
  held 7%nat
    (fst (Endpoint.websocket_endpoint 7%nat
            (registry_run [RDisconnect 1%nat; RConnect 9%nat])
            (Endpoint.LoopError BackendError)
            {| ConnectionManager.active_connections := [1; 2]%nat |})) = 1%nat.
Proof.
  split; [reflexivity |].
  refine (proj2 (proj2 (endpoint_registration 7%nat [RDisconnect 1%nat; RConnect 9%nat]
                          {| ConnectionManager.active_connections := [1; 2]%nat |}
                          BackendError _))).
  constructor; [discriminate | constructor; [discriminate | constructor]].
Defined.

(** * The WebSocket route of the proxy *)

(** ** Routing *)



(** ** The relay *)







(** * Reconstructions *)

(** ** The table of processes *)

Lemma lookup_delete_same (k : Z) (t : Reconstruction.table) :
  Reconstruction.lookup k (Reconstruction.delete k t) = None.
Proof.
  induction t as [| [k' v] t IH]; cbn [Reconstruction.delete]; [reflexivity |].
  destruct (Z.eqb_spec k k') as [E | E]; [exact IH |].
  cbn [Reconstruction.lookup]. destruct (Z.eqb_spec k k'); [contradiction | exact IH].
Qed.

Lemma lookup_delete_other (k u : Z) (t : Reconstruction.table) :
  u <> k ->
  Reconstruction.lookup u (Reconstruction.delete k t) = Reconstruction.lookup u t.
Proof.
  intros Hne. induction t as [| [k' v] t IH]; cbn [Reconstruction.delete]; [reflexivity |].
  destruct (Z.eqb_spec k k') as [E | E]; cbn [Reconstruction.lookup]; rewrite IH.
  - destruct (Z.eqb_spec u k'); [congruence | reflexivity].
  - reflexivity.
Qed.

Lemma lookup_store_same (k v : Z) (t : Reconstruction.table) :
  Reconstruction.lookup k (Reconstruction.store k v t) = Some v.
Proof.
  induction t as [| [k' v'] t IH]; cbn [Reconstruction.store Reconstruction.lookup].
  - now rewrite Z.eqb_refl.
  - destruct (Z.eqb_spec k k') as [E | E]; cbn [Reconstruction.lookup].
    + now rewrite Z.eqb_refl.
    + destruct (Z.eqb_spec k k'); [contradiction | exact IH].
Qed.

Lemma lookup_store_other (k u v : Z) (t : Reconstruction.table) :
  u <> k ->
  Reconstruction.lookup u (Reconstruction.store k v t) = Reconstruction.lookup u t.
Proof.
  intros Hne. induction t as [| [k' v'] t IH];
    cbn [Reconstruction.store Reconstruction.lookup].
  - destruct (Z.eqb_spec u k); [contradiction | reflexivity].
  - destruct (Z.eqb_spec k k') as [E | E]; cbn [Reconstruction.lookup].
    + subst k'. destruct (Z.eqb_spec u k); [contradiction | reflexivity].
    + now rewrite IH.
Qed.

(** ** Starting a reconstruction *)

(** X15: a start for a trial whose data exist leaves exactly one process
    under the trial: the new one when the process could be started, none
    when it could not, in which case the answer is 500 and an earlier
    process of the trial, even a finished one, is forgotten.  An earlier
    process that still runs is terminated first, and killed when it does
    not end in time; one that has ended is sent nothing.  The processes
    of other trials stay as they are. *)
Theorem start_reconstruction_replaces (home : str) (ps : Reconstruction.procs)
    (trial_id : Z) (spawn : result Z) (t : Reconstruction.table) :
  let r := Reconstruction.start_reconstruction home ps trial_id true spawn t in
  (forall pid, spawn = Ok pid ->
     Reconstruction.lookup trial_id (table_after r) = Some pid /\
     exists doc, snd r = Ok doc /\ Reconstruction.sd_pid doc = pid) /\
  (forall e, spawn = Raise e ->
     Reconstruction.lookup trial_id (table_after r) = None /\
     snd r = Raise (HTTPException 500)) /\
  (forall u, u <> trial_id ->
     Reconstruction.lookup u (table_after r) = Reconstruction.lookup u t) /\
  (forall old, Reconstruction.lookup trial_id t = Some old ->
     match Reconstruction.poll ps old with
     | None =>
         In (Reconstruction.Terminate old) (effects_of r) /\
         (Reconstruction.wait_ok ps old = false ->
          In (Reconstruction.Kill old) (effects_of r))
     | Some _ =>
         forall p, ~ In (Reconstruction.Terminate p) (effects_of r) /\
                   ~ In (Reconstruction.Kill p) (effects_of r)
     end).
Proof.
  cbv zeta. unfold Reconstruction.start_reconstruction, table_after, effects_of.
  cbn [negb].
  destruct (Reconstruction.lookup trial_id t) as [old |] eqn:L.
  - split; [| split; [| split]].
    + intros pid ->. cbn [fst snd]. split; [apply lookup_store_same |].
      eexists. split; reflexivity.
    + intros e ->. cbn [fst snd]. split; [apply lookup_delete_same | reflexivity].
    + intros u Hu. destruct spawn as [pid | e]; cbn [fst snd].
      * rewrite lookup_store_other by assumption. now apply lookup_delete_other.
      * now apply lookup_delete_other.
    + intros old' E. injection E as <-. unfold Reconstruction.stop_process.
      destruct (Reconstruction.poll ps old) as [rc |].
      * intros p. destruct spawn as [pid | e]; cbn [fst snd app In];
          split; intros H; repeat (destruct H as [H | H]; [discriminate |]); exact H.
      * destruct spawn as [pid | e]; cbn [fst snd]; (split; [cbn; auto |]);
          intros ->; cbn; auto.
  - split; [| split; [| split]].
    + intros pid ->. cbn [fst snd]. split; [apply lookup_store_same |].
      eexists. split; reflexivity.
    + intros e ->. cbn [fst snd]. split; [exact L | reflexivity].
    + intros u Hu. destruct spawn as [pid | e]; cbn [fst snd]; [| reflexivity].
      now apply lookup_store_other.
    + intros old E. discriminate.
Qed.

(** Trial 3 is reconstructed by process 100, which does not end on
    [terminate]; a new start kills it and leaves process 200. *)
Lemma start_reconstruction_replaces_witness :
  Reconstruction.lookup 3
    (table_after (Reconstruction.start_reconstruction (lit "/home/sim") stubborn 3 true
                    (Ok 200) [(3, 100); (4, 101)]))
  = Some 200 /\
  In (Reconstruction.Kill 100)
    (effects_of (Reconstruction.start_reconstruction (lit "/home/sim") stubborn 3 true
                   (Ok 200) [(3, 100); (4, 101)])).
Proof.
  pose proof (start_reconstruction_replaces (lit "/home/sim") stubborn 3 (Ok 200)
                [(3, 100); (4, 101)]) as (Hnew & _ & _ & Hold).
  split.
  - exact (proj1 (Hnew 200 eq_refl)).
  - exact (proj2 (Hold 100 eq_refl) eq_refl).
Defined.

(** ** Deleting the data of a trial *)

(** X16: the handler answers 404 exactly when there is nothing of the trial:
    no data directory, no results directory and no process.  Otherwise
    it answers with a document whose success flag is set exactly when no
    removal failed, and it lists one error for each removal that failed;
    a removal that fails does not keep the other removal from being
    tried nor the process from being dropped.  Whatever happens to the
    directories, no process is left under the trial, a process that
    still runs is terminated, and the processes of other trials stay. *)
Theorem delete_trial_data_outcome (home : str) (ps : Reconstruction.procs)
    (trial_id : Z) (data results : option Reconstruction.rm_outcome)
    (t : Reconstruction.table) :
  let r := Reconstruction.delete_trial_data home ps trial_id data results t in
  (snd r = Raise (HTTPException 404) <->
     data = None /\ results = None /\ Reconstruction.lookup trial_id t = None) /\
  (forall doc, snd r = Ok doc ->
     Reconstruction.dd_success doc = negb (rm_failed data) && negb (rm_failed results) /\
     length (Reconstruction.dd_errors doc)
     = ((if rm_failed data then 1 else 0) + (if rm_failed results then 1 else 0))%nat /\
     (Reconstruction.lookup trial_id t <> None ->
      In (lit "running reconstruction process") (Reconstruction.dd_deleted doc))) /\
  Reconstruction.lookup trial_id (table_after r) = None /\
  (forall u, u <> trial_id ->
     Reconstruction.lookup u (table_after r) = Reconstruction.lookup u t) /\
  (forall proc, Reconstruction.lookup trial_id t = Some proc ->
     Reconstruction.poll ps proc = None ->
     In (Reconstruction.Terminate proc) (effects_of r)).
Proof.
  cbv zeta. unfold Reconstruction.delete_trial_data, table_after, effects_of.
  destruct (Reconstruction.lookup trial_id t) as [proc |] eqn:L.
  - assert (Hrest :
      Reconstruction.lookup trial_id (Reconstruction.delete trial_id t) = None /\
      (forall u, u <> trial_id ->
         Reconstruction.lookup u (Reconstruction.delete trial_id t)
         = Reconstruction.lookup u t) /\
      (forall p, Some proc = Some p -> Reconstruction.poll ps p = None ->
         In (Reconstruction.Terminate p) (Reconstruction.stop_process ps 2 proc))).
    { split; [apply lookup_delete_same |]. split; [intros u; apply lookup_delete_other |].
      intros p E Hp. injection E as <-. unfold Reconstruction.stop_process.
      rewrite Hp. left. reflexivity. }
    destruct data as [[| m | m] |], results as [[| m' | m'] |];
      cbn [app is_nil andb fst snd rm_failed negb length Nat.add];
      (split; [split; [discriminate | intros (? & ? & ?); discriminate] |]);
      (split; [| exact Hrest]);
      intros doc E; injection E as <-;
      cbn [Reconstruction.dd_success Reconstruction.dd_errors Reconstruction.dd_deleted
           is_nil length];
      (split; [reflexivity |]); (split; [reflexivity |]);
      intros _; cbn [In]; auto 6.
  - assert (Hrest :
      Reconstruction.lookup trial_id t = None /\
      (forall u, u <> trial_id -> Reconstruction.lookup u t = Reconstruction.lookup u t) /\
      (forall p, @None Z = Some p -> Reconstruction.poll ps p = None ->
         In (Reconstruction.Terminate p) [])).
    { split; [exact L |]. split; [reflexivity | discriminate]. }
    destruct data as [[| m | m] |], results as [[| m' | m'] |];
      cbn [app is_nil andb fst snd rm_failed negb length Nat.add];
      (split; [| split; [| exact Hrest]]);
      try (split; [discriminate | intros (? & ? & ?); discriminate]);
      try (split; [intros _; auto | reflexivity]);
      try discriminate;
      intros doc E; injection E as <-;
      cbn [Reconstruction.dd_success Reconstruction.dd_errors Reconstruction.dd_deleted
           is_nil length];
      (split; [reflexivity |]); (split; [reflexivity |]);
      intros H; contradiction.
Qed.

(** The data of trial 3 cannot be removed, its results can, and its
    reconstruction still runs. *)
Lemma delete_trial_data_outcome_witness :
  exists doc,
    snd (Reconstruction.delete_trial_data (lit "/home/sim") stubborn 3
           (Some (Reconstruction.PermissionDenied (lit "denied")))
           (Some Reconstruction.Removed) [(3, 100)]) = Ok doc /\
    Reconstruction.dd_success doc = false /\
    length (Reconstruction.dd_deleted doc) = 2%nat /\
    In (Reconstruction.Terminate 100)
      (effects_of (Reconstruction.delete_trial_data (lit "/home/sim") stubborn 3
                     (Some (Reconstruction.PermissionDenied (lit "denied")))
                     (Some Reconstruction.Removed) [(3, 100)])).
Proof.
  pose proof (delete_trial_data_outcome (lit "/home/sim") stubborn 3
                (Some (Reconstruction.PermissionDenied (lit "denied")))
                (Some Reconstruction.Removed) [(3, 100)]) as (_ & Hdoc & _ & _ & Hterm).
  eexists. split; [reflexivity |]. split; [| split].
  - exact (proj1 (Hdoc _ eq_refl)).
  - reflexivity.
  - exact (Hterm 100 eq_refl eq_refl).
Defined.

(** ** From the start of a reconstruction to the removal of the trial *)

Lemma delete_trial_data_held (home : str) (ps : Reconstruction.procs) (trial_id proc : Z)
    (data results : option Reconstruction.rm_outcome) (t : Reconstruction.table) :
  Reconstruction.lookup trial_id t = Some proc ->
  exists doc,
    snd (Reconstruction.delete_trial_data home ps trial_id data results t) = Ok doc /\
    last (Reconstruction.dd_deleted doc) [] = lit "running reconstruction process".
Proof.
  intros L. unfold Reconstruction.delete_trial_data. rewrite L.
  destruct data as [[| m | m] |], results as [[| m' | m'] |];
    cbn [app is_nil andb fst snd]; eexists; (split; [reflexivity |]); reflexivity.
Qed.

(** X17: once a reconstruction of a trial was started, its status is "in
    progress" with the pid of the start for as long as the process runs,
    and "completed successfully" once it has ended with code 0.
    Deleting the data of the trial then never answers 404, whatever is
    left on disk: it reports the process among what it deleted, also
    when the process had long ended, and from then on the status is "no
    reconstruction process found". *)
Theorem reconstruction_life_cycle (home : str) (ps ps' : Reconstruction.procs)
    (trial_id pid : Z) (data results : option Reconstruction.rm_outcome)
    (log : option (result str)) (t : Reconstruction.table) :
  let started :=
    Reconstruction.start_reconstruction home ps trial_id true (Ok pid) t in
  let deleted :=
    Reconstruction.delete_trial_data home ps' trial_id data results (table_after started) in
  (forall now, Reconstruction.poll now pid = None ->
     Reconstruction.get_reconstruction_status now trial_id log (table_after started)
     = Reconstruction.InProgress pid) /\
  (forall now, Reconstruction.poll now pid = Some 0 ->
     Reconstruction.get_reconstruction_status now trial_id log (table_after started)
     = Reconstruction.Ended 0 true (lit "Reconstruction completed successfully") None) /\
  (exists doc, snd deleted = Ok doc /\
     last (Reconstruction.dd_deleted doc) [] = lit "running reconstruction process") /\
  (forall now,
     Reconstruction.get_reconstruction_status now trial_id log (table_after deleted)
     = Reconstruction.NoProcess).
Proof.
  cbv zeta.
  assert (L : Reconstruction.lookup trial_id
                (table_after (Reconstruction.start_reconstruction home ps trial_id true
                                (Ok pid) t)) = Some pid).
  { unfold Reconstruction.start_reconstruction, table_after. cbn [negb].
    destruct (Reconstruction.lookup trial_id t); cbn [fst]; apply lookup_store_same. }
  split; [| split; [| split]].
  - intros now Hp. unfold Reconstruction.get_reconstruction_status. now rewrite L, Hp.
  - intros now Hp. unfold Reconstruction.get_reconstruction_status. now rewrite L, Hp.
  - now apply delete_trial_data_held with (proc := pid).
  - intros now. unfold Reconstruction.get_reconstruction_status.
    unfold Reconstruction.delete_trial_data. rewrite L.
    destruct data as [[| m | m] |], results as [[| m' | m'] |];
      cbn [app is_nil andb fst snd table_after]; unfold table_after; cbn [fst];
      now rewrite lookup_delete_same.
Qed.

Lemma reconstruction_life_cycle_witness :
  Reconstruction.get_reconstruction_status stubborn 3 None
    (table_after (Reconstruction.start_reconstruction (lit "/home/sim") stubborn 3 true
                    (Ok 200) []))
  = Reconstruction.InProgress 200.
Proof.
  exact (proj1 (reconstruction_life_cycle (lit "/home/sim") stubborn stubborn 3 200
                  None None None []) stubborn eq_refl).
Defined.

(** ** Lines of a text *)

Lemma split_on_cons (sep : ascii) (s : str) :
  exists l ls, split_on sep s = l :: ls.
Proof.
  induction s as [| c s (l & ls & IH)]; cbn [split_on]; [now exists [], [] |].
  destruct (ascii_dec c sep); [now eexists; eexists |].
  rewrite IH. now eexists; eexists.
Qed.

Lemma split_on_single (sep : ascii) (s : str) : ~ In sep s -> split_on sep s = [s].
Proof.
  induction s as [| c s IH]; intros Hn; cbn [split_on]; [reflexivity |].
  destruct (ascii_dec c sep) as [-> | _]; [exfalso; apply Hn; now left |].
  rewrite IH; [reflexivity |]. intros H. apply Hn. now right.
Qed.

Lemma split_on_app (sep : ascii) (a b : str) :
  split_on sep (a ++ sep :: b) = split_on sep a ++ split_on sep b.
Proof.
  induction a as [| c a IH]; cbn [app split_on].
  - destruct (ascii_dec sep sep); [reflexivity | contradiction].
  - destruct (ascii_dec c sep); [now rewrite IH |].
    rewrite IH. destruct (split_on_cons sep a) as (l & ls & ->). reflexivity.
Qed.

Lemma split_on_no_sep (sep : ascii) (s : str) :
  Forall (fun l => ~ In sep l) (split_on sep s).
Proof.
  induction s as [| c s IH]; cbn [split_on].
  - constructor; [intros [] | constructor].
  - destruct (ascii_dec c sep) as [-> | Hne].
    + constructor; [intros [] | exact IH].
    + destruct (split_on sep s) as [| l ls]; [repeat constructor; intros [H | []]; auto |].
      inversion IH as [| ? ? Hl Hls]; subst. constructor; [| exact Hls].
      intros [H | H]; [auto | contradiction].
Qed.

Lemma split_on_join (sep : ascii) (ls : list str) :
  ls <> [] -> Forall (fun l => ~ In sep l) ls -> split_on sep (join [sep] ls) = ls.
Proof.
  induction ls as [| l ls IH]; intros Hne Hf; [contradiction |].
  inversion Hf as [| ? ? Hl Hls]; subst. cbn [join].
  destruct ls as [| l' ls']; [now apply split_on_single |].
  cbn [app]. rewrite split_on_app, split_on_single by assumption.
  rewrite IH; [reflexivity | discriminate | assumption].
Qed.

Lemma join_cons (sep x : str) (y : str) (l : list str) :
  join sep (x :: y :: l) = x ++ sep ++ join sep (y :: l).
Proof. reflexivity. Qed.

Lemma join_split_on (sep : ascii) (s : str) : join [sep] (split_on sep s) = s.
Proof.
  induction s as [| c s IH]; cbn [split_on]; [reflexivity |].
  destruct (split_on_cons sep s) as (l & ls & E). rewrite E in *.
  destruct (ascii_dec c sep) as [-> | Hne].
  - rewrite join_cons, IH. reflexivity.
  - destruct ls as [| l' ls'].
    + cbn [join] in *. now rewrite IH.
    + rewrite join_cons in *. cbn [app] in *. now rewrite IH.
Qed.

Lemma last_n_suffix {A : Type} (n : nat) (l : list A) :
  firstn (length l - n) l ++ last_n n l = l.
Proof. apply firstn_skipn. Qed.

Lemma last_n_length {A : Type} (n : nat) (l : list A) :
  length (last_n n l) = Nat.min n (length l).
Proof. unfold last_n. rewrite length_skipn. lia. Qed.

Lemma last_n_Forall {A : Type} (P : A -> Prop) (n : nat) (l : list A) :
  Forall P l -> Forall P (last_n n l).
Proof.
  intros H. rewrite <- (last_n_suffix n l) in H. now apply Forall_app in H.
Qed.

(** ** The error of a failed reconstruction *)

Lemma starts_with_map (f : ascii -> ascii) (x : str) : forall s,
  starts_with x s = true -> starts_with (map f x) (map f s) = true.
Proof.
  induction x as [| a x IH]; intros [| b s] H; cbn [map starts_with] in *;
    try reflexivity; try discriminate.
  destruct (ascii_dec a b) as [-> | _]; [| discriminate].
  destruct (ascii_dec (f b) (f b)); [now apply IH | contradiction].
Qed.

Lemma contains_map (f : ascii -> ascii) (x s : str) :
  contains x s = true -> contains (map f x) (map f s) = true.
Proof.
  induction s as [| c s IH]; cbn [contains map]; intros H;
    apply orb_true_iff in H; apply orb_true_iff.
  - destruct H as [H | H]; [| discriminate]. left.
    now apply (starts_with_map f x []).
  - destruct H as [H | H]; [left; now apply (starts_with_map f x (c :: s)) |].
    right. now apply IH.
Qed.

(** The test for [ERROR] adds nothing to the test of the lowered line. *)
Lemma is_error_line_lower (line : str) :
  Reconstruction.is_error_line line = mentions_error line.
Proof.
  unfold Reconstruction.is_error_line, mentions_error.
  destruct (contains (lit "ERROR") line) eqn:E; [| reflexivity].
  apply (contains_map Proxy.lower_char) in E.
  change (map Proxy.lower_char line) with (Proxy.lower line) in E.
  change (map Proxy.lower_char (lit "ERROR")) with (lit "error") in E.
  now rewrite E.
Qed.

(** X18: the status of a reconstruction that ended with a code other than 0
    and left a log that can be read: it reports a failure, and its
    error is made of lines of the log that have the word "error" in
    them in any letter case, namely the last five of them, or all of
    them when there are fewer, in the order of the log; when no line
    has the word, the error is a fixed text. *)
Theorem failed_status_error_lines (ps : Reconstruction.procs) (trial_id proc rc : Z)
    (content : str) (t : Reconstruction.table) :
  Reconstruction.lookup trial_id t = Some proc ->
  Reconstruction.poll ps proc = Some rc ->
  rc <> 0 ->
  exists err,
    Reconstruction.get_reconstruction_status ps trial_id (Some (Ok content)) t
    = Reconstruction.Ended rc false (lit "Reconstruction failed") (Some err) /\
    (filter mentions_error (split_on newline content) = [] ->
     err = lit "Reconstruction failed. Check logs for details.") /\
    (filter mentions_error (split_on newline content) <> [] ->
     split_on newline err = last_n 5 (filter mentions_error (split_on newline content)) /\
     length (split_on newline err)
     = Nat.min 5 (length (filter mentions_error (split_on newline content))) /\
     Forall (fun line => mentions_error line = true) (split_on newline err)).
Proof.
  intros L Hp Hrc. eexists. split.
  - unfold Reconstruction.get_reconstruction_status. rewrite L, Hp.
    destruct (Z.eqb_spec rc 0) as [E | _]; [contradiction |]. reflexivity.
  - unfold Reconstruction.error_of_log.
    rewrite (filter_ext _ _ is_error_line_lower). fold newline.
    set (errs := filter mentions_error (split_on newline content)).
    assert (Hall : Forall (fun line => mentions_error line = true) errs).
    { apply Forall_forall. intros line H. now apply filter_In in H. }
    assert (Hsep : Forall (fun l => ~ In newline l) errs).
    { apply Forall_forall. intros line H. apply filter_In in H.
      pose proof (split_on_no_sep newline content) as F.
      rewrite Forall_forall in F. now apply F. }
    split.
    + intros ->. reflexivity.
    + intros Hne. destruct errs as [| e0 errs'] eqn:E; [contradiction |].
      cbn [is_nil negb]. rewrite <- E in *.
      assert (Hl : split_on newline (join [newline] (last_n 5 errs)) = last_n 5 errs).
      { apply split_on_join; [| now apply last_n_Forall].
        intros H0. apply (f_equal (@length str)) in H0.
        rewrite last_n_length, E in H0. cbn [length] in H0. lia. }
      rewrite Hl. split; [reflexivity |]. split; [apply last_n_length |].
      now apply last_n_Forall.
Qed.

Lemma failed_status_error_lines_witness :
  exists err,
    Reconstruction.get_reconstruction_status (ended_with 1) 3 (Some (Ok sample_log))
      [(3, 100)]
    = Reconstruction.Ended 1 false (lit "Reconstruction failed") (Some err) /\
    split_on newline err = [lit "ERROR a"; lit "Error b"].
Proof.
  destruct (failed_status_error_lines (ended_with 1) 3 100 1 sample_log [(3, 100)]
              eq_refl eq_refl ltac:(lia)) as (err & E & _ & H).
  exists err. split; [exact E |].
  rewrite (proj1 (H ltac:(discriminate))). reflexivity.
Defined.

(** * The images of a reconstruction *)

(** ** Paths *)

Lemma is_plain_parts (c : str) :
  is_plain c = true ->
  is_nil c = false /\ str_eqb c (lit ".") = false /\ str_eqb c (lit "..") = false /\
  ~ In "/"%char c.
Proof.
  unfold is_plain. intros H.
  apply andb_prop in H. destruct H as [H H4].
  apply andb_prop in H. destruct H as [H H3].
  apply andb_prop in H. destruct H as [H1 H2].
  apply negb_true_iff in H1, H2, H3.
  repeat (split; [assumption |]).
  intros Hin. rewrite forallb_forall in H4. specialize (H4 _ Hin).
  destruct (ascii_dec "/" "/"); [discriminate | contradiction].
Qed.

Lemma is_plain_trial (ds : str) :
  forallb is_digit ds = true -> is_plain (lit "trial_" ++ ds) = true.
Proof.
  intros Hd. unfold is_plain, str_eqb.
  destruct (str_eq_dec _ (lit ".")) as [E | _]; [discriminate E |].
  destruct (str_eq_dec _ (lit "..")) as [E | _]; [discriminate E |].
  rewrite forallb_app. cbn [is_nil app lit negb andb].
  change (forallb _ (lit "trial_")) with true. cbn [andb].
  apply forallb_forall. intros ch Hin.
  rewrite forallb_forall in Hd. specialize (Hd _ Hin).
  destruct (ascii_dec ch "/") as [-> | _]; [discriminate Hd | reflexivity].
Qed.

Lemma norm_step_plain (i : nat) (acc : list str) (c : str) :
  is_plain c = true -> norm_step i acc c = acc ++ [c].
Proof.
  intros H. apply is_plain_parts in H. destruct H as (H1 & H2 & H3 & _).
  unfold norm_step. now rewrite H1, H2, H3.
Qed.

Lemma fold_norm_plain (i : nat) (cs : list str) : forall acc,
  forallb is_plain cs = true -> fold_left (norm_step i) cs acc = acc ++ cs.
Proof.
  induction cs as [| c cs IH]; intros acc H; cbn [fold_left].
  - now rewrite app_nil_r.
  - cbn [forallb] in H. apply andb_prop in H. destruct H as [Hc Hcs].
    rewrite norm_step_plain, IH by assumption. now rewrite <- app_assoc.
Qed.

Lemma norm_step_up (acc : list str) (x : str) :
  is_plain x = true -> norm_step 1 (acc ++ [x]) (lit "..") = acc.
Proof.
  intros H. apply is_plain_parts in H. destruct H as (_ & _ & H3 & _).
  unfold norm_step. rewrite last_last, H3, removelast_last.
  destruct acc; reflexivity.
Qed.

Lemma abs_path_app (a b : list str) : abs_path (a ++ b) = abs_path a ++ abs_path b.
Proof. apply flat_map_app. Qed.

Lemma abs_path_join (c : str) (cs : list str) :
  abs_path (c :: cs) = "/"%char :: join (lit "/") (c :: cs).
Proof.
  revert c. induction cs as [| c' cs IH]; intros c.
  - cbn [abs_path flat_map join app]. now rewrite app_nil_r.
  - rewrite join_cons.
    change (abs_path (c :: c' :: cs)) with ("/"%char :: c ++ abs_path (c' :: cs)).
    rewrite IH. reflexivity.
Qed.

Lemma split_comp_abs (cs : list str) : forall c,
  ~ In "/"%char c -> Forall (fun c => ~ In "/"%char c) cs ->
  split_on "/" (c ++ abs_path cs) = c :: cs.
Proof.
  induction cs as [| c' cs IH]; intros c Hc Hcs.
  - cbn [abs_path flat_map]. rewrite app_nil_r. now apply split_on_single.
  - inversion Hcs; subst. cbn [abs_path flat_map app].
    rewrite split_on_app, split_on_single by assumption.
    change (flat_map (fun c0 => "/"%char :: c0) cs) with (abs_path cs).
    now rewrite IH.
Qed.

Lemma normpath_abs_path (c : str) (cs : list str) :
  c <> [] -> Forall (fun c => ~ In "/"%char c) (c :: cs) ->
  normpath (abs_path (c :: cs))
  = "/"%char :: join (lit "/") (fold_left (norm_step 1) (c :: cs) []).
Proof.
  intros Hne Hf. inversion Hf as [| ? ? Hc Hcs]; subst.
  unfold normpath.
  change (abs_path (c :: cs)) with ("/"%char :: c ++ abs_path cs).
  cbn [is_nil]. change (starts_with (lit "/") ("/"%char :: c ++ abs_path cs)) with true.
  assert (H2 : starts_with (lit "//") ("/"%char :: c ++ abs_path cs) = false).
  { destruct c as [| a c]; [contradiction |]. cbn [lit list_ascii_of_string starts_with app].
    destruct (ascii_dec "/" "/"); [| contradiction].
    destruct (ascii_dec "/" a) as [<- | _]; [| reflexivity].
    exfalso. apply Hc. now left. }
  rewrite H2. cbn [andb].
  cbn [split_on]. destruct (ascii_dec "/" "/"); [| contradiction].
  rewrite split_comp_abs by assumption.
  cbn [fold_left]. change (norm_step 1 [] []) with (@nil str).
  reflexivity.
Qed.

Lemma abspath_abs_path (cwd c : str) (cs : list str) :
  c <> [] -> Forall (fun c => ~ In "/"%char c) (c :: cs) ->
  abspath cwd (abs_path (c :: cs))
  = "/"%char :: join (lit "/") (fold_left (norm_step 1) (c :: cs) []).
Proof.
  intros Hne Hf. unfold abspath.
  change (starts_with (lit "/") (abs_path (c :: cs))) with true.
  now apply normpath_abs_path.
Qed.

Lemma starts_with_same_prefix (a p s : str) :
  starts_with (a ++ p) (a ++ s) = starts_with p s.
Proof.
  induction a as [| c a IH]; cbn [app starts_with]; [reflexivity |].
  destruct (ascii_dec c c); [exact IH | contradiction].
Qed.

Lemma starts_with_split (p : str) : forall s,
  starts_with p s = true -> exists d, s = p ++ d.
Proof.
  induction p as [| a p IH]; intros s H; [now exists s |].
  destruct s as [| b s]; cbn [starts_with] in H; [discriminate |].
  destruct (ascii_dec a b) as [<- | _]; [| discriminate].
  destruct (IH s H) as [d ->]. now exists d.
Qed.

Lemma ends_with_slash_digits (a d : str) :
  d <> [] -> forallb is_digit d = true -> ends_with_slash (a ++ d) = false.
Proof.
  intros Hne Hd. destruct (exists_last Hne) as (d' & x & ->).
  rewrite forallb_app in Hd. apply andb_prop in Hd. destruct Hd as [_ Hx].
  cbn [forallb] in Hx. rewrite andb_true_r in Hx.
  unfold ends_with_slash. rewrite app_assoc, rev_app_distr. cbn [rev app].
  destruct (ascii_dec x "/") as [-> | _]; [discriminate Hx | reflexivity].
Qed.

Lemma join_starts_plain (c : str) (cs : list str) :
  c <> [] -> ~ In "/"%char c -> starts_with (lit "/") (join (lit "/") (c :: cs)) = false.
Proof.
  intros Hne Hc. destruct c as [| a c]; [contradiction |].
  assert (Ha : "/"%char <> a) by (intros <-; apply Hc; now left).
  destruct cs as [| c' cs]; [cbn [join] | rewrite join_cons; cbn [app]];
    cbn [lit list_ascii_of_string starts_with];
    destruct (ascii_dec "/" a); (contradiction || reflexivity).
Qed.

(** ** The directory of a trial and what lies beside it *)

Lemma results_dir_abs (hs : list str) (t : Z) :
  Reconstruction.results_dir (abs_path hs) t
  = abs_path (hs ++ results_comps ++ [trial_dir t]).
Proof.
  unfold Reconstruction.results_dir. rewrite abs_path_app. f_equal.
  unfold trial_dir, results_comps, abs_path. cbn [flat_map app lit list_ascii_of_string].
  rewrite app_nil_r. reflexivity.
Qed.

Lemma trial_base_plain (hs : list str) (t : Z) :
  forallb is_plain hs = true -> 0 <= t ->
  forallb is_plain (hs ++ results_comps ++ [trial_dir t]) = true.
Proof.
  intros Hh Ht. destruct (str_of_int_round_trip t Ht) as (_ & Hd & _).
  rewrite !forallb_app, Hh. cbn [forallb andb].
  unfold trial_dir. rewrite is_plain_trial by assumption. reflexivity.
Qed.

Lemma plain_no_slash (cs : list str) :
  forallb is_plain cs = true -> Forall (fun c => ~ In "/"%char c) cs.
Proof.
  intros H. apply Forall_forall. intros c Hin.
  rewrite forallb_forall in H. apply is_plain_parts, H, Hin.
Qed.

(** The answer of the handler for a relative path of the names [c :: cs]:
    the check is made on the names that are left of the directory of the
    trial followed by [c :: cs] after normalisation. *)
Lemma image_check (hs : list str) (cwd : str) (file_exists : str -> bool) (t : Z)
    (c : str) (cs : list str) :
  forallb is_plain hs = true -> 0 <= t ->
  c <> [] -> Forall (fun c => ~ In "/"%char c) (c :: cs) ->
  Reconstruction.results_dir (abs_path hs) t ++ "/"%char :: join (lit "/") (c :: cs)
  = abs_path ((hs ++ results_comps ++ [trial_dir t]) ++ c :: cs) /\
  abspath cwd (abs_path ((hs ++ results_comps ++ [trial_dir t]) ++ c :: cs))
  = "/"%char :: join (lit "/")
                  (fold_left (norm_step 1) (c :: cs) (hs ++ results_comps ++ [trial_dir t])) /\
  Reconstruction.get_reconstruction_image (abs_path hs) cwd file_exists t
    (join (lit "/") (c :: cs))
  = if starts_with (abs_path (hs ++ results_comps ++ [trial_dir t]))
         ("/"%char :: join (lit "/")
            (fold_left (norm_step 1) (c :: cs) (hs ++ results_comps ++ [trial_dir t])))
    then served file_exists
           (Reconstruction.results_dir (abs_path hs) t
            ++ "/"%char :: join (lit "/") (c :: cs))
    else Reconstruction.Forbidden.
Proof.
  intros Hh Ht Hne Hf.
  pose proof (trial_base_plain hs t Hh Ht) as Hb.
  set (base := hs ++ results_comps ++ [trial_dir t]) in *.
  assert (Hfull : Reconstruction.results_dir (abs_path hs) t
                  ++ "/"%char :: join (lit "/") (c :: cs) = abs_path (base ++ c :: cs)).
  { rewrite results_dir_abs. fold base.
    rewrite (abs_path_app base (c :: cs)), (abs_path_join c cs). reflexivity. }
  assert (Hshape : exists h rest, base = h :: rest /\ h <> []).
  { unfold base. destruct hs as [| h hs'].
    - eexists; eexists. split; [reflexivity | discriminate].
    - exists h. eexists. split; [reflexivity |].
      cbn [forallb] in Hh. apply andb_prop in Hh. destruct Hh as [Hp _].
      apply is_plain_parts in Hp. destruct Hp as [Hp _]. now intros ->. }
  destruct Hshape as (h & rest & Eb & Hh0).
  assert (Hdir : abspath cwd (abs_path base) = abs_path base).
  { rewrite Eb. rewrite abspath_abs_path;
      [| assumption | rewrite <- Eb; now apply plain_no_slash].
    rewrite <- Eb, fold_norm_plain by assumption. cbn [app].
    rewrite Eb. now rewrite abs_path_join. }
  assert (Habs : abspath cwd (abs_path (base ++ c :: cs))
                 = "/"%char :: join (lit "/") (fold_left (norm_step 1) (c :: cs) base)).
  { rewrite Eb. cbn [app]. rewrite abspath_abs_path;
      [| assumption
       | change (h :: rest ++ c :: cs) with ((h :: rest) ++ c :: cs); rewrite <- Eb;
         apply Forall_app; split; [now apply plain_no_slash | assumption] ].
    change (h :: rest ++ c :: cs) with ((h :: rest) ++ c :: cs).
    rewrite <- Eb, fold_left_app, (fold_norm_plain 1 base []) by assumption.
    reflexivity. }
  split; [exact Hfull |]. split; [exact Habs |].
  unfold Reconstruction.get_reconstruction_image.
  assert (Hj : path_join (Reconstruction.results_dir (abs_path hs) t)
                 (join (lit "/") (c :: cs))
               = abs_path (base ++ c :: cs)).
  { rewrite <- Hfull. unfold path_join.
    rewrite join_starts_plain; [| assumption | now inversion Hf].
    destruct (str_of_int_round_trip t Ht) as (Hn & Hd & _).
    unfold Reconstruction.results_dir at 1 2.
    rewrite !app_assoc, ends_with_slash_digits by assumption.
    destruct ((abs_path hs ++ _) ++ str_of_int t) eqn:E; [| reflexivity].
    apply app_eq_nil in E. destruct E as [_ E]. contradiction. }
  rewrite Hj, results_dir_abs. fold base. rewrite Hdir, Habs.
  destruct (starts_with _ _); cbn [negb]; [| reflexivity].
  unfold served. rewrite (abs_path_app base), (abs_path_join c cs).
  destruct (file_exists _); reflexivity.
Qed.

Lemma slash_join_abs (l : list str) :
  l <> [] -> "/"%char :: join (lit "/") l = abs_path l.
Proof. destruct l; [contradiction | intros _; symmetry; apply abs_path_join]. Qed.

Lemma dotdot_no_slash : ~ In "/"%char (lit "..").
Proof. intros [H | [H | []]]; discriminate. Qed.

Lemma abs_path_last (l : list str) (x : str) :
  abs_path (l ++ [x]) = abs_path l ++ "/"%char :: x.
Proof.
  rewrite abs_path_app. cbn [abs_path flat_map]. now rewrite app_nil_r.
Qed.

(** X19: the check of the image handler compares the text of two paths.  A
    path of plain names is served from the directory of the trial, and a
    path that leaves it for a directory beside it is refused, unless the
    name of that directory begins with the name of the directory of the
    trial: the path [../trial_<u>/<f>] passes the check of trial [t]
    whenever the decimal text of [u] begins with that of [t], and what
    is served then is the file [f] of trial [u]. *)
Theorem image_check_compares_text (hs : list str) (cwd : str)
    (file_exists : str -> bool) (t : Z) :
  forallb is_plain hs = true -> 0 <= t ->
  (forall c cs, forallb is_plain (c :: cs) = true ->
     Reconstruction.get_reconstruction_image (abs_path hs) cwd file_exists t
       (join (lit "/") (c :: cs))
     = served file_exists
         (Reconstruction.results_dir (abs_path hs) t
          ++ "/"%char :: join (lit "/") (c :: cs))) /\
  (forall x, is_plain x = true -> starts_with (trial_dir t) x = false ->
     Reconstruction.get_reconstruction_image (abs_path hs) cwd file_exists t
       (lit "../" ++ x)
     = Reconstruction.Forbidden) /\
  (forall u f, 0 <= u -> starts_with (str_of_int t) (str_of_int u) = true ->
     is_plain f = true ->
     Reconstruction.get_reconstruction_image (abs_path hs) cwd file_exists t
       (lit "../" ++ trial_dir u ++ "/"%char :: f)
     = served file_exists
         (Reconstruction.results_dir (abs_path hs) t
          ++ "/"%char :: lit "../" ++ trial_dir u ++ "/"%char :: f) /\
     abspath cwd
       (Reconstruction.results_dir (abs_path hs) t
        ++ "/"%char :: lit "../" ++ trial_dir u ++ "/"%char :: f)
     = Reconstruction.results_dir (abs_path hs) u ++ "/"%char :: f).
Proof.
  intros Hh Ht.
  pose proof (trial_base_plain hs t Hh Ht) as Hb.
  assert (Hb0 : forallb is_plain (hs ++ results_comps) = true).
  { rewrite forallb_app, Hh. reflexivity. }
  assert (Hpt : is_plain (trial_dir t) = true).
  { destruct (str_of_int_round_trip t Ht) as (_ & Hd & _). now apply is_plain_trial. }
  assert (Eb : hs ++ results_comps ++ [trial_dir t]
               = (hs ++ results_comps) ++ [trial_dir t]) by apply app_assoc.
  split; [| split].
  - intros c cs Hp.
    assert (Hc : c <> []).
    { cbn [forallb] in Hp. apply andb_prop in Hp. destruct Hp as [Hp _].
      apply is_plain_parts in Hp. destruct Hp as [Hp _]. now intros ->. }
    destruct (image_check hs cwd file_exists t c cs Hh Ht Hc (plain_no_slash _ Hp))
      as (_ & _ & ->).
    rewrite fold_norm_plain by assumption.
    rewrite slash_join_abs by (intros E; apply app_eq_nil in E; destruct E; discriminate).
    now rewrite (abs_path_app (hs ++ results_comps ++ [trial_dir t]) (c :: cs)),
      starts_with_app.
  - intros x Hx Hs.
    change (lit "../" ++ x) with (join (lit "/") [lit ".."; x]).
    destruct (image_check hs cwd file_exists t (lit "..") [x] Hh Ht ltac:(discriminate))
      as (_ & _ & ->).
    { constructor; [exact dotdot_no_slash |]. constructor; [| constructor].
      now apply is_plain_parts. }
    cbn [fold_left]. rewrite Eb, norm_step_up, norm_step_plain by assumption.
    rewrite slash_join_abs by (intros E; apply app_eq_nil in E; destruct E; discriminate).
    rewrite !abs_path_last, starts_with_same_prefix. cbn [starts_with].
    destruct (ascii_dec "/" "/"); [| contradiction]. now rewrite Hs.
  - intros u f Hu Hs Hf.
    destruct (str_of_int_round_trip u Hu) as (_ & Hdu & _).
    assert (Hpu : is_plain (trial_dir u) = true) by now apply is_plain_trial.
    change (lit "../" ++ trial_dir u ++ "/"%char :: f)
      with (join (lit "/") [lit ".."; trial_dir u; f]).
    destruct (image_check hs cwd file_exists t (lit "..") [trial_dir u; f] Hh Ht
                ltac:(discriminate)) as (Hfull & Habs & ->).
    { constructor; [exact dotdot_no_slash |].
      constructor; [now apply is_plain_parts |].
      constructor; [now apply is_plain_parts | constructor]. }
    rewrite Hfull, Habs.
    cbn [fold_left]. rewrite Eb, norm_step_up, !norm_step_plain by assumption.
    rewrite slash_join_abs by (intros E; apply app_eq_nil in E; destruct E; discriminate).
    rewrite !abs_path_last.
    split.
    + rewrite <- !app_assoc, starts_with_same_prefix. cbn [app starts_with].
      destruct (ascii_dec "/" "/"); [| contradiction].
      destruct (starts_with_split _ _ Hs) as [d Ed].
      unfold trial_dir. rewrite Ed, <- !app_assoc.
      rewrite (app_assoc (lit "trial_") (str_of_int t)), starts_with_app. reflexivity.
    + rewrite results_dir_abs, app_assoc, abs_path_last. reflexivity.
Qed.

(** Asked of trial 1, the path [../trial_12/radial.png] is not refused:
    it is the file of trial 12. *)
Lemma image_check_compares_text_witness :
  Reconstruction.get_reconstruction_image (lit "/home/sim") (lit "/srv") (fun _ => true) 1
    (lit "../trial_12/radial.png")
  = Reconstruction.FileResponse
      (lit "/home/sim/workspaces/aquatic-mapping/reconstruction/results/trial_1/../trial_12/radial.png") /\
  abspath (lit "/srv")
    (lit "/home/sim/workspaces/aquatic-mapping/reconstruction/results/trial_1/../trial_12/radial.png")
  = lit "/home/sim/workspaces/aquatic-mapping/reconstruction/results/trial_12/radial.png".
Proof.
  pose proof (proj2 (proj2 (image_check_compares_text [lit "home"; lit "sim"] (lit "/srv")
                              (fun _ => true) 1 eq_refl ltac:(lia)))
                12 (lit "radial.png") ltac:(lia) eq_refl eq_refl) as [H1 H2].
  split; [exact H1 | exact H2].
Defined.
